(** * CareerCoach: session workflow, AI client and history store

  A shallow embedding of the two application sources of the repository,
  [src/index.tsx] (module [Index]) and [src/unnamed/part_000] (module
  [Part000]), and of the helper [analyzeWithGemini] both share.

  Conventions.
  - A JavaScript string is a [string]; its characters are the code units
    below 256.
  - A JavaScript [number] holding a score is a binary64 [float]; array
    indices and lengths are [nat].
  - A React state cell is a record field; a handler is a function from the
    state it runs in to the state after all its [setX] calls.
  - A handler that awaits [analyzeWithGemini] is a [Run]: it either ends
    without calling the service, or issues one request and continues with
    the outcome of the call. *)

From Stdlib Require Import ZArith Uint63 PrimFloat FloatOps SpecFloat.
From Stdlib Require Import Ascii String List Bool Lia.
From stdpp Require Import gmap strings list fin_maps.

Local Open Scope string_scope.

(** ** JavaScript strings *)

Module Js.

Definition LF : ascii := "010"%char.

(** White space removed by [String.prototype.trim]: TAB, LF, VT, FF, CR,
    SP and NBSP (the code units below 256 of the ECMAScript WhiteSpace and
    LineTerminator productions). *)
Definition isWhiteSpace (c : ascii) : bool :=
  let n := nat_of_ascii c in
  ((9 <=? n)%nat && (n <=? 13)%nat) || (n =? 32)%nat || (n =? 160)%nat.

Fixpoint trimStart (s : string) : string :=
  match s with
  | EmptyString => EmptyString
  | String c r => if isWhiteSpace c then trimStart r else s
  end.

Fixpoint trimEnd (s : string) : string :=
  match s with
  | EmptyString => EmptyString
  | String c r =>
      let r' := trimEnd r in
      if isWhiteSpace c && String.eqb r' "" then "" else String c r'
  end.

Definition trim (s : string) : string := trimEnd (trimStart s).

(** [s.startsWith(p)] *)
Fixpoint startsWith (s p : string) {struct p} : bool :=
  match p with
  | EmptyString => true
  | String c p' =>
      match s with
      | EmptyString => false
      | String d s' => Ascii.eqb c d && startsWith s' p'
      end
  end.

(** The rest of [s] after the prefix [p], when [s] starts with [p]. *)
Fixpoint afterPrefix (p s : string) : option string :=
  match p with
  | EmptyString => Some s
  | String c p' =>
      match s with
      | EmptyString => None
      | String d s' => if Ascii.eqb c d then afterPrefix p' s' else None
      end
  end.

(** [s.replace(/^<marker>\n?/, "")]: the marker at the very start and at
    most one line feed after it are removed; any other [s] is kept. *)
Definition replaceLeading (marker s : string) : string :=
  match afterPrefix marker s with
  | None => s
  | Some rest =>
      match rest with
      | String c rest' => if Ascii.eqb c LF then rest' else rest
      | EmptyString => rest
      end
  end.

(** [s.replace(/\n?```$/, "")]: without the [m] flag [$] is the end of the
    input, so the leftmost match starts at the first position whose rest
    is exactly the fence, with or without a line feed before it. *)
Fixpoint replaceTrailingFence (s : string) : string :=
  match s with
  | EmptyString => EmptyString
  | String c r =>
      if String.eqb s "```" || String.eqb s (String LF "```") then ""
      else String c (replaceTrailingFence r)
  end.

(** A truthy string is a non-empty one. *)
Definition truthy (s : string) : bool := negb (String.eqb s "").

(** An array length, or a small integer, as a [number]. *)
Definition Number (n : nat) : float :=
  PrimFloat.of_uint63 (Uint63.of_Z (Z.of_nat n)).

Definition Number_of_Z (z : Z) : float :=
  if (z <? 0)%Z then PrimFloat.opp (PrimFloat.of_uint63 (Uint63.of_Z (- z)))
  else PrimFloat.of_uint63 (Uint63.of_Z z).

(** [x || 0] on a number: 0, -0 and NaN are falsy. *)
Definition orZero (x : float) : float :=
  if PrimFloat.is_nan x || PrimFloat.is_zero x then 0%float else x.

(** [Math.max(x, y)]: NaN if either is NaN, and +0 is larger than -0. *)
Definition Math_max (x y : float) : float :=
  if PrimFloat.is_nan x || PrimFloat.is_nan y then PrimFloat.nan
  else if PrimFloat.ltb x y then y
  else if PrimFloat.ltb y x then x
  else if PrimFloat.is_zero x && PrimFloat.get_sign x then y else x.

(** [Math.round(x)]: the integer nearest to [x], ties towards +infinity;
    NaN, the infinities and the zeros are returned as they are, and a
    result that rounds to zero keeps the sign of [x].  A finite [x] is
    [m * 2^e]; with [e < 0] it is below 2^53 in magnitude, so the rounded
    integer [floor (x + 1/2)] is computed exactly in [Z]. *)
Definition Math_round (x : float) : float :=
  match Prim2SF x with
  | S754_finite s m e =>
      if (0 <=? e)%Z then x
      else
        let n := if s then Z.neg m else Z.pos m in
        let z := ((2 * n + 2 ^ (- e)) / 2 ^ (1 - e))%Z in
        if (z =? 0)%Z then (if s then (-0)%float else 0%float)
        else Number_of_Z z
  | _ => x
  end.

(** [l.findIndex(p)]: the first index whose element satisfies [p], or -1. *)
Fixpoint findIndex {A} (p : A -> bool) (l : list A) : Z :=
  match l with
  | [] => (-1)%Z
  | x :: r =>
      if p x then 0%Z
      else let i := findIndex p r in if (i <? 0)%Z then (-1)%Z else (i + 1)%Z
  end.

(** [l.splice(i, 1)], the list left in place. *)
Fixpoint splice1 {A} (i : nat) (l : list A) : list A :=
  match l, i with
  | [], _ => []
  | _ :: r, O => r
  | x :: r, S i' => x :: splice1 i' r
  end.

(** [l.indexOf(x)] *)
Definition indexOf {A} `{EqDecision A} (x : A) (l : list A) : Z :=
  findIndex (fun y => bool_decide (y = x)) l.

(** [l.join(sep)] on an array of strings. *)
Fixpoint join (sep : string) (l : list string) : string :=
  match l with
  | [] => ""
  | [x] => x
  | x :: r => x ++ sep ++ join sep r
  end.

(** [s.includes(p)] *)
Fixpoint includes (s p : string) : bool :=
  startsWith s p
  || match s with
     | EmptyString => false
     | String _ r => includes r p
     end.

(** [s.split("\n")]: the pieces between the line feeds, at least one. *)
Fixpoint splitLines (s : string) : list string :=
  match s with
  | EmptyString => [""]
  | String c r =>
      if Ascii.eqb c LF then "" :: splitLines r
      else
        match splitLines r with
        | p :: ps => String c p :: ps
        | [] => [String c ""]
        end
  end.

(** [s.substring(n)] *)
Fixpoint substringFrom (n : nat) (s : string) : string :=
  match n, s with
  | O, _ => s
  | S n', String _ r => substringFrom n' r
  | S _, EmptyString => EmptyString
  end.

End Js.

(** ** The AI client, [analyzeWithGemini] *)

Module Gemini.
Import Js.

(** What [ai.models.generateContent] does: it rejects, or it resolves to a
    response whose [text] may be undefined. *)
Inductive Response : Type :=
| CallFails (message : string)
| Responds (text : option string).

(** How an awaited call ends. *)
Inductive outcome (A : Type) : Type :=
| Returned (a : A)
| Thrown (message : string).
Arguments Returned {A} a.
Arguments Thrown {A} message.

(** The block guarded by [if (schema)]: trim, then strip one code fence. *)
Definition cleanFence (text : string) : string :=
  let text := trim text in
  if startsWith text "```json" then
    replaceTrailingFence (replaceLeading "```json" text)
  else if startsWith text "```" then
    replaceTrailingFence (replaceLeading "```" text)
  else text.

(** [JSON.parse] belongs to the host; it is a parameter, [None] standing
    for a thrown [SyntaxError].  With a schema the call returns the parsed
    value, without one the text itself. *)
Definition parsed {T} (v : option T) : outcome T :=
  match v with
  | Some v => Returned v
  | None => Thrown "SyntaxError"
  end.

Definition analyzeWithGemini {T} (JSON_parse : string -> option T)
    (schema : bool) (response : Response)
  : outcome (if schema then T else string) :=
  match response with
  | CallFails e => Thrown e
  | Responds None => Thrown "No response from AI"
  | Responds (Some text) =>
      if truthy text then
        match schema return outcome (if schema then T else string) with
        | true => parsed (JSON_parse (cleanFence text))
        | false => Returned text
        end
      else Thrown "No response from AI"
  end.

(** The prompt of a request is a fixed template around values read from
    the session; the template text is left out and the request is the task
    with the values interpolated into its prompt, in their order. *)
Inductive Task : Type :=
| FitAnalysis | ResumeVariants | CoverLetterVariants
| QuestionGeneration | AnswerGrading.

Record Request : Type := mkRequest { task : Task; inputs : list string }.

(** A handler over a state [S] that may await one schema-bearing call whose
    parsed result has type [T]. *)
Inductive Run (S T : Type) : Type :=
| Done (st : S)
| Await (req : Request) (k : outcome T -> S).
Arguments Done {S T} st.
Arguments Await {S T} req k.

(** The state a run ends in, given how its call (if any) ends. *)
Definition complete {S T} (r : Run S T) (o : outcome T) : S :=
  match r with
  | Done st => st
  | Await _ k => k o
  end.

(** The number of calls a run makes. *)
Definition calls {S T} (r : Run S T) : nat :=
  match r with
  | Done _ => 0
  | Await _ _ => 1
  end.

End Gemini.

(** ** Data model shared by both sources *)

Module User.
Record t : Type := mk { email : string; name : string }.
End User.

Inductive Priority : Type := high | medium | low.

Module Recommendation.
Record t : Type := mk
  { priority : Priority; suggestion : string; location : string }.
End Recommendation.

Module KeywordDensity.
Record t : Type := mk { term : string; count : float }.
End KeywordDensity.

Module AnalysisResult.
Record t : Type := mk
  { match_score : float;
    missing_keywords : list string;
    keyword_density : list KeywordDensity.t;
    formatting_issues : list string;
    skills_gap : list string;
    recommendations : list Recommendation.t }.
End AnalysisResult.

Inductive QuestionType : Type := behavioral | technical | situational.

Definition typeName (ty : QuestionType) : string :=
  match ty with
  | behavioral => "behavioral"
  | technical => "technical"
  | situational => "situational"
  end.

Module InterviewQuestion.
Record t : Type := mk
  { type : QuestionType; question : string; why_asked : string }.
End InterviewQuestion.

Module AnswerFeedback.
Record t : Type := mk
  { score : float;
    strengths : list string;
    improvements : list string;
    model_answer : string;
    specific_feedback : string }.
End AnswerFeedback.

(** The parsed result of a versions task and of the questions task.  The
    array is a property of the result object: [None] is an object without
    the property, which the handlers test with [!result.versions]. *)
Module VersionsResult.
Record t (V : Type) : Type := mk { versions : option (list V) }.
Arguments mk {V} versions.
Arguments versions {V} _.
End VersionsResult.

Module QuestionsResult.
Record t : Type := mk { questions : option (list InterviewQuestion.t) }.
End QuestionsResult.

(** The part of a browser [File] the handlers read. *)
Module File.
Record t : Type := mk { type : string; name : string }.
End File.

(** What the libraries that read a file resolve to, or throw: the pages of
    a PDF (each the [str] of its items), the [value] of mammoth's raw text,
    and the text of a plain file. *)
Record Extractors : Type := mkExtractors
  { pdfPages : Gemini.outcome (list (list string));
    docxValue : Gemini.outcome string;
    plainText : Gemini.outcome string }.

(** The loop over the pages: [text += items.join(" ") + "\n"]. *)
Definition pdfText (pages : list (list string)) : string :=
  fold_left (fun text items => text ++ Js.join " " items ++ String Js.LF "")
    pages "".

(** [localStorage]: keys and values are strings. *)
Abbreviation Storage := (gmap string string).

Definition historyKey (email : string) : string := "cc_history_" +:+ email.
Definition userSessionKey : string := "cc_user_session".

(** ** [src/index.tsx] *)

Module Index.
Import Js Gemini.

Module Step.
Inductive t : Type :=
| landing | upload | job_desc | analysis | cover_letter
| interview_intro | interview_practice | summary | history.
#[global] Instance index_step_eq_dec : EqDecision t.
Proof. solve_decision. Defined.
End Step.

Module Tab.
Inductive t : Type := analysis | optimized.
End Tab.

Module InputMode.
Inductive t : Type := text | url.
#[global] Instance index_input_mode_eq_dec : EqDecision t.
Proof. solve_decision. Defined.
End InputMode.

(** [ResumeVersion] and [CoverLetterVersion] are the same structural type. *)
Module Version.
Record t : Type := mk { id : string; name : string; content : string }.
End Version.

Module Answer.
Record t : Type := mk
  { questionIndex : nat;
    userAnswer : string;
    feedback : option AnswerFeedback.t }.
End Answer.

(** [coverLetters] is assigned [result.versions] unchecked and so holds
    [undefined] ([None]) when the result has no such property. *)
Module SessionData.
Record t : Type := mk
  { id : string;
    timestamp : Z;
    resumeText : string;
    jobDescription : string;
    jobUrl : option string;
    fileName : string;
    analysis : option AnalysisResult.t;
    optimizedResumes : list Version.t;
    selectedResumeIndex : nat;
    coverLetters : option (list Version.t);
    selectedCoverLetterIndex : nat;
    questions : list InterviewQuestion.t;
    answers : list Answer.t }.

(** The patches [{ ...prev, field: value }] the handlers apply. *)
Definition patch_resume (text file : string) (prev : t) : t :=
  mk (id prev) (timestamp prev) text (jobDescription prev) (jobUrl prev)
     file (analysis prev) (optimizedResumes prev) (selectedResumeIndex prev)
     (coverLetters prev) (selectedCoverLetterIndex prev) (questions prev)
     (answers prev).

Definition patch_jobDescription (value : string) (prev : t) : t :=
  mk (id prev) (timestamp prev) (resumeText prev) value (jobUrl prev)
     (fileName prev) (analysis prev) (optimizedResumes prev)
     (selectedResumeIndex prev) (coverLetters prev)
     (selectedCoverLetterIndex prev) (questions prev) (answers prev).

Definition patch_jobUrl (value : string) (prev : t) : t :=
  mk (id prev) (timestamp prev) (resumeText prev) (jobDescription prev)
     (Some value) (fileName prev) (analysis prev) (optimizedResumes prev)
     (selectedResumeIndex prev) (coverLetters prev)
     (selectedCoverLetterIndex prev) (questions prev) (answers prev).

Definition patch_analysis (result : AnalysisResult.t) (prev : t) : t :=
  mk (id prev) (timestamp prev) (resumeText prev) (jobDescription prev)
     (jobUrl prev) (fileName prev) (Some result) (optimizedResumes prev)
     (selectedResumeIndex prev) (coverLetters prev)
     (selectedCoverLetterIndex prev) (questions prev) (answers prev).

Definition patch_optimizedResumes (versions : list Version.t)
    (selected : nat) (prev : t) : t :=
  mk (id prev) (timestamp prev) (resumeText prev) (jobDescription prev)
     (jobUrl prev) (fileName prev) (analysis prev) versions selected
     (coverLetters prev) (selectedCoverLetterIndex prev) (questions prev)
     (answers prev).

Definition patch_coverLetters (versions : option (list Version.t))
    (selected : nat) (prev : t) : t :=
  mk (id prev) (timestamp prev) (resumeText prev) (jobDescription prev)
     (jobUrl prev) (fileName prev) (analysis prev) (optimizedResumes prev)
     (selectedResumeIndex prev) versions selected (questions prev)
     (answers prev).

Definition patch_questions (value : list InterviewQuestion.t) (prev : t) : t :=
  mk (id prev) (timestamp prev) (resumeText prev) (jobDescription prev)
     (jobUrl prev) (fileName prev) (analysis prev) (optimizedResumes prev)
     (selectedResumeIndex prev) (coverLetters prev)
     (selectedCoverLetterIndex prev) value (answers prev).

Definition patch_answers (value : list Answer.t) (prev : t) : t :=
  mk (id prev) (timestamp prev) (resumeText prev) (jobDescription prev)
     (jobUrl prev) (fileName prev) (analysis prev) (optimizedResumes prev)
     (selectedResumeIndex prev) (coverLetters prev)
     (selectedCoverLetterIndex prev) (questions prev) value.
Definition patch_selectedResumeIndex (idx : nat) (prev : t) : t :=
  mk (id prev) (timestamp prev) (resumeText prev) (jobDescription prev)
     (jobUrl prev) (fileName prev) (analysis prev) (optimizedResumes prev)
     idx (coverLetters prev) (selectedCoverLetterIndex prev) (questions prev)
     (answers prev).

Definition patch_selectedCoverLetterIndex (idx : nat) (prev : t) : t :=
  mk (id prev) (timestamp prev) (resumeText prev) (jobDescription prev)
     (jobUrl prev) (fileName prev) (analysis prev) (optimizedResumes prev)
     (selectedResumeIndex prev) (coverLetters prev) idx (questions prev)
     (answers prev).
End SessionData.

(** The state cells of [App], and the browser's [localStorage]. *)
Record AppState : Type := mkApp
  { currentStep : Step.t;
    loading : bool;
    loadingMessage : string;
    error : option string;
    activeTab : Tab.t;
    jobInputMode : InputMode.t;
    editingContent : option string;
    history : list SessionData.t;
    user : option User.t;
    showAuthModal : bool;
    session : SessionData.t;
    localStorage : Storage }.

Definition setCurrentStep (v : Step.t) (st : AppState) : AppState :=
  mkApp v (loading st) (loadingMessage st) (error st) (activeTab st)
    (jobInputMode st) (editingContent st) (history st) (user st)
    (showAuthModal st) (session st) (localStorage st).

Definition setLoading (v : bool) (st : AppState) : AppState :=
  mkApp (currentStep st) v (loadingMessage st) (error st) (activeTab st)
    (jobInputMode st) (editingContent st) (history st) (user st)
    (showAuthModal st) (session st) (localStorage st).

Definition setLoadingMessage (v : string) (st : AppState) : AppState :=
  mkApp (currentStep st) (loading st) v (error st) (activeTab st)
    (jobInputMode st) (editingContent st) (history st) (user st)
    (showAuthModal st) (session st) (localStorage st).

Definition setError (v : option string) (st : AppState) : AppState :=
  mkApp (currentStep st) (loading st) (loadingMessage st) v (activeTab st)
    (jobInputMode st) (editingContent st) (history st) (user st)
    (showAuthModal st) (session st) (localStorage st).

Definition setActiveTab (v : Tab.t) (st : AppState) : AppState :=
  mkApp (currentStep st) (loading st) (loadingMessage st) (error st) v
    (jobInputMode st) (editingContent st) (history st) (user st)
    (showAuthModal st) (session st) (localStorage st).

Definition setHistory (v : list SessionData.t) (st : AppState) : AppState :=
  mkApp (currentStep st) (loading st) (loadingMessage st) (error st)
    (activeTab st) (jobInputMode st) (editingContent st) v (user st)
    (showAuthModal st) (session st) (localStorage st).

Definition setUser (v : option User.t) (st : AppState) : AppState :=
  mkApp (currentStep st) (loading st) (loadingMessage st) (error st)
    (activeTab st) (jobInputMode st) (editingContent st) (history st) v
    (showAuthModal st) (session st) (localStorage st).

Definition setShowAuthModal (v : bool) (st : AppState) : AppState :=
  mkApp (currentStep st) (loading st) (loadingMessage st) (error st)
    (activeTab st) (jobInputMode st) (editingContent st) (history st)
    (user st) v (session st) (localStorage st).

(** [setSession(prev => f(prev))] *)
Definition setSession (f : SessionData.t -> SessionData.t) (st : AppState)
  : AppState :=
  mkApp (currentStep st) (loading st) (loadingMessage st) (error st)
    (activeTab st) (jobInputMode st) (editingContent st) (history st)
    (user st) (showAuthModal st) (f (session st)) (localStorage st).

Definition withStorage (f : Storage -> Storage) (st : AppState) : AppState :=
  mkApp (currentStep st) (loading st) (loadingMessage st) (error st)
    (activeTab st) (jobInputMode st) (editingContent st) (history st)
    (user st) (showAuthModal st) (session st) (f (localStorage st)).

Definition setItem (key value : string) : AppState -> AppState :=
  withStorage (fun m => <[key := value]> m).

Definition removeItem (key : string) : AppState -> AppState :=
  withStorage (fun m => delete key m).

(** The initial values of the state cells; [crypto.randomUUID()] and
    [Date.now()] are inputs. *)
Definition freshSession (uuid : string) (now : Z) : SessionData.t :=
  SessionData.mk uuid now "" "" None "" None [] 0 (Some []) 0 [] [].

Definition initialState (uuid : string) (now : Z) (storage : Storage)
  : AppState :=
  mkApp Step.landing false "" None Tab.analysis InputMode.text None [] None
    false (freshSession uuid now) storage.

(** The button "Start New Analysis" of the summary step. *)
Definition startNewAnalysis (uuid : string) (now : Z) (st : AppState)
  : AppState :=
  setCurrentStep Step.landing (setSession (fun _ => freshSession uuid now) st).

(** The state cells of the [InterviewSession] component. *)
Record InterviewState : Type := mkInterview
  { currentIndex : nat;
    answerText : string;
    isAnalyzing : bool;
    feedback : option AnswerFeedback.t }.

Definition setIsAnalyzing (v : bool) (c : InterviewState) : InterviewState :=
  mkInterview (currentIndex c) (answerText c) v (feedback c).

Definition setFeedback (v : option AnswerFeedback.t) (c : InterviewState)
  : InterviewState :=
  mkInterview (currentIndex c) (answerText c) (isAnalyzing c) v.

Section Handlers.

(** [JSON.parse] and [JSON.stringify] at the types kept in storage; [None]
    is a thrown [SyntaxError]. *)
Context (JSON_parse_history : string -> option (list SessionData.t))
        (JSON_stringify_history : list SessionData.t -> string)
        (JSON_parse_user : string -> option User.t)
        (JSON_stringify_user : User.t -> string).

(** [None]: [JSON.parse] throws before [setHistory]. *)
Definition loadHistory (email : string) (st : AppState) : option AppState :=
  match localStorage st !! historyKey email with
  | Some savedHistory =>
      if truthy savedHistory then
        match JSON_parse_history savedHistory with
        | Some parsed => Some (setHistory parsed st)
        | None => None
        end
      else Some (setHistory [] st)
  | None => Some (setHistory [] st)
  end.

(** The effect run on mount.  It has no [try]: when [JSON.parse] throws,
    on the stored user or in [loadHistory], the exception leaves the effect
    and React removes the page; [None] is the page removed. *)
Definition onMount (st : AppState) : option AppState :=
  match localStorage st !! userSessionKey with
  | Some savedUser =>
      if truthy savedUser then
        match JSON_parse_user savedUser with
        | Some parsedUser =>
            loadHistory (User.email parsedUser) (setUser (Some parsedUser) st)
        | None => None
        end
      else Some st
  | None => Some st
  end.

Definition saveHistoryToStorage (updatedHistory : list SessionData.t)
    (st : AppState) : AppState :=
  match user st with
  | Some u =>
      setItem (historyKey (User.email u))
        (JSON_stringify_history updatedHistory) st
  | None => st
  end.

(** An exception of [JSON.parse] leaves the handler; the cells set before it
    keep their new values. *)
Definition handleLogin (newUser : User.t) (st : AppState) : AppState :=
  let st1 := setUser (Some newUser) st in
  match loadHistory (User.email newUser) st1 with
  | None => st1
  | Some st2 =>
      if bool_decide (currentStep st = Step.summary) then
        let userHistory := localStorage st2 !! historyKey (User.email newUser) in
        let parsedHistory :=
          match userHistory with
          | Some txt => if truthy txt then JSON_parse_history txt else Some []
          | None => Some []
          end in
        match parsedHistory with
        | None => st2
        | Some parsedHistory =>
            let newHistory := session st :: parsedHistory in
            setItem (historyKey (User.email newUser))
              (JSON_stringify_history newHistory)
              (setHistory newHistory st2)
        end
      else st2
  end.

Definition handleLogout (st : AppState) : AppState :=
  setCurrentStep Step.landing
    (setHistory [] (setUser None (removeItem userSessionKey st))).

(** [email.split('@')[0]] *)
Fixpoint beforeAt (s : string) : string :=
  match s with
  | EmptyString => EmptyString
  | String c r => if Ascii.eqb c "@"%char then "" else String c (beforeAt r)
  end.

(** Whether [handleLogin] is left by an exception: [JSON.parse] throws on
    the stored history.  The second read, on the summary step, parses the
    text the first one parsed. *)
Definition handleLogin_throws (newUser : User.t) (st : AppState) : bool :=
  match loadHistory (User.email newUser) (setUser (Some newUser) st) with
  | Some _ => false
  | None => true
  end.

(** [AuthModal]'s [handleSubmit], after its simulated delay.  When [onLogin]
    throws, the exception leaves the handler before [onClose()]: the modal
    stays as it is.  The [loading] cell of the modal itself is not part of
    the state of [App]. *)
Definition AuthModal_handleSubmit (isSignUp : bool) (email name : string)
    (st : AppState) : AppState :=
  let u := User.mk email (if isSignUp then name else beforeAt email) in
  let st1 := setItem userSessionKey (JSON_stringify_user u) st in
  if handleLogin_throws u st1 then handleLogin u st1
  else setShowAuthModal false (handleLogin u st1).

Definition handlePasteResume (text : string) (st : AppState) : AppState :=
  if negb (truthy (trim text)) then st
  else
    setCurrentStep Step.job_desc
      (setSession (SessionData.patch_resume text "Pasted Resume") st).

Definition handleAnalyze (st : AppState) : Run AppState AnalysisResult.t :=
  if negb (truthy (trim (SessionData.jobDescription (session st)))) then
    Done (setError (Some "Please enter a job description") st)
  else
    let st1 :=
      setError None
        (setLoadingMessage "AI is analyzing your resume fit..."
           (setLoading true st)) in
    Await
      (mkRequest FitAnalysis
         [SessionData.resumeText (session st);
          SessionData.jobDescription (session st)])
      (fun o =>
         setLoading false
           match o with
           | Returned result =>
               setCurrentStep Step.analysis
                 (setSession (SessionData.patch_analysis result) st1)
           | Thrown _ =>
               setError (Some "Failed to analyze resume. Please try again.")
                 st1
           end).

(** The button "Analyze My Fit": a disabled button has no click. *)
Definition clickAnalyze (st : AppState) : Run AppState AnalysisResult.t :=
  if bool_decide (jobInputMode st = InputMode.text)
     && negb (truthy (trim (SessionData.jobDescription (session st))))
  then Done st
  else handleAnalyze st.

Definition handleGenerateOptimizedResumes (st : AppState)
  : Run AppState (VersionsResult.t Version.t) :=
  match SessionData.analysis (session st) with
  | None => Done st
  | Some _ =>
      let st1 :=
        setLoadingMessage "Generating 3 optimized resume variations..."
          (setLoading true st) in
      let failed :=
        setError
          (Some "Failed to generate optimized resumes. Please try again.")
          st1 in
      Await
        (mkRequest ResumeVariants
           [SessionData.resumeText (session st);
            SessionData.jobDescription (session st)])
        (fun o =>
           setLoading false
             match o with
             | Returned result =>
                 match VersionsResult.versions result with
                 | None | Some [] => failed
                 | Some versions =>
                     setActiveTab Tab.optimized
                       (setSession
                          (SessionData.patch_optimizedResumes versions 0) st1)
                 end
             | Thrown _ => failed
             end)
  end.

Definition handleGenerateCoverLetters (st : AppState)
  : Run AppState (VersionsResult.t Version.t) :=
  let st1 :=
    setLoadingMessage "Drafting 3 cover letter options..."
      (setLoading true st) in
  Await
    (mkRequest CoverLetterVariants
       [SessionData.resumeText (session st);
        SessionData.jobDescription (session st)])
    (fun o =>
       setLoading false
         match o with
         | Returned result =>
             setCurrentStep Step.cover_letter
               (setSession
                  (SessionData.patch_coverLetters
                     (VersionsResult.versions result) 0) st1)
         | Thrown _ => setError (Some "Failed to generate cover letters.") st1
         end).

Definition handleGenerateQuestions (st : AppState)
  : Run AppState QuestionsResult.t :=
  let st1 :=
    setLoadingMessage "Curating interview questions..." (setLoading true st) in
  let failed :=
    setError
      (Some "Failed to generate interview questions. Please try again.")
      st1 in
  Await
    (mkRequest QuestionGeneration
       [SessionData.jobDescription (session st);
        SessionData.resumeText (session st)])
    (fun o =>
       setLoading false
         match o with
         | Returned result =>
             match QuestionsResult.questions result with
             | None | Some [] => failed
             | Some questions =>
                 setCurrentStep Step.interview_intro
                   (setSession (SessionData.patch_questions questions) st1)
             end
         | Thrown _ => failed
         end).

Definition handleFinishSession (st : AppState) : AppState :=
  let st1 :=
    match user st with
    | Some _ =>
        let newHistory := session st :: history st in
        saveHistoryToStorage newHistory (setHistory newHistory st)
    | None => st
    end in
  setCurrentStep Step.summary st1.

(** The [onAnswerSubmit] prop given to [InterviewSession], as the function
    handed to [setSession]. *)
Definition onAnswerSubmit (index : nat) (answer : string)
    (fb : AnswerFeedback.t) (prev : SessionData.t) : SessionData.t :=
  let newAnswers := SessionData.answers prev in
  let existingIdx :=
    findIndex (fun a => Nat.eqb (Answer.questionIndex a) index) newAnswers in
  let newAnswers :=
    if (existingIdx >? -1)%Z then splice1 (Z.to_nat existingIdx) newAnswers
    else newAnswers in
  let newAnswers := (newAnswers ++ [Answer.mk index answer (Some fb)])%list in
  SessionData.patch_answers newAnswers prev.

(** [InterviewSession]'s [handleSubmit]; its props are read from the
    session.  The prompt is built inside the [try]: with no current question
    reading [currentQuestion.question] throws and the [catch] runs. *)
Definition InterviewSession_handleSubmit (st : AppState) (c : InterviewState)
  : Run (AppState * InterviewState) AnswerFeedback.t :=
  if negb (truthy (trim (answerText c))) then Done (st, c)
  else
    let c1 := setIsAnalyzing true c in
    match SessionData.questions (session st) !! currentIndex c with
    | None => Done (st, setIsAnalyzing false c1)
    | Some currentQuestion =>
        Await
          (mkRequest AnswerGrading
             [substring 0 1000 (SessionData.jobDescription (session st));
              InterviewQuestion.question currentQuestion;
              typeName (InterviewQuestion.type currentQuestion);
              answerText c])
          (fun o =>
             match o with
             | Returned result =>
                 (setSession
                    (onAnswerSubmit (currentIndex c) (answerText c) result) st,
                  setIsAnalyzing false (setFeedback (Some result) c1))
             | Thrown _ => (st, setIsAnalyzing false c1)
             end)
    end.

(** [curr.feedback?.score || 0] *)
Definition answerScore (curr : Answer.t) : float :=
  match Answer.feedback curr with
  | Some fb => orZero (AnswerFeedback.score fb)
  | None => 0%float
  end.

(** The number shown as "Interview Score", before the percent sign; the
    summary step and a history entry use the same expression. *)
Definition interviewScore (answers : list Answer.t) : float :=
  Math_round
    (PrimFloat.mul
       (PrimFloat.div
          (fold_left (fun acc curr => PrimFloat.add acc (answerScore curr))
             answers 0%float)
          (Math_max 1%float (Number (length answers))))
       10%float).



End Handlers.

(** *** The remaining parts of [App] and of its components *)

Definition setJobInputMode (v : InputMode.t) (st : AppState) : AppState :=
  mkApp (currentStep st) (loading st) (loadingMessage st) (error st)
    (activeTab st) v (editingContent st) (history st) (user st)
    (showAuthModal st) (session st) (localStorage st).

Definition setEditingContent (v : option string) (st : AppState) : AppState :=
  mkApp (currentStep st) (loading st) (loadingMessage st) (error st)
    (activeTab st) (jobInputMode st) v (history st) (user st)
    (showAuthModal st) (session st) (localStorage st).

Definition setCurrentIndex (f : nat -> nat) (c : InterviewState)
  : InterviewState :=
  mkInterview (f (currentIndex c)) (answerText c) (isAnalyzing c) (feedback c).

Definition setAnswerText (v : string) (c : InterviewState) : InterviewState :=
  mkInterview (currentIndex c) v (isAnalyzing c) (feedback c).

(** The component as mounted. *)
Definition freshInterview : InterviewState := mkInterview 0 "" false None.

(** [ProgressBar]: [None] when nothing is rendered, else the width of the
    bar in percent. *)
Definition progressSteps : list Step.t :=
  [Step.landing; Step.upload; Step.job_desc; Step.analysis; Step.cover_letter;
   Step.interview_intro; Step.interview_practice; Step.summary].

Definition ProgressBar (step : Step.t) : option float :=
  let currentIndex := indexOf step progressSteps in
  if bool_decide (step = Step.landing) || bool_decide (step = Step.history)
  then None
  else
    Some
      (Math_max 5%float
         (PrimFloat.mul
            (PrimFloat.div (Number_of_Z currentIndex)
               (Number_of_Z (Z.of_nat (length progressSteps) - 1)))
            100%float)).

Definition pdfMime : string := "application/pdf".
Definition docxMime : string :=
  "application/vnd.openxmlformats-officedocument.wordprocessingml.document".

(** The body of the [try] of [handleFileUpload] up to its two [throw]s. *)
Definition extractText (file : File.t) (ex : Extractors) : outcome string :=
  let read :=
    if String.eqb (File.type file) pdfMime then
      match pdfPages ex with
      | Returned pages => Returned (pdfText pages)
      | Thrown m => Thrown m
      end
    else if String.eqb (File.type file) docxMime then docxValue ex
    else if String.eqb (File.type file) "text/plain" then plainText ex
    else Thrown "Unsupported file format" in
  match read with
  | Returned text =>
      if negb (truthy (trim text)) then
        Thrown
          "Could not extract text from file. Please try pasting plain text."
      else Returned text
  | Thrown m => Thrown m
  end.

(** [handleFileUpload]; the loading screen hides the page while it runs.
    [err.message || "Failed to parse file"] *)
Definition handleFileUpload (file : File.t) (ex : Extractors) (st : AppState)
  : AppState :=
  let st1 :=
    setError None (setLoadingMessage "Parsing document..." (setLoading true st))
  in
  setLoading false
    match extractText file ex with
    | Returned text =>
        setCurrentStep Step.job_desc
          (setSession (SessionData.patch_resume text (File.name file)) st1)
    | Thrown message =>
        setError
          (Some (if truthy message then message else "Failed to parse file"))
          st1
    end.

(** The buttons over the generated versions; a button exists for each index
    of the list shown. *)
Definition selectResume (idx : nat) (st : AppState) : AppState :=
  if (idx <? length (SessionData.optimizedResumes (session st)))%nat then
    setEditingContent None
      (setSession (SessionData.patch_selectedResumeIndex idx) st)
  else st.

Definition selectCoverLetter (idx : nat) (st : AppState) : AppState :=
  match SessionData.coverLetters (session st) with
  | Some letters =>
      if (idx <? length letters)%nat then
        setEditingContent None
          (setSession (SessionData.patch_selectedCoverLetterIndex idx) st)
      else st
  | None => st
  end.

Definition withContent (value : string) (v : Version.t) : Version.t :=
  Version.mk (Version.id v) (Version.name v) value.

(** "Save Changes" on the resume tab, by value: the session it builds.  The
    button exists while [editingContent] is a string; an index out of range
    makes the assignment throw and nothing is set. *)
Definition saveResumeChanges (st : AppState) : AppState :=
  match editingContent st with
  | None => st
  | Some value =>
      let resumes := SessionData.optimizedResumes (session st) in
      match resumes !! SessionData.selectedResumeIndex (session st) with
      | None => st
      | Some v =>
          let updatedResumes :=
            <[SessionData.selectedResumeIndex (session st) :=
                withContent value v]> resumes in
          setEditingContent None
            (setSession
               (fun prev =>
                  SessionData.patch_optimizedResumes updatedResumes
                    (SessionData.selectedResumeIndex prev) prev)
               st)
      end
  end.

Definition saveCoverLetterChanges (st : AppState) : AppState :=
  match editingContent st, SessionData.coverLetters (session st) with
  | Some value, Some letters =>
      match letters !! SessionData.selectedCoverLetterIndex (session st) with
      | None => st
      | Some v =>
          let updated :=
            <[SessionData.selectedCoverLetterIndex (session st) :=
                withContent value v]> letters in
          setEditingContent None
            (setSession
               (fun prev =>
                  SessionData.patch_coverLetters (Some updated)
                    (SessionData.selectedCoverLetterIndex prev) prev)
               st)
      end
  | _, _ => st
  end.

(** The lists of the summary step: [filter(...).slice(0, 2)] over the
    recommendations, [flatMap(...).slice(0, n)] over the answers. *)
Definition isHigh (r : Recommendation.t) : bool :=
  match Recommendation.priority r with
  | high => true
  | _ => false
  end.

Definition resumeFixes (st : AppState) : list Recommendation.t :=
  match SessionData.analysis (session st) with
  | Some a => take 2 (List.filter isHigh (AnalysisResult.recommendations a))
  | None => []
  end.

Definition improvementsOf (a : Answer.t) : list string :=
  match Answer.feedback a with
  | Some fb => AnswerFeedback.improvements fb
  | None => []
  end.

Definition strengthsOf (a : Answer.t) : list string :=
  match Answer.feedback a with
  | Some fb => AnswerFeedback.strengths fb
  | None => []
  end.

Definition interviewFixes (st : AppState) : list string :=
  take 2 (flat_map improvementsOf (SessionData.answers (session st))).

Definition strengthsShown (st : AppState) : list string :=
  take 4 (flat_map strengthsOf (SessionData.answers (session st))).

Section Interview.

Context (JSON_stringify_history : list SessionData.t -> string).

(** [isLastQuestion] compares numbers: [length - 1] is -1 on an empty list. *)
Definition isLastQuestion (st : AppState) (c : InterviewState) : bool :=
  (Z.of_nat (currentIndex c)
   =? Z.of_nat (length (SessionData.questions (session st))) - 1)%Z.

(** [InterviewSession]'s [handleNext], with [onComplete] the
    [handleFinishSession] of [App]. *)
Definition InterviewSession_handleNext (stc : AppState * InterviewState)
  : AppState * InterviewState :=
  let '(st, c) := stc in
  let c1 := setAnswerText "" (setFeedback None c) in
  if isLastQuestion st c then
    (handleFinishSession JSON_stringify_history st, c1)
  else (st, setCurrentIndex S c1).

End Interview.

(** *** The events of the page

    One constructor per control of the page that changes the state; an
    awaited handler carries the outcome of its call.  Which controls a step
    shows is not modelled: every event is allowed in every state, except
    that a selection button exists only for an index of the list shown.
    When the effect run on mount throws, the page is removed and no event
    follows; the run then keeps the state it had, one the page has shown. *)
Inductive Action : Type :=
| Mount
| ShowStep (step : Step.t)
| OpenAuth (open : bool)
| SubmitAuth (isSignUp : bool) (email name : string)
| Logout
| DismissError
| Upload (file : File.t) (ex : Extractors)
| Paste (text : string)
| TypeJobDescription (value : string)
| TypeJobUrl (value : string)
| ChooseInputMode (mode : InputMode.t)
| ClickAnalyze (o : outcome AnalysisResult.t)
| ChooseTab (tab : Tab.t)
| GenerateResumes (o : outcome (VersionsResult.t Version.t))
| GenerateCoverLetters (o : outcome (VersionsResult.t Version.t))
| GenerateQuestions (o : outcome QuestionsResult.t)
| SelectResume (idx : nat)
| SelectCoverLetter (idx : nat)
| TypeEdit (value : string)
| CancelEdit
| SaveResume
| SaveCoverLetter
| AnswerGraded (index : nat) (answer : string) (fb : AnswerFeedback.t)
| FinishSession
| StartNew (uuid : string) (now : Z).

Section Actions.

Context (JSON_parse_history : string -> option (list SessionData.t))
        (JSON_stringify_history : list SessionData.t -> string)
        (JSON_parse_user : string -> option User.t)
        (JSON_stringify_user : User.t -> string).

Definition perform (a : Action) (st : AppState) : AppState :=
  match a with
  | Mount => default st (onMount JSON_parse_history JSON_parse_user st)
  | ShowStep step => setCurrentStep step st
  | OpenAuth open => setShowAuthModal open st
  | SubmitAuth isSignUp email name =>
      AuthModal_handleSubmit JSON_parse_history JSON_stringify_history
        JSON_stringify_user isSignUp email name st
  | Logout => handleLogout st
  | DismissError => setError None st
  | Upload file ex => handleFileUpload file ex st
  | Paste text => handlePasteResume text st
  | TypeJobDescription value =>
      setSession (SessionData.patch_jobDescription value) st
  | TypeJobUrl value => setSession (SessionData.patch_jobUrl value) st
  | ChooseInputMode mode => setJobInputMode mode st
  | ClickAnalyze o => complete (clickAnalyze st) o
  | ChooseTab tab => setActiveTab tab st
  | GenerateResumes o => complete (handleGenerateOptimizedResumes st) o
  | GenerateCoverLetters o => complete (handleGenerateCoverLetters st) o
  | GenerateQuestions o => complete (handleGenerateQuestions st) o
  | SelectResume idx => selectResume idx st
  | SelectCoverLetter idx => selectCoverLetter idx st
  | TypeEdit value => setEditingContent (Some value) st
  | CancelEdit => setEditingContent None st
  | SaveResume => saveResumeChanges st
  | SaveCoverLetter => saveCoverLetterChanges st
  | AnswerGraded index answer fb =>
      setSession (onAnswerSubmit index answer fb) st
  | FinishSession => handleFinishSession JSON_stringify_history st
  | StartNew uuid now => startNewAnalysis uuid now st
  end.

(** The state after a sequence of events. *)
Definition run (actions : list Action) (st : AppState) : AppState :=
  fold_left (fun st a => perform a st) actions st.

End Actions.

End Index.

(** ** Object identity in [src/index.tsx]: the "Save Changes" buttons

    Arrays and version objects are heap objects; a session object holds
    references to its two version arrays.  Only these fields matter here,
    the others are strings and numbers that a spread copies by value. *)

Module Objects.
Import Index.

Definition ref : Type := nat.

Record Heap : Type := mkHeap
  { arrays : gmap nat (list ref);      (* array object: its element refs *)
    versions : gmap nat Version.t;     (* version object: its properties *)
    next : ref }.

Record SessionObject : Type := mkSessionObject
  { optimizedResumes : ref;
    selectedResumeIndex : nat;
    coverLetters : option ref;
    selectedCoverLetterIndex : nat }.

(** [[...a]]: a new array object with the same element references. *)
Definition spread (elems : list ref) (h : Heap) : ref * Heap :=
  (next h, mkHeap (<[next h := elems]> (arrays h)) (versions h) (S (next h))).

(** [target.content = value] *)
Definition writeContent (target : ref) (value : string) (h : Heap)
  : option Heap :=
  match versions h !! target with
  | Some v =>
      Some (mkHeap (arrays h)
              (<[target := Version.mk (Version.id v) (Version.name v) value]>
                 (versions h))
              (next h))
  | None => None
  end.

(** The structural value of an array of versions. *)
Definition readArray (h : Heap) (a : ref) : option (list Version.t) :=
  match arrays h !! a with
  | Some elems => mapM (fun r => versions h !! r) elems
  | None => None
  end.

(** "Save Changes" on the resume tab, with [editingContent] a string.
    [None]: the assignment to [updatedResumes[i].content] throws because
    the index is out of range. *)
Definition saveResumeChanges (editingContent : string) (h : Heap)
    (session : SessionObject) : option (Heap * SessionObject) :=
  match arrays h !! optimizedResumes session with
  | None => None
  | Some elems =>
      let '(updatedResumes, h1) := spread elems h in
      match elems !! selectedResumeIndex session with
      | None => None
      | Some target =>
          match writeContent target editingContent h1 with
          | None => None
          | Some h2 =>
              Some (h2,
                    mkSessionObject updatedResumes
                      (selectedResumeIndex session) (coverLetters session)
                      (selectedCoverLetterIndex session))
          end
      end
  end.

(** "Save Changes" on the cover-letter step. *)
Definition saveCoverLetterChanges (editingContent : string) (h : Heap)
    (session : SessionObject) : option (Heap * SessionObject) :=
  match coverLetters session with
  | None => None
  | Some letters =>
      match arrays h !! letters with
      | None => None
      | Some elems =>
          let '(updated, h1) := spread elems h in
          match elems !! selectedCoverLetterIndex session with
          | None => None
          | Some target =>
              match writeContent target editingContent h1 with
              | None => None
              | Some h2 =>
                  Some (h2,
                        mkSessionObject (optimizedResumes session)
                          (selectedResumeIndex session) (Some updated)
                          (selectedCoverLetterIndex session))
              end
          end
      end
  end.

(** What a session object denotes in a heap: its resume versions and its
    cover-letter versions, by value. *)
Definition sessionValue (h : Heap) (session : SessionObject)
  : option (list Version.t) * option (list Version.t) :=
  (readArray h (optimizedResumes session),
   match coverLetters session with
   | Some letters => readArray h letters
   | None => None
   end).

End Objects.

(** ** [src/unnamed/part_000] *)

Module Part000.
Import Js Gemini.

Module Step.
Inductive t : Type :=
| landing | upload | job_desc | analysis | dashboard | cover_letter
| written_practice | verbal_practice | candidate_questions
| mock_interview | mock_analysis | summary | history.
#[global] Instance part000_step_eq_dec : EqDecision t.
Proof. solve_decision. Defined.
End Step.

Module Tab.
Inductive t : Type := analysis | optimized.
End Tab.

Module InputMode.
Inductive t : Type := text | url.
End InputMode.

Module Version.
Record t : Type := mk
  { id : string; name : string; content : string; isSelected : option bool }.
End Version.

Module CandidateQuestion.
Record t : Type := mk { question : string; context : string }.
End CandidateQuestion.

Module WrittenAnswer.
Record t : Type := mk
  { questionIndex : nat;
    answer : string;
    feedback : option AnswerFeedback.t }.
End WrittenAnswer.

Module VerbalAnswer.
Record t : Type := mk
  { questionIndex : nat;
    transcript : string;
    feedback : option AnswerFeedback.t }.
End VerbalAnswer.

Inductive Role : Type := ai | user_role.

Module Utterance.
Record t : Type := mk { role : Role; text : string }.
End Utterance.

(** [questions] is assigned [result.questions] unchecked and so holds
    [undefined] ([None]) when the result has no such property. *)
Module SessionData.
Record t : Type := mk
  { id : string;
    timestamp : Z;
    resumeText : string;
    jobDescription : string;
    jobUrl : option string;
    fileName : string;
    analysis : option AnalysisResult.t;
    optimizedResumes : list Version.t;
    selectedResumeIndex : nat;
    coverLetters : list Version.t;
    selectedCoverLetterIndex : nat;
    questions : option (list InterviewQuestion.t);
    writtenAnswers : list WrittenAnswer.t;
    verbalAnswers : list VerbalAnswer.t;
    candidateQuestions : list CandidateQuestion.t;
    mockInterviewTranscript : list Utterance.t;
    mockInterviewFeedback : option string }.

Definition patch_jobDescription (value : string) (prev : t) : t :=
  mk (id prev) (timestamp prev) (resumeText prev) value (jobUrl prev)
     (fileName prev) (analysis prev) (optimizedResumes prev)
     (selectedResumeIndex prev) (coverLetters prev)
     (selectedCoverLetterIndex prev) (questions prev) (writtenAnswers prev)
     (verbalAnswers prev) (candidateQuestions prev)
     (mockInterviewTranscript prev) (mockInterviewFeedback prev).

Definition patch_analysis (result : AnalysisResult.t) (prev : t) : t :=
  mk (id prev) (timestamp prev) (resumeText prev) (jobDescription prev)
     (jobUrl prev) (fileName prev) (Some result) (optimizedResumes prev)
     (selectedResumeIndex prev) (coverLetters prev)
     (selectedCoverLetterIndex prev) (questions prev) (writtenAnswers prev)
     (verbalAnswers prev) (candidateQuestions prev)
     (mockInterviewTranscript prev) (mockInterviewFeedback prev).

Definition patch_questions (value : option (list InterviewQuestion.t))
    (prev : t) : t :=
  mk (id prev) (timestamp prev) (resumeText prev) (jobDescription prev)
     (jobUrl prev) (fileName prev) (analysis prev) (optimizedResumes prev)
     (selectedResumeIndex prev) (coverLetters prev)
     (selectedCoverLetterIndex prev) value (writtenAnswers prev)
     (verbalAnswers prev) (candidateQuestions prev)
     (mockInterviewTranscript prev) (mockInterviewFeedback prev).

Definition patch_writtenAnswers (value : list WrittenAnswer.t) (prev : t)
  : t :=
  mk (id prev) (timestamp prev) (resumeText prev) (jobDescription prev)
     (jobUrl prev) (fileName prev) (analysis prev) (optimizedResumes prev)
     (selectedResumeIndex prev) (coverLetters prev)
     (selectedCoverLetterIndex prev) (questions prev) value
     (verbalAnswers prev) (candidateQuestions prev)
     (mockInterviewTranscript prev) (mockInterviewFeedback prev).
Definition patch_resume (text file : string) (prev : t) : t :=
  mk (id prev) (timestamp prev) text (jobDescription prev) (jobUrl prev)
     file (analysis prev) (optimizedResumes prev) (selectedResumeIndex prev)
     (coverLetters prev) (selectedCoverLetterIndex prev) (questions prev)
     (writtenAnswers prev) (verbalAnswers prev) (candidateQuestions prev)
     (mockInterviewTranscript prev) (mockInterviewFeedback prev).

Definition patch_resumeText (text : string) (prev : t) : t :=
  mk (id prev) (timestamp prev) text (jobDescription prev) (jobUrl prev)
     (fileName prev) (analysis prev) (optimizedResumes prev)
     (selectedResumeIndex prev) (coverLetters prev)
     (selectedCoverLetterIndex prev) (questions prev) (writtenAnswers prev)
     (verbalAnswers prev) (candidateQuestions prev)
     (mockInterviewTranscript prev) (mockInterviewFeedback prev).
End SessionData.

(** The state cells of [App], with the back-navigation stack, and the
    browser's [localStorage]. *)
Record AppState : Type := mkApp
  { currentStep : Step.t;
    loading : bool;
    loadingMessage : string;
    error : option string;
    activeTab : Tab.t;
    jobInputMode : InputMode.t;
    editingContent : option string;
    history : list SessionData.t;
    user : option User.t;
    showAuthModal : bool;
    stepHistory : list Step.t;
    session : SessionData.t;
    localStorage : Storage }.

Definition setCurrentStep (v : Step.t) (st : AppState) : AppState :=
  mkApp v (loading st) (loadingMessage st) (error st) (activeTab st)
    (jobInputMode st) (editingContent st) (history st) (user st)
    (showAuthModal st) (stepHistory st) (session st) (localStorage st).

Definition setLoading (v : bool) (st : AppState) : AppState :=
  mkApp (currentStep st) v (loadingMessage st) (error st) (activeTab st)
    (jobInputMode st) (editingContent st) (history st) (user st)
    (showAuthModal st) (stepHistory st) (session st) (localStorage st).

Definition setLoadingMessage (v : string) (st : AppState) : AppState :=
  mkApp (currentStep st) (loading st) v (error st) (activeTab st)
    (jobInputMode st) (editingContent st) (history st) (user st)
    (showAuthModal st) (stepHistory st) (session st) (localStorage st).

Definition setError (v : option string) (st : AppState) : AppState :=
  mkApp (currentStep st) (loading st) (loadingMessage st) v (activeTab st)
    (jobInputMode st) (editingContent st) (history st) (user st)
    (showAuthModal st) (stepHistory st) (session st) (localStorage st).

Definition setHistory (v : list SessionData.t) (st : AppState) : AppState :=
  mkApp (currentStep st) (loading st) (loadingMessage st) (error st)
    (activeTab st) (jobInputMode st) (editingContent st) v (user st)
    (showAuthModal st) (stepHistory st) (session st) (localStorage st).

Definition setUser (v : option User.t) (st : AppState) : AppState :=
  mkApp (currentStep st) (loading st) (loadingMessage st) (error st)
    (activeTab st) (jobInputMode st) (editingContent st) (history st) v
    (showAuthModal st) (stepHistory st) (session st) (localStorage st).

Definition setShowAuthModal (v : bool) (st : AppState) : AppState :=
  mkApp (currentStep st) (loading st) (loadingMessage st) (error st)
    (activeTab st) (jobInputMode st) (editingContent st) (history st)
    (user st) v (stepHistory st) (session st) (localStorage st).

(** [setStepHistory(prev => f(prev))] *)
Definition setStepHistory (f : list Step.t -> list Step.t) (st : AppState)
  : AppState :=
  mkApp (currentStep st) (loading st) (loadingMessage st) (error st)
    (activeTab st) (jobInputMode st) (editingContent st) (history st)
    (user st) (showAuthModal st) (f (stepHistory st)) (session st)
    (localStorage st).

(** [setSession(prev => f(prev))] *)
Definition setSession (f : SessionData.t -> SessionData.t) (st : AppState)
  : AppState :=
  mkApp (currentStep st) (loading st) (loadingMessage st) (error st)
    (activeTab st) (jobInputMode st) (editingContent st) (history st)
    (user st) (showAuthModal st) (stepHistory st) (f (session st))
    (localStorage st).

Definition withStorage (f : Storage -> Storage) (st : AppState) : AppState :=
  mkApp (currentStep st) (loading st) (loadingMessage st) (error st)
    (activeTab st) (jobInputMode st) (editingContent st) (history st)
    (user st) (showAuthModal st) (stepHistory st) (session st)
    (f (localStorage st)).

Definition setItem (key value : string) : AppState -> AppState :=
  withStorage (fun m => <[key := value]> m).

Definition removeItem (key : string) : AppState -> AppState :=
  withStorage (fun m => delete key m).

Definition freshSession (uuid : string) (now : Z) : SessionData.t :=
  SessionData.mk uuid now "" "" None "" None [] 0 [] 0 (Some []) [] [] [] []
    None.

Definition initialState (uuid : string) (now : Z) (storage : Storage)
  : AppState :=
  mkApp Step.landing false "" None Tab.analysis InputMode.text None [] None
    false [] (freshSession uuid now) storage.

(** The state cells of the [WrittenPracticeSession] component. *)
Record PracticeState : Type := mkPractice
  { currentIndex : nat;
    answerText : string;
    isAnalyzing : bool;
    feedback : option AnswerFeedback.t }.

Definition setIsAnalyzing (v : bool) (c : PracticeState) : PracticeState :=
  mkPractice (currentIndex c) (answerText c) v (feedback c).

Definition setFeedback (v : option AnswerFeedback.t) (c : PracticeState)
  : PracticeState :=
  mkPractice (currentIndex c) (answerText c) (isAnalyzing c) v.

Section Handlers.

Context (JSON_parse_history : string -> option (list SessionData.t))
        (JSON_stringify_history : list SessionData.t -> string)
        (JSON_parse_user : string -> option User.t)
        (JSON_stringify_user : User.t -> string).

(** [navigateTo]: the scroll reset of the window is not part of the state. *)
Definition navigateTo (step : Step.t) (st : AppState) : AppState :=
  setCurrentStep step
    (setStepHistory (fun prev => (prev ++ [currentStep st])%list) st).

(** [handleBack]; [prev.slice(0, -1)] drops the last element.  Past the
    length test the index [length - 1] is in range. *)
Definition handleBack (st : AppState) : AppState :=
  if (length (stepHistory st) =? 0)%nat then st
  else
    match stepHistory st !! (length (stepHistory st) - 1)%nat with
    | Some prevStep =>
        setCurrentStep prevStep (setStepHistory (fun prev => removelast prev) st)
    | None => st
    end.

(** [None]: [JSON.parse] throws before [setHistory].  There is no [else]:
    without a stored text the history cell is left as it is. *)
Definition loadHistory (email : string) (st : AppState) : option AppState :=
  match localStorage st !! historyKey email with
  | Some savedHistory =>
      if truthy savedHistory then
        match JSON_parse_history savedHistory with
        | Some parsed => Some (setHistory parsed st)
        | None => None
        end
      else Some st
  | None => Some st
  end.

(** The effect run on mount; [None]: [JSON.parse] throws, the exception
    leaves the effect and React removes the page. *)
Definition onMount (st : AppState) : option AppState :=
  match localStorage st !! userSessionKey with
  | Some savedUser =>
      if truthy savedUser then
        match JSON_parse_user savedUser with
        | Some parsedUser =>
            loadHistory (User.email parsedUser) (setUser (Some parsedUser) st)
        | None => None
        end
      else Some st
  | None => Some st
  end.

Definition saveHistoryToStorage (updatedHistory : list SessionData.t)
    (st : AppState) : AppState :=
  match user st with
  | Some u =>
      setItem (historyKey (User.email u))
        (JSON_stringify_history updatedHistory) st
  | None => st
  end.

Definition handleLogin (newUser : User.t) (st : AppState) : AppState :=
  let st1 := setUser (Some newUser) st in
  match loadHistory (User.email newUser) st1 with
  | Some st2 => st2
  | None => st1
  end.

Definition handleLogout (st : AppState) : AppState :=
  setStepHistory (fun _ => [])
    (setCurrentStep Step.landing
       (setHistory [] (setUser None (removeItem userSessionKey st)))).

(** Whether [handleLogin] is left by an exception: [JSON.parse] throws in
    [loadHistory]. *)
Definition handleLogin_throws (newUser : User.t) (st : AppState) : bool :=
  match loadHistory (User.email newUser) (setUser (Some newUser) st) with
  | Some _ => false
  | None => true
  end.

(** [AuthModal]'s [handleSubmit].  When [onLogin] throws, the exception
    leaves the handler before [onClose()]: the modal stays as it is. *)
Definition AuthModal_handleSubmit (name email : string) (st : AppState)
  : AppState :=
  if truthy name && truthy email then
    let u := User.mk email name in
    let st1 := setItem userSessionKey (JSON_stringify_user u) st in
    if handleLogin_throws u st1 then handleLogin u st1
    else setShowAuthModal false (handleLogin u st1)
  else st.

Definition loadSessionFromHistory (data : SessionData.t) (st : AppState)
  : AppState :=
  navigateTo Step.dashboard (setSession (fun _ => data) st).

Definition handleAnalyze (st : AppState) : Run AppState AnalysisResult.t :=
  let st1 :=
    setLoadingMessage "AI is analyzing your resume fit..."
      (setLoading true st) in
  Await
    (mkRequest FitAnalysis
       [SessionData.resumeText (session st);
        SessionData.jobDescription (session st)])
    (fun o =>
       setLoading false
         match o with
         | Returned result =>
             navigateTo Step.analysis
               (setSession (SessionData.patch_analysis result) st1)
         | Thrown _ => setError (Some "Analysis failed") st1
         end).

(** The button "Analyze Fit", disabled while the job description is the
    empty string: a disabled button has no click. *)
Definition clickAnalyzeFit (st : AppState) : Run AppState AnalysisResult.t :=
  if negb (truthy (SessionData.jobDescription (session st))) then Done st
  else handleAnalyze st.

Definition handleGenerateQuestions (st : AppState)
  : Run AppState QuestionsResult.t :=
  let st1 :=
    setLoadingMessage "Generating questions..." (setLoading true st) in
  Await
    (mkRequest QuestionGeneration
       [substring 0 500 (SessionData.resumeText (session st));
        substring 0 500 (SessionData.jobDescription (session st))])
    (fun o =>
       setLoading false
         match o with
         | Returned result =>
             navigateTo Step.written_practice
               (setSession
                  (SessionData.patch_questions
                     (QuestionsResult.questions result)) st1)
         | Thrown _ => setError (Some "Failed to generate questions") st1
         end).

(** The [onAnswerSubmit] prop given to [WrittenPracticeSession].  The
    closure reads [session] of the render it was made in, [rendered]: the
    render of the click on "Submit".  It is called after the awaited
    grading, and the list built from [rendered] is patched into the session
    of that moment, the one of [st]. *)
Definition onAnswerSubmit (idx : nat) (ans : string) (fb : AnswerFeedback.t)
    (rendered : SessionData.t) (st : AppState) : AppState :=
  let newAnswers :=
    (filter (fun a => WrittenAnswer.questionIndex a <> idx)
       (SessionData.writtenAnswers rendered)
     ++ [WrittenAnswer.mk idx ans (Some fb)])%list in
  setSession (SessionData.patch_writtenAnswers newAnswers) st.

(** [WrittenPracticeSession]'s [handleSubmit]; its props are read from the
    session.  The prompt is built inside the [try].  The run is the handler
    with no other event while the call is awaited: the session rendered at
    the click is then also the session [onAnswerSubmit] patches. *)
Definition WrittenPractice_handleSubmit (st : AppState) (c : PracticeState)
  : Run (AppState * PracticeState) AnswerFeedback.t :=
  if negb (truthy (trim (answerText c))) then Done (st, c)
  else
    let c1 := setIsAnalyzing true c in
    match SessionData.questions (session st) ≫= (fun qs => qs !! currentIndex c)
    with
    | None => Done (st, setIsAnalyzing false c1)
    | Some currentQuestion =>
        Await
          (mkRequest AnswerGrading
             [substring 0 1000 (SessionData.jobDescription (session st));
              InterviewQuestion.question currentQuestion;
              typeName (InterviewQuestion.type currentQuestion);
              answerText c])
          (fun o =>
             match o with
             | Returned result =>
                 (onAnswerSubmit (currentIndex c) (answerText c) result
                    (session st) st,
                  setIsAnalyzing false (setFeedback (Some result) c1))
             | Thrown _ => (st, setIsAnalyzing false c1)
             end)
    end.

(** The button "Save Progress" of the summary step. *)
Definition clickSaveProgress (st : AppState) : AppState :=
  match user st with
  | Some _ =>
      let newHistory := session st :: history st in
      saveHistoryToStorage newHistory (setHistory newHistory st)
  | None => setShowAuthModal true st
  end.

End Handlers.

(** *** The remaining parts of [App] and of its components *)

Definition FUNNY_LOADING_MESSAGES : list string :=
  ["Consulting the Ouija Board...";
   "Bringing out the tarot cards...";
   "Counting the vowels...";
   "Comparing against Shakespeare's iambic pentameter...";
   "Reading between the lines...";
   "Polishing the crystal ball...";
   "Asking a magic 8-ball...";
   "Consulting the tea leaves...";
   "Checking the horoscope...";
   "Rolling a d20 for charisma...";
   "Deciphering the Matrix...";
   "Asking ChatGPT's cousin...";
   "Measuring font sizes with a microscope...";
   "Looking for hidden invisible ink...";
   "Channeling HR spirits...";
   "Calculating keyword synergy...";
   "Aligning chakras...";
   "Summoning the ATS demon...";
   "Bribing the algorithm...";
   "Flipping a coin..."].

(** [LoadingScreen]: the message shown after [ticks] runs of the interval
    callback; [None] is [undefined].  The callback of run [k] reads the
    entry [index % length] with [index = k - 1]. *)
Definition LoadingScreen_message (message : string) (ticks : nat)
  : option string :=
  match ticks with
  | O => Some message
  | S index =>
      FUNNY_LOADING_MESSAGES !! (index mod length FUNNY_LOADING_MESSAGES)%nat
  end.

(** [ProgressBar]: [None] when nothing is rendered, else the width of the
    bar in percent. *)
Definition ProgressBar (step : Step.t) : option Z :=
  if bool_decide (step = Step.landing) || bool_decide (step = Step.history)
  then None
  else
    Some
      match step with
      | Step.upload => 15
      | Step.job_desc => 30
      | Step.analysis => 45
      | Step.dashboard => 60
      | Step.cover_letter | Step.written_practice | Step.verbal_practice
      | Step.candidate_questions | Step.mock_interview
      | Step.mock_analysis => 80
      | Step.summary => 100
      | _ => 0
      end%Z.

(** The header shows its back button on every step but two. *)
Definition showBack (st : AppState) : bool :=
  negb (bool_decide (currentStep st = Step.landing))
  && negb (bool_decide (currentStep st = Step.history)).

(** [SimpleMarkdownRenderer]: the element made for each line. *)
Inductive Block : Type :=
| H1 (text : string)
| H2 (text : string)
| H3 (text : string)
| Bullet (text : string)
| Spacer
| Paragraph (text : string).

Definition renderLine (line : string) : Block :=
  let trimmed := trim line in
  if startsWith trimmed "# " then H1 (substringFrom 2 trimmed)
  else if startsWith trimmed "## " then H2 (substringFrom 3 trimmed)
  else if startsWith trimmed "### " then H3 (substringFrom 4 trimmed)
  else if startsWith trimmed "- " || startsWith trimmed "* " then
    Bullet (substringFrom 2 trimmed)
  else if String.eqb trimmed "" then Spacer
  else Paragraph trimmed.

(** [None]: the component returns [null]. *)
Definition SimpleMarkdownRenderer (content : string) : option (list Block) :=
  if negb (truthy content) then None
  else Some (List.map renderLine (splitLines content)).

Definition placeholderResume : string :=
  "Sample Resume Text extracted from file...".

Definition setCurrentIndex (f : nat -> nat) (c : PracticeState)
  : PracticeState :=
  mkPractice (f (currentIndex c)) (answerText c) (isAnalyzing c) (feedback c).

Definition setAnswerText (v : string) (c : PracticeState) : PracticeState :=
  mkPractice (currentIndex c) v (isAnalyzing c) (feedback c).

Definition freshPractice : PracticeState := mkPractice 0 "" false None.

(** The effect of [WrittenPracticeSession] on [currentIndex] and
    [existingAnswers]: it shows the stored answer of the current question,
    or clears the two cells. *)
Definition WrittenPractice_effect (st : AppState) (c : PracticeState)
  : PracticeState :=
  match
    List.find (fun a => Nat.eqb (WrittenAnswer.questionIndex a) (currentIndex c))
      (SessionData.writtenAnswers (session st))
  with
  | Some existing =>
      setFeedback (WrittenAnswer.feedback existing)
        (setAnswerText (WrittenAnswer.answer existing) c)
  | None => setFeedback None (setAnswerText "" c)
  end.

(** [handleFileUpload]: a plain text is read, a type that includes [pdf] is
    read page by page, any other file gives a fixed text. *)
Definition handleFileUpload (file : File.t) (ex : Extractors) (st : AppState)
  : AppState :=
  let st1 := setLoadingMessage "Parsing document..." (setLoading true st) in
  let read :=
    if String.eqb (File.type file) "text/plain" then plainText ex
    else if includes (File.type file) "pdf" then
      match pdfPages ex with
      | Returned pages => Returned (pdfText pages)
      | Thrown m => Thrown m
      end
    else Returned placeholderResume in
  setLoading false
    match read with
    | Returned text =>
        navigateTo Step.job_desc
          (setSession (SessionData.patch_resume text (File.name file)) st1)
    | Thrown _ => setError (Some "Failed to parse") st1
    end.

(** The link "Skip (Debug Mode)" of the upload step. *)
Definition clickSkip (st : AppState) : AppState :=
  navigateTo Step.job_desc
    (setSession (SessionData.patch_resumeText "Mock Resume Text") st).

(** The [onSelectStep] given to [Dashboard].  The length of the questions
    is read only for the written practice; on [undefined] the read throws. *)
Definition Dashboard_onSelectStep (s : Step.t) (st : AppState)
  : Run AppState QuestionsResult.t :=
  if bool_decide (s = Step.written_practice) then
    match SessionData.questions (session st) with
    | None => Done st
    | Some qs =>
        if (length qs =? 0)%nat then handleGenerateQuestions st
        else Done (navigateTo s st)
    end
  else Done (navigateTo s st).

(** [WrittenPracticeSession]'s [handleNext], with [onComplete] the
    navigation to the verbal practice; [length - 1] is -1 on an empty
    list. *)
Definition WrittenPractice_handleNext (stc : AppState * PracticeState)
  : AppState * PracticeState :=
  let '(st, c) := stc in
  match SessionData.questions (session st) with
  | None => (st, c)
  | Some qs =>
      if (Z.of_nat (currentIndex c) <? Z.of_nat (length qs) - 1)%Z then
        (st, setCurrentIndex S c)
      else (navigateTo Step.verbal_practice st, c)
  end.

(** *** The events of the page

    One constructor per control of the page that changes the state; an
    awaited handler carries the outcome of its call.  Which controls a step
    shows is not modelled: every event is allowed in every state.  A graded
    answer carries the session rendered at its click, which is any session:
    other events may come between the click and the grade.  When the effect
    run on mount throws, the page is removed and no event follows; the run
    then keeps the state it had, one the page has shown. *)
Inductive Action : Type :=
| Mount
| Navigate (step : Step.t)
| Back
| OpenAuth (open : bool)
| SubmitAuth (name email : string)
| Logout
| LoadSession (data : SessionData.t)
| Upload (file : File.t) (ex : Extractors)
| Skip
| TypeJobDescription (value : string)
| ClickAnalyzeFit (o : outcome AnalysisResult.t)
| SelectModule (s : Step.t) (o : outcome QuestionsResult.t)
| AnswerGraded (idx : nat) (ans : string) (fb : AnswerFeedback.t)
    (rendered : SessionData.t)
| SaveProgress.

Section Actions.

Context (JSON_parse_history : string -> option (list SessionData.t))
        (JSON_stringify_history : list SessionData.t -> string)
        (JSON_parse_user : string -> option User.t)
        (JSON_stringify_user : User.t -> string).

Definition perform (a : Action) (st : AppState) : AppState :=
  match a with
  | Mount => default st (onMount JSON_parse_history JSON_parse_user st)
  | Navigate step => navigateTo step st
  | Back => handleBack st
  | OpenAuth open => setShowAuthModal open st
  | SubmitAuth name email =>
      AuthModal_handleSubmit JSON_parse_history JSON_stringify_user
        name email st
  | Logout => handleLogout st
  | LoadSession data => loadSessionFromHistory data st
  | Upload file ex => handleFileUpload file ex st
  | Skip => clickSkip st
  | TypeJobDescription value =>
      setSession (SessionData.patch_jobDescription value) st
  | ClickAnalyzeFit o => complete (clickAnalyzeFit st) o
  | SelectModule s o => complete (Dashboard_onSelectStep s st) o
  | AnswerGraded idx ans fb rendered => onAnswerSubmit idx ans fb rendered st
  | SaveProgress => clickSaveProgress JSON_stringify_history st
  end.

(** The state after a sequence of events. *)
Definition run (actions : list Action) (st : AppState) : AppState :=
  fold_left (fun st a => perform a st) actions st.

End Actions.

End Part000.

(** ** Definitions used to state the properties *)

Module Spec.
Import Js Gemini.

(** A text without one line feed at its start, or at its end. *)
Definition dropLeadingLF (s : string) : string :=
  match s with
  | String c r => if Ascii.eqb c LF then r else s
  | EmptyString => s
  end.

Fixpoint dropTrailingLF (s : string) : string :=
  match s with
  | EmptyString => EmptyString
  | String c r =>
      if Ascii.eqb c LF && String.eqb r "" then ""
      else String c (dropTrailingLF r)
  end.

(** A parser that reads a text up to its line feeds: it returns the text
    with every line feed removed.  It instantiates the [JSON.parse]
    parameter in examples. *)
Fixpoint withoutLF (s : string) : string :=
  match s with
  | EmptyString => EmptyString
  | String c r => if Ascii.eqb c LF then withoutLF r else String c (withoutLF r)
  end.

Definition lineFreeParse (s : string) : option string := Some (withoutLF s).

(** The white space [JSON.parse] skips around a value: TAB, LF, CR and SP;
    and a text without it at both ends. *)
Definition isJsonWhiteSpace (c : ascii) : bool :=
  let n := nat_of_ascii c in
  (n =? 9)%nat || (n =? 10)%nat || (n =? 13)%nat || (n =? 32)%nat.

Fixpoint jsonTrimStart (s : string) : string :=
  match s with
  | EmptyString => EmptyString
  | String c r => if isJsonWhiteSpace c then jsonTrimStart r else s
  end.

Fixpoint jsonTrimEnd (s : string) : string :=
  match s with
  | EmptyString => EmptyString
  | String c r =>
      let r' := jsonTrimEnd r in
      if isJsonWhiteSpace c && String.eqb r' "" then "" else String c r'
  end.

Definition jsonTrim (s : string) : string := jsonTrimEnd (jsonTrimStart s).

(** [JSON.parse] on a fragment of JSON: the arrays of one-digit numbers
    written without white space inside, such as [[]] and [[1,2]], with any
    JSON white space around them.  A text that is no such array reads as a
    [SyntaxError]; so does, with [JSON.parse], every text whose first
    character is neither JSON white space nor the start of a JSON value. *)
Definition digitValue (c : ascii) : option nat :=
  let n := nat_of_ascii c in
  if (48 <=? n)%nat && (n <=? 57)%nat then Some (n - 48)%nat else None.

Fixpoint digitElements (s : string) : option (list nat) :=
  match s with
  | String d (String sep r) =>
      match digitValue d with
      | Some v =>
          if Ascii.eqb sep "]" then
            if String.eqb r "" then Some [v] else None
          else if Ascii.eqb sep "," then option_map (cons v) (digitElements r)
          else None
      | None => None
      end
  | _ => None
  end.

Definition parseDigitArray (s : string) : option (list nat) :=
  match jsonTrim s with
  | String c r =>
      if Ascii.eqb c "[" then
        if String.eqb r "]" then Some [] else digitElements r
      else None
  | EmptyString => None
  end.

(** The no-break space, U+00A0: white space for [trim], not for JSON. *)
Definition NBSP : ascii := "160"%char.

(** [l] without its first element satisfying [p]. *)
Fixpoint dropFirst {A} (p : A -> bool) (l : list A) : list A :=
  match l with
  | [] => []
  | x :: r => if p x then r else x :: dropFirst p r
  end.

(** A submission of the interview session: question index, answer text and
    feedback; and the session after a sequence of submissions. *)
Definition Submission : Type := nat * string * AnswerFeedback.t.

Definition submitAll (subs : list Submission) (s : Index.SessionData.t)
  : Index.SessionData.t :=
  fold_left (fun acc sub => Index.onAnswerSubmit sub.1.1 sub.1.2 sub.2 acc)
    subs s.



(** A result array that is missing or empty. *)
Definition noItems {A} (l : option (list A)) : bool :=
  match l with
  | None | Some [] => true
  | Some (_ :: _) => false
  end.

(** A pipeline stage fails when the awaited call throws (the service call
    rejects, the response text is empty, or it does not parse) or when the
    stage's own check rejects the returned result. *)
Inductive StageFails {T} (rejects : T -> bool) : outcome T -> Prop :=
| call_throws (message : string) : StageFails rejects (Thrown message)
| result_rejected (result : T) :
    rejects result = true -> StageFails rejects (Returned result).

(** The checks the stages of the two sources make on a returned result. *)
Definition noCheck {T} (result : T) : bool := false.

Definition versionsMissing {V} (result : VersionsResult.t V) : bool :=
  noItems (VersionsResult.versions result).

Definition questionsMissing (result : QuestionsResult.t) : bool :=
  noItems (QuestionsResult.questions result).

(** Sample data. *)
Definition feedbackScored (x : float) : AnswerFeedback.t :=
  AnswerFeedback.mk x [] [] "" "".

Definition answered (i : nat) (x : float) : Index.Answer.t :=
  Index.Answer.mk i "an answer" (Some (feedbackScored x)).

Definition sampleVersion : Index.Version.t :=
  Index.Version.mk "v1" "Standard Optimized" "old text".

Definition sampleLetter : Index.Version.t :=
  Index.Version.mk "cl1" "Professional" "Dear Hiring Manager".

Definition sampleHeap : Objects.Heap :=
  Objects.mkHeap {[ 0 := [0] ]} {[ 0 := sampleVersion ]} 1.

Definition sampleSessionObject : Objects.SessionObject :=
  Objects.mkSessionObject 0 0 None 0.

Definition sampleLetterHeap : Objects.Heap :=
  Objects.mkHeap {[ 0 := []; 1 := [7] ]} {[ 7 := sampleLetter ]} 2.

Definition sampleLetterSession : Objects.SessionObject :=
  Objects.mkSessionObject 0 0 (Some 1) 0.

Definition sampleIndexState : Index.AppState :=
  Index.initialState "id-1" 0 ∅.

Definition samplePart000State : Part000.AppState :=
  Part000.initialState "id-1" 0 ∅.

(** [s] ends with [p]. *)
Fixpoint endsWith (s p : string) : bool :=
  String.eqb s p
  || match s with
     | EmptyString => false
     | String _ r => endsWith r p
     end.

(** The place of a step in the declaration of the steps of
    [src/unnamed/part_000]. *)
Definition stepRank (s : Part000.Step.t) : nat :=
  match s with
  | Part000.Step.landing => 0
  | Part000.Step.upload => 1
  | Part000.Step.job_desc => 2
  | Part000.Step.analysis => 3
  | Part000.Step.dashboard => 4
  | Part000.Step.cover_letter => 5
  | Part000.Step.written_practice => 6
  | Part000.Step.verbal_practice => 7
  | Part000.Step.candidate_questions => 8
  | Part000.Step.mock_interview => 9
  | Part000.Step.mock_analysis => 10
  | Part000.Step.summary => 11
  | Part000.Step.history => 12
  end.

(** Sample identities and stand-ins for [JSON.stringify] and [JSON.parse]
    on the stored values: every value is written as the same text, and
    every text reads as one fixed value. *)
Definition sampleUser : User.t := User.mk "b@example.com" "b".

Definition sampleStringify {A} (value : A) : string := "saved".

Definition sampleParseUser (text : string) : option User.t := Some sampleUser.

Definition sampleIndexHistory : list Index.SessionData.t :=
  [Index.freshSession "id-1" 0].

Definition sampleIndexParse (text : string)
  : option (list Index.SessionData.t) := Some sampleIndexHistory.

Definition samplePart000History : list Part000.SessionData.t :=
  [Part000.freshSession "id-1" 0].

Definition samplePart000Parse (text : string)
  : option (list Part000.SessionData.t) := Some samplePart000History.

(** The history a storage holds for an identity: the parse of the text
    under its key, and no entry when the text is missing, empty or does
    not parse. *)
Definition storedHistory {S} (parse : string -> option (list S))
    (storage : Storage) (email : string) : list S :=
  match storage !! historyKey email with
  | Some txt => if truthy txt then default [] (parse txt) else []
  | None => []
  end.

(** What [userHistory ? JSON.parse(userHistory) : []] reads for an
    identity; [None] when the text does not parse. *)
Definition readStored {S} (parse : string -> option (list S))
    (storage : Storage) (email : string) : option (list S) :=
  match storage !! historyKey email with
  | Some txt => if truthy txt then parse txt else Some []
  | None => Some []
  end.

(** The number of line feeds of a text. *)
Fixpoint countLF (s : string) : nat :=
  match s with
  | EmptyString => 0
  | String c r => if Ascii.eqb c LF then S (countLF r) else countLF r
  end.

(** What the states of [src/index.tsx] keep: each selected index points
    into its list, or is 0 beside a list that is empty or missing; without
    a user there is no history in memory; no two answers belong to one
    question; and no handler is left loading. *)
Definition indexInvariant (st : Index.AppState) : Prop :=
  let s := Index.session st in
  ((Index.SessionData.selectedResumeIndex s
    < length (Index.SessionData.optimizedResumes s))%nat
   \/ (Index.SessionData.optimizedResumes s = []
       /\ Index.SessionData.selectedResumeIndex s = 0%nat))
  /\ (Index.SessionData.selectedCoverLetterIndex s = 0%nat
      \/ exists l,
           Index.SessionData.coverLetters s = Some l
           /\ (Index.SessionData.selectedCoverLetterIndex s < length l)%nat)
  /\ (Index.user st = None -> Index.history st = [])
  /\ NoDup (Index.Answer.questionIndex <$> Index.SessionData.answers s)
  /\ Index.loading st = false.

End Spec.

(** * Properties *)

Import Js Gemini Spec.

(** ** The definitions on concrete inputs *)

Example trim_example :
  trim ("  " ++ String LF " a b " ++ String LF " ") = "a b".
Proof. reflexivity. Qed.

Example cleanFence_example :
  cleanFence (" ```json" ++ String LF "{}" ++ String LF "```" ++ String LF "")
  = "{}"
  /\ cleanFence "```[1, 2]```" = "[1, 2]"
  /\ cleanFence " [1] " = "[1]"
  /\ cleanFence "```json{} ``` x" = "{} ``` x".
Proof. repeat split. Qed.

Example analyzeWithGemini_example :
  analyzeWithGemini lineFreeParse true (Responds (Some ""))
  = Thrown "No response from AI"
  /\ analyzeWithGemini lineFreeParse false (Responds (Some "```x```"))
     = Returned "```x```"
  /\ analyzeWithGemini lineFreeParse true (CallFails "503") = Thrown "503".
Proof. repeat split. Qed.

Example findIndex_example :
  findIndex (Nat.eqb 3) [1; 3; 5; 3]%nat = 1%Z
  /\ findIndex (Nat.eqb 4) [1; 3; 5; 3]%nat = (-1)%Z
  /\ splice1 1 [1; 3; 5; 3]%nat = [1; 5; 3]%nat.
Proof. repeat split. Qed.

Example Math_round_example :
  Math_round 2.5 = 3%float /\ Math_round (-2.5) = (-2)%float
  /\ Math_round 0x1.fffffffffffffp-2 = 0%float
  /\ Math_round (-0.25) = (-0)%float
  /\ Math_max 1 (Number 0) = 1%float /\ Math_max 1 (Number 4) = 4%float.
Proof. repeat split. Qed.

Example interviewScore_example :
  Index.interviewScore [answered 0 7; answered 1 8] = 75%float
  /\ Index.interviewScore [answered 0 7; Index.Answer.mk 1 "x" None]
     = 35%float
  /\ Index.interviewScore [answered 0 8; answered 1 8; answered 2 9]
     = 83%float.
Proof. repeat split. Qed.

Example navigation_example :
  let st :=
    Part000.navigateTo Part000.Step.job_desc
      (Part000.navigateTo Part000.Step.upload samplePart000State) in
  Part000.currentStep st = Part000.Step.job_desc
  /\ Part000.stepHistory st = [Part000.Step.landing; Part000.Step.upload]
  /\ Part000.currentStep (Part000.handleBack st) = Part000.Step.upload
  /\ Part000.stepHistory (Part000.handleBack st) = [Part000.Step.landing].
Proof. repeat split. Qed.

(** ** Strings and the fence clean-up *)

Lemma trimEnd_cons (c : ascii) (r : string) :
  trimEnd (String c r) =
  if isWhiteSpace c && String.eqb (trimEnd r) "" then "" else String c (trimEnd r).
Proof. reflexivity. Qed.

Lemma append_cons (c : ascii) (r s : string) :
  (String c r ++ s)%string = String c (r ++ s).
Proof. reflexivity. Qed.

Lemma append_fence_nonempty (s : string) : String.eqb (s ++ "```") "" = false.
Proof. destruct s; reflexivity. Qed.

Lemma trimEnd_before_fence (s : string) : trimEnd (s ++ "```") = s ++ "```".
Proof.
  induction s as [|c r IH]; [reflexivity|].
  rewrite append_cons, trimEnd_cons, IH, append_fence_nonempty.
  now rewrite andb_false_r.
Qed.

Lemma append_assoc (a b c : string) :
  ((a ++ b) ++ c)%string = (a ++ (b ++ c))%string.
Proof. induction a as [|x r IH]; [reflexivity|]. now rewrite !append_cons, IH. Qed.

Lemma trim_fenced (marker b : string) :
  trimStart (marker ++ b ++ "```") = (marker ++ b ++ "```")%string ->
  trim (marker ++ b ++ "```") = (marker ++ b ++ "```")%string.
Proof.
  intros H. unfold trim. rewrite H, <- append_assoc.
  apply trimEnd_before_fence.
Qed.

Lemma replaceTrailingFence_cons (c : ascii) (r : string) :
  replaceTrailingFence (String c r) =
  if String.eqb (String c r) "```" || String.eqb (String c r) (String LF "```")
  then "" else String c (replaceTrailingFence r).
Proof. reflexivity. Qed.

Lemma length_append_fence (s : string) :
  String.length (s ++ "```") = (String.length s + 3)%nat.
Proof. induction s as [|c r IH]; [reflexivity|]. rewrite append_cons. simpl. lia. Qed.

Lemma cons_append_fence_neq (c : ascii) (r : string) :
  String.eqb (String c (r ++ "```")) "```" = false.
Proof.
  apply String.eqb_neq. intros H. apply (f_equal String.length) in H.
  simpl in H. rewrite length_append_fence in H. lia.
Qed.

Lemma append_fence_eqb_fence (r : string) :
  String.eqb (r ++ "```") "```" = String.eqb r "".
Proof.
  destruct r as [|c r]; [reflexivity|].
  rewrite append_cons, cons_append_fence_neq. reflexivity.
Qed.

(** The trailing replace removes the fence and at most one line feed. *)
Lemma replaceTrailingFence_append (b : string) :
  replaceTrailingFence (b ++ "```") = dropTrailingLF b.
Proof.
  induction b as [|c r IH]; [reflexivity|].
  rewrite append_cons, replaceTrailingFence_cons, cons_append_fence_neq, IH.
  cbn [orb dropTrailingLF String.eqb].
  rewrite append_fence_eqb_fence.
  destruct (Ascii.eqb c LF); reflexivity.
Qed.

Lemma replaceLeading_json (b : string) :
  replaceLeading "```json" ("```json" ++ b ++ "```") =
  (dropLeadingLF b ++ "```")%string.
Proof.
  destruct b as [|c r]; [reflexivity|].
  unfold replaceLeading, dropLeadingLF. simpl.
  destruct (Ascii.eqb c LF); reflexivity.
Qed.

Lemma replaceLeading_plain (b : string) :
  replaceLeading "```" ("```" ++ b ++ "```") =
  (dropLeadingLF b ++ "```")%string.
Proof.
  destruct b as [|c r]; [reflexivity|].
  unfold replaceLeading, dropLeadingLF. simpl.
  destruct (Ascii.eqb c LF); reflexivity.
Qed.

Lemma startsWith_cons (d c : ascii) (s p : string) :
  startsWith (String d s) (String c p) = Ascii.eqb c d && startsWith s p.
Proof. reflexivity. Qed.

(** Case analysis on the next character of the text under [startsWith]. *)
Ltac close_case :=
  try (intros; reflexivity);
  try (let H := fresh in intros H; vm_compute in H; discriminate H).

Ltac next_char b :=
  let c := fresh "c" in
  destruct b as [|c b];
  [ close_case
  | rewrite ?append_cons, !startsWith_cons;
    match goal with
    | |- context [Ascii.eqb ?a c] => destruct (Ascii.eqb a c); cbn [andb]
    end; close_case ].

Lemma startsWith_json_append_fence (b : string) :
  startsWith b "json" = false -> startsWith (b ++ "```") "json" = false.
Proof.
  next_char b. next_char b. next_char b. next_char b.
Qed.

Lemma cleanFence_json (b : string) :
  cleanFence ("```json" ++ b ++ "```") = dropTrailingLF (dropLeadingLF b).
Proof.
  unfold cleanFence. rewrite trim_fenced by reflexivity.
  change (startsWith ("```json" ++ b ++ "```") "```json") with true.
  cbv iota. rewrite replaceLeading_json. apply replaceTrailingFence_append.
Qed.

Lemma cleanFence_plain (b : string) :
  startsWith b "json" = false ->
  cleanFence ("```" ++ b ++ "```") = dropTrailingLF (dropLeadingLF b).
Proof.
  intros Hb. unfold cleanFence. rewrite trim_fenced by reflexivity.
  change (startsWith ("```" ++ b ++ "```") "```json")
    with (startsWith (b ++ "```") "json").
  rewrite (startsWith_json_append_fence _ Hb).
  change (startsWith ("```" ++ b ++ "```") "```") with true.
  cbv iota. rewrite replaceLeading_plain. apply replaceTrailingFence_append.
Qed.

Lemma startsWith_fence_json (s : string) :
  startsWith s "```" = false -> startsWith s "```json" = false.
Proof.
  next_char s. next_char s. next_char s.
Qed.

Lemma cleanFence_unfenced (t : string) :
  startsWith (trim t) "```" = false -> cleanFence t = trim t.
Proof.
  intros H. unfold cleanFence.
  now rewrite (startsWith_fence_json _ H), H.
Qed.

Lemma dropTrailingLF_spec (s : string) :
  dropTrailingLF s = s \/ s = (dropTrailingLF s ++ String LF "")%string.
Proof.
  induction s as [|c r IH]; [now left|].
  cbn [dropTrailingLF].
  destruct (Ascii.eqb c LF) eqn:Hc, (String.eqb r "") eqn:Hr; cbn [andb].
  - right. apply Ascii.eqb_eq in Hc. apply String.eqb_eq in Hr. now subst.
  - destruct IH as [IH|IH]; [left; now rewrite IH|right].
    rewrite append_cons. now rewrite <- IH.
  - destruct IH as [IH|IH]; [left; now rewrite IH|right].
    rewrite append_cons. now rewrite <- IH.
  - destruct IH as [IH|IH]; [left; now rewrite IH|right].
    rewrite append_cons. now rewrite <- IH.
Qed.

Section FenceCleanup.

Context {T : Type} (JSON_parse : string -> option T).
Hypothesis parse_leading_LF : forall s, JSON_parse (String LF s) = JSON_parse s.
Hypothesis parse_trailing_LF :
  forall s, JSON_parse (s ++ String LF "") = JSON_parse s.

Lemma parse_dropped (b : string) :
  JSON_parse (dropTrailingLF (dropLeadingLF b)) = JSON_parse b.
Proof.
  transitivity (JSON_parse (dropLeadingLF b)).
  - destruct (dropTrailingLF_spec (dropLeadingLF b)) as [H|H].
    + now rewrite H.
    + rewrite H at 2. now rewrite parse_trailing_LF.
  - destruct b as [|c r]; [reflexivity|]. cbn [dropLeadingLF].
    destruct (Ascii.eqb c LF) eqn:Hc; [|reflexivity].
    apply Ascii.eqb_eq in Hc. subst c. now rewrite parse_leading_LF.
Qed.

End FenceCleanup.

Lemma dropTrailingLF_append_LF (b : string) :
  dropTrailingLF (b ++ String LF "") = b.
Proof.
  induction b as [|c r IH]; [reflexivity|].
  rewrite append_cons. cbn [dropTrailingLF]. rewrite IH.
  replace (String.eqb (r ++ String LF "") "") with false
    by (destruct r; reflexivity).
  now rewrite andb_false_r.
Qed.

(** With each fence marker on a line of its own the clean-up returns the
    body itself, character for character. *)
Lemma cleanFence_own_lines (b : string) :
  cleanFence ("```json" ++ String LF (b ++ String LF "```")) = b
  /\ cleanFence ("```" ++ String LF (b ++ String LF "```")) = b.
Proof.
  assert (E : forall m : string,
             (m ++ String LF (b ++ String LF "```"))%string =
             (m ++ String LF (b ++ String LF "") ++ "```")%string).
  { intros m. f_equal. rewrite append_cons. f_equal.
    now rewrite append_assoc. }
  split; rewrite E.
  - rewrite cleanFence_json. cbn [dropLeadingLF].
    change (Ascii.eqb LF LF) with true. cbv iota.
    apply dropTrailingLF_append_LF.
  - rewrite cleanFence_plain by reflexivity. cbn [dropLeadingLF].
    change (Ascii.eqb LF LF) with true. cbv iota.
    apply dropTrailingLF_append_LF.
Qed.

Lemma withoutLF_append (a b : string) :
  withoutLF (a ++ b) = (withoutLF a ++ withoutLF b)%string.
Proof.
  induction a as [|c r IH]; [reflexivity|].
  rewrite append_cons. cbn [withoutLF].
  destruct (Ascii.eqb c LF); [exact IH|]. now rewrite append_cons, IH.
Qed.

Lemma append_empty_r (a : string) : (a ++ "")%string = a.
Proof. induction a as [|c r IH]; [reflexivity|]. now rewrite append_cons, IH. Qed.

Lemma lineFreeParse_leading (s : string) :
  lineFreeParse (String LF s) = lineFreeParse s.
Proof. reflexivity. Qed.

Lemma lineFreeParse_trailing (s : string) :
  lineFreeParse (s ++ String LF "") = lineFreeParse s.
Proof.
  unfold lineFreeParse. rewrite withoutLF_append.
  change (withoutLF (String LF "")) with "". now rewrite append_empty_r.
Qed.

(** *** White space around an unfenced response *)

Lemma jsonTrimEnd_cons (c : ascii) (r : string) :
  jsonTrimEnd (String c r) =
  if isJsonWhiteSpace c && String.eqb (jsonTrimEnd r) "" then ""
  else String c (jsonTrimEnd r).
Proof. reflexivity. Qed.

Lemma jsonTrimStart_cons (c : ascii) (r : string) :
  jsonTrimStart (String c r) =
  if isJsonWhiteSpace c then jsonTrimStart r else String c r.
Proof. reflexivity. Qed.

Lemma jsonTrimEnd_snoc (c : ascii) (s : string) :
  isJsonWhiteSpace c = true ->
  jsonTrimEnd (s ++ String c "") = jsonTrimEnd s.
Proof.
  intros Hc. induction s as [|d r IH].
  - change (jsonTrimEnd (String c "") = ""). rewrite jsonTrimEnd_cons.
    now rewrite Hc.
  - rewrite append_cons, !jsonTrimEnd_cons. now rewrite IH.
Qed.

Lemma jsonTrim_cons (c : ascii) (s : string) :
  isJsonWhiteSpace c = true -> jsonTrim (String c s) = jsonTrim s.
Proof. intros Hc. unfold jsonTrim. now rewrite jsonTrimStart_cons, Hc. Qed.

Lemma jsonTrim_snoc (c : ascii) (s : string) :
  isJsonWhiteSpace c = true -> jsonTrim (s ++ String c "") = jsonTrim s.
Proof.
  intros Hc. unfold jsonTrim. induction s as [|d r IH].
  - change (jsonTrimEnd (jsonTrimStart (String c "")) = "").
    rewrite jsonTrimStart_cons. now rewrite Hc.
  - rewrite append_cons, !jsonTrimStart_cons.
    destruct (isJsonWhiteSpace d); [exact IH|].
    rewrite <- append_cons. now apply jsonTrimEnd_snoc.
Qed.

Lemma parseDigitArray_leading (c : ascii) (s : string) :
  isJsonWhiteSpace c = true ->
  parseDigitArray (String c s) = parseDigitArray s.
Proof. intros Hc. unfold parseDigitArray. now rewrite jsonTrim_cons. Qed.

Lemma parseDigitArray_trailing (c : ascii) (s : string) :
  isJsonWhiteSpace c = true ->
  parseDigitArray (s ++ String c "") = parseDigitArray s.
Proof. intros Hc. unfold parseDigitArray. now rewrite jsonTrim_snoc. Qed.

Section JsonWhiteSpace.

Context {T : Type} (JSON_parse : string -> option T).
Hypothesis parse_leading :
  forall c s, isJsonWhiteSpace c = true ->
              JSON_parse (String c s) = JSON_parse s.
Hypothesis parse_trailing :
  forall c s, isJsonWhiteSpace c = true ->
              JSON_parse (s ++ String c "") = JSON_parse s.

Lemma parse_jsonTrimStart (s : string) :
  JSON_parse (jsonTrimStart s) = JSON_parse s.
Proof.
  induction s as [|c r IH]; [reflexivity|]. rewrite jsonTrimStart_cons.
  destruct (isJsonWhiteSpace c) eqn:Hc; [|reflexivity].
  now rewrite IH, parse_leading.
Qed.

(** White space at the end of a text, one character after the other. *)
Lemma parse_white_suffix (w : string) :
  jsonTrimStart w = "" -> forall x, JSON_parse (x ++ w) = JSON_parse x.
Proof.
  induction w as [|c r IH]; intros Hw x.
  - now rewrite append_empty_r.
  - rewrite jsonTrimStart_cons in Hw.
    destruct (isJsonWhiteSpace c) eqn:Hc; [|discriminate].
    replace (x ++ String c r)%string with ((x ++ String c "") ++ r)%string
      by now rewrite append_assoc.
    now rewrite (IH Hw), parse_trailing.
Qed.

Lemma jsonTrimEnd_suffix (s : string) :
  exists w, jsonTrimStart w = "" /\ s = (jsonTrimEnd s ++ w)%string.
Proof.
  induction s as [|c r (w & Hw & IH)]; [now exists ""|].
  rewrite jsonTrimEnd_cons.
  destruct (isJsonWhiteSpace c) eqn:Hc; cbn [andb].
  - destruct (String.eqb_spec (jsonTrimEnd r) "") as [E|E].
    + exists (String c w). split.
      * now rewrite jsonTrimStart_cons, Hc.
      * rewrite E in IH. change (r = w) in IH. now subst r.
    + exists w. split; [exact Hw|]. now rewrite append_cons, <- IH.
  - exists w. split; [exact Hw|]. now rewrite append_cons, <- IH.
Qed.

Lemma parse_jsonTrim (s : string) : JSON_parse (jsonTrim s) = JSON_parse s.
Proof.
  unfold jsonTrim. rewrite <- (parse_jsonTrimStart s).
  destruct (jsonTrimEnd_suffix (jsonTrimStart s)) as (w & Hw & E).
  rewrite E at 2. now rewrite parse_white_suffix.
Qed.

End JsonWhiteSpace.

Lemma trim_nonempty_truthy (t : string) (c : ascii) (r : string) :
  trim t = String c r -> truthy t = true.
Proof. destruct t; [discriminate|reflexivity]. Qed.

(** C8. For a schema-bearing call whose response text is a JSON payload [b]
    between a leading fence marker (with or without the [json] tag) and a
    trailing fence marker, [analyzeWithGemini] returns what [JSON.parse]
    returns on [b] itself, a [SyntaxError] included; so it does when white
    space surrounds the fenced text.  A response that does not start with a
    fence is trimmed and handed to [JSON.parse]; the call then returns what
    [JSON.parse] returns on the response itself whenever the white space
    around the response is JSON white space.  [JSON.parse] is any function
    that skips a line feed at either end of its input (any JSON white
    space, for the last part), and a payload does not start with the
    letters [json]. *)
Theorem fenced_response_parses_as_body
    (T : Type) (JSON_parse : string -> option T)
    (parse_leading_LF : forall s, JSON_parse (String LF s) = JSON_parse s)
    (parse_trailing_LF :
       forall s, JSON_parse (s ++ String LF "") = JSON_parse s)
    (b : string) :
  analyzeWithGemini JSON_parse true
    (Responds (Some ("```json" ++ b ++ "```"))) = parsed (JSON_parse b)
  /\ (startsWith b "json" = false ->
      analyzeWithGemini JSON_parse true
        (Responds (Some ("```" ++ b ++ "```"))) = parsed (JSON_parse b))
  /\ (forall t : string,
        trim t = ("```json" ++ b ++ "```")%string
        \/ (trim t = ("```" ++ b ++ "```")%string
            /\ startsWith b "json" = false) ->
        analyzeWithGemini JSON_parse true (Responds (Some t))
        = parsed (JSON_parse b))
  /\ (forall t : string,
        startsWith (trim t) "```" = false ->
        cleanFence t = trim t
        /\ analyzeWithGemini JSON_parse true (Responds (Some t)) =
           if truthy t then parsed (JSON_parse (trim t))
           else Thrown "No response from AI")
  /\ ((forall c s, isJsonWhiteSpace c = true ->
                   JSON_parse (String c s) = JSON_parse s) ->
      (forall c s, isJsonWhiteSpace c = true ->
                   JSON_parse (s ++ String c "") = JSON_parse s) ->
      forall t : string,
        startsWith (trim t) "```" = false ->
        trim t = jsonTrim t ->
        analyzeWithGemini JSON_parse true (Responds (Some t)) =
        if truthy t then parsed (JSON_parse t)
        else Thrown "No response from AI").
Proof.
  split; [|split; [|split; [|split]]].
  - cbn. now rewrite cleanFence_json, parse_dropped.
  - intros Hb. cbn. now rewrite cleanFence_plain, parse_dropped.
  - intros t Ht.
    assert (Hc : cleanFence t = dropTrailingLF (dropLeadingLF b)).
    { destruct Ht as [Ht|[Ht Hb]].
      - rewrite <- cleanFence_json. unfold cleanFence.
        now rewrite Ht, trim_fenced.
      - rewrite <- (cleanFence_plain b Hb). unfold cleanFence.
        now rewrite Ht, trim_fenced. }
    assert (Hty : truthy t = true).
    { destruct Ht as [Ht|[Ht _]]; exact (trim_nonempty_truthy _ _ _ Ht). }
    cbn. now rewrite Hty, Hc, parse_dropped.
  - intros t Ht. split; [now apply cleanFence_unfenced|].
    cbn. destruct (truthy t); [|reflexivity].
    now rewrite cleanFence_unfenced.
  - intros Hlead Htrail t Ht Hws.
    cbn. destruct (truthy t); [|reflexivity].
    rewrite cleanFence_unfenced by exact Ht.
    now rewrite Hws, (parse_jsonTrim JSON_parse Hlead Htrail).
Qed.

Lemma fenced_response_parses_as_body_example :
  analyzeWithGemini parseDigitArray true (Responds (Some "```json[1]```"))
  = Returned [1%nat]
  /\ analyzeWithGemini parseDigitArray true
       (Responds (Some ("```" ++ String LF "[1,2]" ++ String LF "```")))
     = Returned [1%nat; 2%nat]
  /\ analyzeWithGemini parseDigitArray true (Responds (Some " [1] "))
     = Returned [1%nat].
Proof.
  pose proof (fun b =>
    fenced_response_parses_as_body (list nat) parseDigitArray
      (fun s => parseDigitArray_leading LF s eq_refl)
      (fun s => parseDigitArray_trailing LF s eq_refl) b) as H.
  split; [|split].
  - exact (proj1 (H "[1]")).
  - exact (proj1 (proj2 (H (String LF "[1,2]" ++ String LF ""))) eq_refl).
  - exact (proj2 (proj2 (proj2 (proj2 (H ""))))
             parseDigitArray_leading parseDigitArray_trailing
             " [1] " eq_refl eq_refl).
Defined.

(** A no-break space before an unfenced payload: [trim] removes it and the
    call returns the array, where [JSON.parse] on the response itself
    throws. *)
Lemma unfenced_response_is_not_parsed_unchanged :
  let t := String NBSP "[1]" in
  startsWith (trim t) "```" = false
  /\ analyzeWithGemini parseDigitArray true (Responds (Some t))
     = Returned [1%nat]
  /\ parsed (parseDigitArray t) = Thrown "SyntaxError"
  /\ analyzeWithGemini parseDigitArray true (Responds (Some t))
     <> parsed (parseDigitArray t).
Proof. repeat split. discriminate. Qed.

Local Open Scope list_scope.

(** ** Back navigation ([src/unnamed/part_000]) *)

Lemma handleBack_navigateTo (s : Part000.Step.t) (st : Part000.AppState) :
  Part000.handleBack (Part000.navigateTo s st) = st.
Proof.
  destruct st as [cur ld msg err tab mode edit hist usr modal stack sess store].
  unfold Part000.handleBack, Part000.navigateTo, Part000.setCurrentStep,
    Part000.setStepHistory. cbn.
  rewrite length_app. cbn.
  replace (length stack + 1 =? 0)%nat with false
    by (symmetry; apply Nat.eqb_neq; lia).
  replace (length stack + 1 - 1)%nat with (length stack + 0)%nat by lia.
  rewrite lookup_app_r by lia.
  replace (length stack + 0 - length stack)%nat with 0%nat by lia. cbn.
  now rewrite removelast_last.
Qed.

(** C1. After any sequence of [navigateTo] calls, [handleBack] right after a
    further [navigateTo(s)] gives back the whole state of before that call,
    the current step and the back stack in particular; and on an empty back
    stack [handleBack] returns the state it was given.  [handleBack] is a
    total function: it does not throw. *)
Theorem goBack_reverses_navigateTo :
  (forall (st0 : Part000.AppState) (steps : list Part000.Step.t)
          (s : Part000.Step.t),
      let st := fold_left (fun acc x => Part000.navigateTo x acc) steps st0 in
      Part000.handleBack (Part000.navigateTo s st) = st
      /\ Part000.currentStep (Part000.handleBack (Part000.navigateTo s st))
         = Part000.currentStep st
      /\ Part000.stepHistory (Part000.handleBack (Part000.navigateTo s st))
         = Part000.stepHistory st)
  /\ (forall st : Part000.AppState,
        let empty := Part000.setStepHistory (fun _ => []) st in
        Part000.handleBack empty = empty).
Proof.
  split.
  - intros st0 steps s st. now rewrite handleBack_navigateTo.
  - intros st. reflexivity.
Qed.

(** ** Answer records *)

Lemma findIndex_lower {A} (p : A -> bool) (l : list A) :
  (-1 <= findIndex p l)%Z.
Proof.
  induction l as [|x r IH]; cbn; [lia|].
  destruct (p x); [lia|]. destruct (Z.ltb_spec (findIndex p r) 0); lia.
Qed.

Lemma splice_at_findIndex {A} (p : A -> bool) (l : list A) :
  (if (findIndex p l >? -1)%Z then splice1 (Z.to_nat (findIndex p l)) l else l)
  = dropFirst p l.
Proof.
  induction l as [|x r IH]; [reflexivity|].
  cbn [findIndex dropFirst]. destruct (p x); [reflexivity|].
  pose proof (findIndex_lower p r) as Hlow.
  destruct (Z.ltb_spec (findIndex p r) 0) as [Hneg|Hpos].
  - cbn. rewrite <- IH.
    replace (findIndex p r >? -1)%Z with false; [reflexivity|].
    symmetry. rewrite Z.gtb_ltb. apply Z.ltb_ge. lia.
  - replace (findIndex p r + 1 >? -1)%Z with true
      by (symmetry; rewrite Z.gtb_ltb; apply Z.ltb_lt; lia).
    replace (Z.to_nat (findIndex p r + 1)) with (S (Z.to_nat (findIndex p r)))
      by lia.
    cbn [splice1]. f_equal. rewrite <- IH.
    replace (findIndex p r >? -1)%Z with true; [reflexivity|].
    symmetry. rewrite Z.gtb_ltb. apply Z.ltb_lt. lia.
Qed.

Section Upsert.

Context {R : Type} (key : R -> nat).

Lemma dropFirst_keys_subset (i j : nat) (l : list R) :
  j ∈ key <$> dropFirst (fun a => Nat.eqb (key a) i) l -> j ∈ key <$> l.
Proof.
  induction l as [|x r IH]; cbn [dropFirst]; [easy|].
  rewrite fmap_cons, elem_of_cons.
  destruct (Nat.eqb (key x) i); [now right|].
  rewrite fmap_cons, elem_of_cons. intros [->|H]; [now left|right; auto].
Qed.

Lemma dropFirst_removes_key (i : nat) (l : list R) :
  NoDup (key <$> l) -> i ∉ key <$> dropFirst (fun a => Nat.eqb (key a) i) l.
Proof.
  induction l as [|x r IH]; cbn [dropFirst]; [intros _; apply not_elem_of_nil|].
  rewrite fmap_cons, NoDup_cons. intros [Hx Hr].
  destruct (Nat.eqb_spec (key x) i) as [<-|Hne]; [exact Hx|].
  rewrite fmap_cons, not_elem_of_cons. split; [congruence|auto].
Qed.

Lemma dropFirst_keys_NoDup (i : nat) (l : list R) :
  NoDup (key <$> l) -> NoDup (key <$> dropFirst (fun a => Nat.eqb (key a) i) l).
Proof.
  induction l as [|x r IH]; cbn [dropFirst]; [easy|].
  rewrite fmap_cons, NoDup_cons. intros [Hx Hr].
  destruct (Nat.eqb (key x) i); [exact Hr|].
  rewrite fmap_cons, NoDup_cons. split; [|auto].
  intros H. apply Hx. eapply dropFirst_keys_subset, H.
Qed.

Lemma filter_key_absent (i : nat) (l : list R) :
  i ∉ key <$> l -> filter (fun a => key a = i) l = [].
Proof.
  induction l as [|x r IH]; [reflexivity|].
  rewrite fmap_cons, not_elem_of_cons. intros [Hx Hr].
  rewrite filter_cons_False by congruence. auto.
Qed.

Lemma filter_key_other (i : nat) (l : list R) :
  filter (fun a => key a = i) (filter (fun a => key a <> i) l) = [].
Proof.
  induction l as [|x r IH]; [reflexivity|].
  destruct (decide (key x = i)) as [E|E].
  - now rewrite (filter_cons_False (fun a => key a <> i)) by tauto.
  - rewrite (filter_cons_True (fun a => key a <> i)) by exact E.
    now rewrite filter_cons_False by exact E.
Qed.

End Upsert.

Lemma onAnswerSubmit_answers (i : nat) (a : string) (f : AnswerFeedback.t)
    (s : Index.SessionData.t) :
  Index.SessionData.answers (Index.onAnswerSubmit i a f s) =
  dropFirst (fun r => Nat.eqb (Index.Answer.questionIndex r) i)
    (Index.SessionData.answers s) ++ [Index.Answer.mk i a (Some f)].
Proof.
  unfold Index.onAnswerSubmit. cbn. now rewrite splice_at_findIndex.
Qed.

(** Along submissions from an empty list, no two records share an index. *)
Lemma submitAll_NoDup (subs : list Submission) (s : Index.SessionData.t) :
  NoDup (Index.Answer.questionIndex <$> Index.SessionData.answers s) ->
  NoDup (Index.Answer.questionIndex <$>
           Index.SessionData.answers (submitAll subs s)).
Proof.
  revert s. induction subs as [|[[i a] f] subs IH]; intros s Hs; [exact Hs|].
  change (submitAll ((i, a, f) :: subs) s)
    with (submitAll subs (Index.onAnswerSubmit i a f s)).
  apply IH. rewrite onAnswerSubmit_answers, fmap_app.
  apply NoDup_app. split; [now apply dropFirst_keys_NoDup|]. split.
  - intros j Hj Hin. apply list_elem_of_singleton in Hin. cbn in Hin. subst j.
    now apply (dropFirst_removes_key Index.Answer.questionIndex i) in Hs.
  - apply NoDup_singleton.
Qed.

(** [findIndex] finds the first record only: on a list that already held
    two records for one question, which no sequence of submissions
    produces, one of them would stay. *)
Remark onAnswerSubmit_removes_first_only :
  let s :=
    Index.SessionData.patch_answers [answered 0 5; answered 0 6]
      (Index.freshSession "id-1" 0) in
  Index.SessionData.answers (Index.onAnswerSubmit 0 "new" (feedbackScored 9) s)
  = [answered 0 6; Index.Answer.mk 0 "new" (Some (feedbackScored 9))].
Proof. reflexivity. Qed.

(** C5. In [src/index.tsx], after any sequence of submissions starting from
    the empty answer list, submitting answer [a] with feedback [f] for
    question [i] leaves exactly one record with index [i], and it holds [a]
    and [f]; in [src/unnamed/part_000] the same holds of the written
    answers, from any list and whichever session the click rendered. *)
Theorem resubmission_keeps_one_record :
  (forall (s0 : Index.SessionData.t) (subs : list Submission)
          (i : nat) (a : string) (f : AnswerFeedback.t),
      let s := submitAll subs (Index.SessionData.patch_answers [] s0) in
      filter (fun r => Index.Answer.questionIndex r = i)
        (Index.SessionData.answers (Index.onAnswerSubmit i a f s))
      = [Index.Answer.mk i a (Some f)])
  /\ (forall (rendered : Part000.SessionData.t) (st : Part000.AppState)
             (i : nat) (a : string) (f : AnswerFeedback.t),
        filter (fun r => Part000.WrittenAnswer.questionIndex r = i)
          (Part000.SessionData.writtenAnswers
             (Part000.session (Part000.onAnswerSubmit i a f rendered st)))
        = [Part000.WrittenAnswer.mk i a (Some f)]).
Proof.
  split.
  - intros s0 subs i a f s.
    assert (Hs : NoDup (Index.Answer.questionIndex <$>
                          Index.SessionData.answers s)).
    { apply submitAll_NoDup. cbn. apply NoDup_nil_2. }
    rewrite onAnswerSubmit_answers, filter_app.
    rewrite (filter_key_absent Index.Answer.questionIndex)
      by now apply dropFirst_removes_key.
    now rewrite filter_cons_True by reflexivity.
  - intros rendered st i a f. cbn. rewrite filter_app.
    rewrite (filter_key_other Part000.WrittenAnswer.questionIndex).
    now rewrite filter_cons_True by reflexivity.
Qed.

(** ** Identity switch *)

Lemma historyKey_not_userSessionKey (email : string) :
  historyKey email <> userSessionKey.
Proof.
  unfold historyKey, userSessionKey. intros H.
  apply (f_equal (fun s => String.get 3 s)) in H. cbn in H. discriminate H.
Qed.

(** Log out, then log in as [B] at once (the login form first stores [B]
    under the user-session key), from any state: the storage entry under
    [B]'s history key is the one of before, and the history in memory is
    the list that entry parses to; it is empty when [B] has no entry. *)
Lemma login_right_after_logout :
  (forall (JSON_parse_history : string -> option (list Index.SessionData.t))
          (JSON_stringify_history : list Index.SessionData.t -> string)
          (st : Index.AppState) (B : User.t) (stored : string),
      let st' :=
        Index.handleLogin JSON_parse_history JSON_stringify_history B
          (Index.setItem userSessionKey stored (Index.handleLogout st)) in
      Index.localStorage st' !! historyKey (User.email B)
      = Index.localStorage st !! historyKey (User.email B)
      /\ match Index.localStorage st' !! historyKey (User.email B) with
         | None => Index.history st' = []
         | Some txt =>
             if truthy txt then
               match JSON_parse_history txt with
               | Some persisted => Index.history st' = persisted
               | None => Index.history st' = []
               end
             else Index.history st' = []
         end)
  /\ (forall (JSON_parse_history :
                string -> option (list Part000.SessionData.t))
             (st : Part000.AppState) (B : User.t) (stored : string),
        let st' :=
          Part000.handleLogin JSON_parse_history B
            (Part000.setItem userSessionKey stored (Part000.handleLogout st)) in
        Part000.localStorage st' !! historyKey (User.email B)
        = Part000.localStorage st !! historyKey (User.email B)
        /\ match Part000.localStorage st' !! historyKey (User.email B) with
           | None => Part000.history st' = []
           | Some txt =>
               if truthy txt then
                 match JSON_parse_history txt with
                 | Some persisted => Part000.history st' = persisted
                 | None => Part000.history st' = []
                 end
               else Part000.history st' = []
           end).
Proof.
  split.
  - intros parse str st B stored st'.
    pose proof (historyKey_not_userSessionKey (User.email B)) as Hk.
    assert (Hget :
      <[userSessionKey := stored]> (delete userSessionKey (Index.localStorage st))
        !! historyKey (User.email B)
      = Index.localStorage st !! historyKey (User.email B)).
    { rewrite lookup_insert_ne, lookup_delete_ne by congruence. reflexivity. }
    subst st'. unfold Index.handleLogin, Index.loadHistory.
    destruct st as [cur ld msg err tab mode edit hist usr modal sess store].
    cbn in *. rewrite Hget.
    rewrite (bool_decide_eq_false_2 (Index.Step.landing = Index.Step.summary))
      by discriminate.
    destruct (store !! historyKey (User.email B)) as [txt|] eqn:Hs;
      [destruct (truthy txt) eqn:Ht; [destruct (parse txt) as [h|] eqn:Hp|]|];
      cbn; rewrite ?Hget, ?Hs, ?Ht, ?Hp; now split.
  - intros parse st B stored st'.
    pose proof (historyKey_not_userSessionKey (User.email B)) as Hk.
    assert (Hget :
      <[userSessionKey := stored]>
        (delete userSessionKey (Part000.localStorage st))
        !! historyKey (User.email B)
      = Part000.localStorage st !! historyKey (User.email B)).
    { rewrite lookup_insert_ne, lookup_delete_ne by congruence. reflexivity. }
    subst st'. unfold Part000.handleLogin, Part000.loadHistory.
    destruct st as
      [cur ld msg err tab mode edit hist usr modal stack sess store].
    cbn in *. rewrite Hget.
    destruct (store !! historyKey (User.email B)) as [txt|] eqn:Hs;
      [destruct (truthy txt) eqn:Ht; [destruct (parse txt) as [h|] eqn:Hp|]|];
      cbn; rewrite ?Hget, ?Hs, ?Ht, ?Hp; now split.
Qed.

(** ** The interview score ([src/index.tsx]) *)









(** ** The generation stages *)

(** C4. When the resume stage succeeds (an analysis is present and the
    result holds at least one version) the session's [optimizedResumes] is
    the list of the result, none of the earlier entries is in it unless
    generated again, and [selectedResumeIndex] is 0; when the cover-letter
    stage returns, [coverLetters] is the array of the result and
    [selectedCoverLetterIndex] is 0. *)
Theorem successful_generation_replaces_list :
  (forall (st : Index.AppState) (a : AnalysisResult.t)
          (v : Index.Version.t) (vs : list Index.Version.t),
      let before := Index.setSession (Index.SessionData.patch_analysis a) st in
      let after :=
        complete (Index.handleGenerateOptimizedResumes before)
          (Returned (VersionsResult.mk (Some (v :: vs)))) in
      Index.SessionData.optimizedResumes (Index.session after) = v :: vs
      /\ Index.SessionData.selectedResumeIndex (Index.session after) = 0)
  /\ (forall (st : Index.AppState) (vs : option (list Index.Version.t)),
        let after :=
          complete (Index.handleGenerateCoverLetters st)
            (Returned (VersionsResult.mk vs)) in
        Index.SessionData.coverLetters (Index.session after) = vs
        /\ Index.SessionData.selectedCoverLetterIndex (Index.session after)
           = 0).
Proof.
  split.
  - intros st a v vs before after. split; reflexivity.
  - intros st vs after. split; reflexivity.
Qed.

(** What [analyzeWithGemini] does on the three failures of the client. *)
Lemma analyzeWithGemini_failures {T} (JSON_parse : string -> option T) :
  (forall message,
      analyzeWithGemini JSON_parse true (CallFails message) = Thrown message)
  /\ analyzeWithGemini JSON_parse true (Responds None)
     = Thrown "No response from AI"
  /\ analyzeWithGemini JSON_parse true (Responds (Some ""))
     = Thrown "No response from AI"
  /\ (forall text,
        truthy text = true -> JSON_parse (cleanFence text) = None ->
        analyzeWithGemini JSON_parse true (Responds (Some text))
        = Thrown "SyntaxError").
Proof.
  repeat split. intros text Ht Hp. cbn. now rewrite Ht, Hp.
Qed.

(** C2. For each generation stage of the two sources (fit analysis, resume
    variants, cover-letter variants, question generation, answer grading):
    if the awaited call throws, or the stage's own check rejects the
    result, the session after the handler is the session before it and the
    current step is the same. *)
Theorem failed_stage_keeps_session_and_step :
  (forall st o, StageFails noCheck o ->
      let st' := complete (Index.handleAnalyze st) o in
      Index.session st' = Index.session st
      /\ Index.currentStep st' = Index.currentStep st)
  /\ (forall st o, StageFails versionsMissing o ->
      let st' := complete (Index.handleGenerateOptimizedResumes st) o in
      Index.session st' = Index.session st
      /\ Index.currentStep st' = Index.currentStep st)
  /\ (forall st o, StageFails noCheck o ->
      let st' := complete (Index.handleGenerateCoverLetters st) o in
      Index.session st' = Index.session st
      /\ Index.currentStep st' = Index.currentStep st)
  /\ (forall st o, StageFails questionsMissing o ->
      let st' := complete (Index.handleGenerateQuestions st) o in
      Index.session st' = Index.session st
      /\ Index.currentStep st' = Index.currentStep st)
  /\ (forall st c o, StageFails noCheck o ->
      let st' := (complete (Index.InterviewSession_handleSubmit st c) o).1 in
      Index.session st' = Index.session st
      /\ Index.currentStep st' = Index.currentStep st)
  /\ (forall st o, StageFails noCheck o ->
      let st' := complete (Part000.handleAnalyze st) o in
      Part000.session st' = Part000.session st
      /\ Part000.currentStep st' = Part000.currentStep st)
  /\ (forall st o, StageFails noCheck o ->
      let st' := complete (Part000.handleGenerateQuestions st) o in
      Part000.session st' = Part000.session st
      /\ Part000.currentStep st' = Part000.currentStep st)
  /\ (forall st c o, StageFails noCheck o ->
      let st' := (complete (Part000.WrittenPractice_handleSubmit st c) o).1 in
      Part000.session st' = Part000.session st
      /\ Part000.currentStep st' = Part000.currentStep st).
Proof.
  repeat apply conj.
  - intros st o Hf. unfold Index.handleAnalyze.
    destruct (negb _); [now split|].
    destruct Hf as [m|r Hr]; [now split|discriminate Hr].
  - intros st o Hf. unfold Index.handleGenerateOptimizedResumes.
    destruct (Index.SessionData.analysis _); [|now split].
    destruct Hf as [m|[[[|v vs]|]] Hr]; solve [now split | discriminate Hr].
  - intros st o Hf. destruct Hf as [m|r Hr]; [now split|discriminate Hr].
  - intros st o Hf.
    destruct Hf as [m|[[[|v vs]|]] Hr]; solve [now split | discriminate Hr].
  - intros st c o Hf. unfold Index.InterviewSession_handleSubmit.
    destruct (negb _); [now split|].
    destruct (_ !! _); [|now split].
    destruct Hf as [m|r Hr]; [now split|discriminate Hr].
  - intros st o Hf. destruct Hf as [m|r Hr]; [now split|discriminate Hr].
  - intros st o Hf. destruct Hf as [m|r Hr]; [now split|discriminate Hr].
  - intros st c o Hf. unfold Part000.WrittenPractice_handleSubmit.
    destruct (negb _); [now split|].
    destruct (_ ≫= _); [|now split].
    destruct Hf as [m|r Hr]; [now split|discriminate Hr].
Qed.

Lemma failed_stage_keeps_session_and_step_example :
  let o : outcome (VersionsResult.t Index.Version.t) :=
    Returned (VersionsResult.mk (Some [])) in
  let st :=
    Index.setSession
      (Index.SessionData.patch_analysis (AnalysisResult.mk 72 [] [] [] [] []))
      sampleIndexState in
  let st' := complete (Index.handleGenerateOptimizedResumes st) o in
  Index.session st' = Index.session st
  /\ Index.currentStep st' = Index.currentStep st.
Proof.
  intros o st.
  exact (proj1 (proj2 failed_stage_keeps_session_and_step) st o
           (result_rejected versionsMissing (VersionsResult.mk (Some []))
              eq_refl)).
Defined.

(** C3. What the stages do with a result whose array is empty or missing.
    In [src/index.tsx] the resume stage and the question stage reject it:
    the session and the step are kept and an error is set.  The
    cover-letter stage of the same file has no such check: an empty (or
    missing) array replaces [coverLetters], here the one letter held
    before, and the step becomes [cover-letter] with no error set.  The
    question stage of [src/unnamed/part_000] has no check either. *)
Theorem empty_result_is_rejected_by_two_stages_only :
  (forall st a vs, noItems vs = true ->
      let before := Index.setSession (Index.SessionData.patch_analysis a) st in
      let after :=
        complete (Index.handleGenerateOptimizedResumes before)
          (Returned (VersionsResult.mk vs)) in
      Index.session after = Index.session before
      /\ Index.currentStep after = Index.currentStep before
      /\ Index.error after
         = Some "Failed to generate optimized resumes. Please try again.")
  /\ (forall st qs, noItems qs = true ->
        let after :=
          complete (Index.handleGenerateQuestions st)
            (Returned (QuestionsResult.mk qs)) in
        Index.session after = Index.session st
        /\ Index.currentStep after = Index.currentStep st
        /\ Index.error after
           = Some "Failed to generate interview questions. Please try again.")
  /\ (let before :=
        Index.setSession
          (Index.SessionData.patch_coverLetters (Some [sampleLetter]) 0)
          sampleIndexState in
      let after :=
        complete (Index.handleGenerateCoverLetters before)
          (Returned (VersionsResult.mk (Some []))) in
      Index.SessionData.coverLetters (Index.session before)
      = Some [sampleLetter]
      /\ Index.SessionData.coverLetters (Index.session after) = Some []
      /\ Index.currentStep after = Index.Step.cover_letter
      /\ Index.error after = None)
  /\ (forall st, 
        let after :=
          complete (Part000.handleGenerateQuestions st)
            (Returned (QuestionsResult.mk (Some []))) in
        Part000.SessionData.questions (Part000.session after) = Some []
        /\ Part000.currentStep after = Part000.Step.written_practice
        /\ Part000.error after = Part000.error st).
Proof.
  repeat apply conj; try reflexivity.
  - intros st a [[|v vs]|] H; try discriminate H; now repeat split.
  - intros st [[|q qs]|] H; try discriminate H; now repeat split.
  - intros st. now repeat split.
Qed.

Lemma empty_result_is_rejected_by_two_stages_only_example :
  let before :=
    Index.setSession
      (Index.SessionData.patch_analysis (AnalysisResult.mk 72 [] [] [] [] []))
      sampleIndexState in
  let after :=
    complete (Index.handleGenerateOptimizedResumes before)
      (Returned (VersionsResult.mk (Some []))) in
  Index.session after = Index.session before
  /\ Index.currentStep after = Index.currentStep before
  /\ Index.error after
     = Some "Failed to generate optimized resumes. Please try again.".
Proof.
  exact (proj1 empty_result_is_rejected_by_two_stages_only sampleIndexState
           (AnalysisResult.mk 72 [] [] [] [] []) (Some []) eq_refl).
Defined.

(** ** The "Analyze Fit" action *)

(** C9, as stated, fails in [src/unnamed/part_000]: with the empty job
    description of the initial session the button "Analyze Fit" is disabled
    and a click changes nothing, so no error is raised; and the handler
    behind the button has no guard of its own, it would issue the call. *)
Lemma part000_empty_job_description_raises_no_error :
  Part000.SessionData.jobDescription (Part000.session samplePart000State) = ""
  /\ Part000.clickAnalyzeFit samplePart000State = Done samplePart000State
  /\ (forall o,
        Part000.error (complete (Part000.clickAnalyzeFit samplePart000State) o)
        = None)
  /\ calls (Part000.handleAnalyze samplePart000State) = 1.
Proof. repeat split. Qed.

(** C9, amended.  With an empty job description no call is made and the
    state keeps its step and session.  In [src/index.tsx] [handleAnalyze]
    ends at once with the error "Please enter a job description", also for
    a job description of white space only, and in text input mode the
    button is disabled, so that a click changes nothing; in
    [src/unnamed/part_000] the button is disabled for the empty string and
    a click changes nothing. *)
Theorem empty_job_description_blocks_analysis :
  (forall st : Index.AppState,
      trim (Index.SessionData.jobDescription (Index.session st)) = "" ->
      Index.handleAnalyze st
      = Done (Index.setError (Some "Please enter a job description") st)
      /\ calls (Index.handleAnalyze st) = 0
      /\ (forall o,
            let st' := complete (Index.handleAnalyze st) o in
            Index.currentStep st' = Index.currentStep st
            /\ Index.session st' = Index.session st
            /\ Index.error st' = Some "Please enter a job description")
      /\ (Index.jobInputMode st = Index.InputMode.text ->
          Index.clickAnalyze st = Done st))
  /\ (forall st : Part000.AppState,
        Part000.SessionData.jobDescription (Part000.session st) = "" ->
        Part000.clickAnalyzeFit st = Done st
        /\ calls (Part000.clickAnalyzeFit st) = 0).
Proof.
  split.
  - intros st H. unfold Index.clickAnalyze, Index.handleAnalyze. rewrite H.
    cbn. repeat split. intros ->. reflexivity.
  - intros st H. unfold Part000.clickAnalyzeFit. rewrite H. now split.
Qed.

Lemma empty_job_description_blocks_analysis_example :
  (Index.handleAnalyze sampleIndexState
   = Done (Index.setError (Some "Please enter a job description")
             sampleIndexState)
   /\ Index.clickAnalyze sampleIndexState = Done sampleIndexState)
  /\ Part000.clickAnalyzeFit samplePart000State = Done samplePart000State.
Proof.
  destruct empty_job_description_blocks_analysis as [HI HP].
  destruct (HI sampleIndexState eq_refl) as (H1 & _ & _ & H4).
  destruct (HP samplePart000State eq_refl) as (H5 & _).
  split; [split; [exact H1 | exact (H4 eq_refl)] | exact H5].
Defined.

(** ** Saving an edited version *)

(** The edit goes through the array of the earlier session: that array
    still holds the same references, and the object behind the selected
    one now carries the new content. *)
Lemma saveResumeChanges_writes_shared_object
    (editingContent : string) (h h' : Objects.Heap)
    (s s' : Objects.SessionObject) :
  Objects.saveResumeChanges editingContent h s = Some (h', s') ->
  exists elems target v,
    Objects.arrays h !! Objects.optimizedResumes s = Some elems
    /\ Objects.arrays h' !! Objects.optimizedResumes s = Some elems
    /\ elems !! Objects.selectedResumeIndex s = Some target
    /\ Objects.versions h !! target = Some v
    /\ Objects.versions h' !! target
       = Some (Index.Version.mk (Index.Version.id v) (Index.Version.name v)
                 editingContent).
Proof.
  unfold Objects.saveResumeChanges, Objects.spread, Objects.writeContent.
  destruct (Objects.arrays h !! Objects.optimizedResumes s) as [elems|] eqn:Ha;
    [|discriminate].
  destruct (elems !! Objects.selectedResumeIndex s) as [target|] eqn:Ht;
    [|discriminate].
  cbn. destruct (Objects.versions h !! target) as [v|] eqn:Hv; [|discriminate].
  intros [= <- <-]. exists elems, target, v. cbn.
  repeat split; try assumption.
  - destruct (decide (Objects.next h = Objects.optimizedResumes s)) as [E|E].
    + rewrite E. apply lookup_insert_eq.
    + now rewrite lookup_insert_ne.
  - apply lookup_insert_eq.
Qed.

(** C6. The session updates of the handlers build a new session value from
    the previous one; "Save Changes" does not: it copies the array of
    versions but writes the new content into the version object that the
    copy shares with the array of the previous session.  On a session with
    the one version ["old text"], saving ["new text"] changes what the
    previous session object denotes. *)
Theorem save_changes_mutates_previous_session :
  exists h' s',
    Objects.saveResumeChanges "new text" sampleHeap sampleSessionObject
    = Some (h', s')
    /\ Objects.sessionValue sampleHeap sampleSessionObject
       = (Some [Index.Version.mk "v1" "Standard Optimized" "old text"], None)
    /\ Objects.sessionValue h' sampleSessionObject
       = (Some [Index.Version.mk "v1" "Standard Optimized" "new text"], None)
    /\ Objects.sessionValue h' s'
       = (Some [Index.Version.mk "v1" "Standard Optimized" "new text"], None).
Proof.
  eexists _, _. split; [reflexivity|]. repeat split.
Qed.

(** The cover-letter button does the same. *)
Example save_cover_letter_changes_example :
  exists h' s',
    Objects.saveCoverLetterChanges "Hello" sampleLetterHeap sampleLetterSession
    = Some (h', s')
    /\ Objects.sessionValue sampleLetterHeap sampleLetterSession
       = (Some [], Some [sampleLetter])
    /\ Objects.sessionValue h' sampleLetterSession
       = (Some [], Some [Index.Version.mk "cl1" "Professional" "Hello"]).
Proof.
  eexists _, _. split; [reflexivity|]. repeat split.
Qed.

(** * Further properties of the two sources *)

Local Open Scope string_scope.

(** ** The AI client *)

(** X1. A schema-bearing call returns a value exactly when the response
    carries a non-empty text whose cleaned form parses, and the value is
    that parse; a call without schema returns exactly a non-empty response
    text, untouched.  In every other case the call throws. *)
Theorem analyzeWithGemini_returns_iff
    (T : Type) (JSON_parse : string -> option T) (response : Response) :
  (forall v : T,
      analyzeWithGemini JSON_parse true response = Returned v
      <-> exists text, response = Responds (Some text) /\ text <> ""
                       /\ JSON_parse (cleanFence text) = Some v)
  /\ (forall t : string,
        analyzeWithGemini JSON_parse false response = Returned t
        <-> response = Responds (Some t) /\ t <> "").
Proof.
  split.
  - intros v. split.
    + destruct response as [m|[text|]]; cbn; try discriminate.
      destruct text as [|c r]; cbn; [discriminate|].
      destruct (JSON_parse (cleanFence (String c r))) as [w|] eqn:Hp;
        cbn; [|discriminate].
      intros [= ->]. exists (String c r). now repeat split.
    + intros (text & -> & Hne & Hp). cbn.
      destruct text as [|c r]; [contradiction|]. cbn. now rewrite Hp.
  - intros t. split.
    + destruct response as [m|[text|]]; cbn; try discriminate.
      destruct text as [|c r]; cbn; [discriminate|].
      intros [= <-]. now split.
    + intros [-> Hne]. destruct t as [|c r]; [contradiction|]. reflexivity.
Qed.

Lemma replaceTrailingFence_no_fence (s : string) :
  endsWith s "```" = false -> replaceTrailingFence s = s.
Proof.
  induction s as [|c r IH]; [reflexivity|].
  cbn [endsWith]. intros H. apply orb_false_iff in H as [H1 H2].
  rewrite replaceTrailingFence_cons, H1, (IH H2). cbn [orb].
  replace (String.eqb (String c r) (String LF "```")) with false;
    [reflexivity|].
  symmetry. apply String.eqb_neq. intros [= _ ->]. discriminate H2.
Qed.

Lemma trimEnd_append (a b : string) :
  trimEnd b = b -> b <> "" -> trimEnd (a ++ b) = (a ++ b)%string.
Proof.
  intros Hb Hne. induction a as [|c r IH]; [exact Hb|].
  rewrite append_cons, trimEnd_cons, IH.
  replace (String.eqb (r ++ b) "") with false;
    [now rewrite andb_false_r|].
  symmetry. apply String.eqb_neq. destruct r; [exact Hne|discriminate].
Qed.

(** X2. A response that opens with the [json] fence on a line of its own
    but never closes it is unwrapped all the same: when the body has no
    white space at its end and does not end with a fence, the call returns
    what [JSON.parse] returns on the body. *)
Theorem unclosed_fence_is_unwrapped
    (T : Type) (JSON_parse : string -> option T) (b : string) :
  trimEnd b = b -> endsWith b "```" = false ->
  cleanFence ("```json" ++ String LF b) = b
  /\ analyzeWithGemini JSON_parse true
       (Responds (Some ("```json" ++ String LF b)))
     = parsed (JSON_parse b).
Proof.
  intros Ht He.
  assert (Hc : cleanFence ("```json" ++ String LF b) = b).
  { destruct b as [|c r]; [reflexivity|].
    unfold cleanFence.
    assert (E : trim ("```json" ++ String LF (String c r))
                = ("```json" ++ String LF (String c r))%string).
    { unfold trim.
      change (trimStart ("```json" ++ String LF (String c r)))
        with (("```json" ++ String LF "") ++ String c r)%string.
      exact (trimEnd_append ("```json" ++ String LF "") (String c r) Ht
               ltac:(discriminate)). }
    rewrite E.
    change (startsWith ("```json" ++ String LF (String c r)) "```json")
      with true.
    cbv iota.
    change (replaceLeading "```json" ("```json" ++ String LF (String c r)))
      with (String c r).
    now apply replaceTrailingFence_no_fence. }
  split; [exact Hc|]. cbn. now rewrite Hc.
Qed.

Lemma unclosed_fence_is_unwrapped_example :
  analyzeWithGemini lineFreeParse true
    (Responds (Some ("```json" ++ String LF "[1]")))
  = Returned "[1]".
Proof.
  exact (proj2 (unclosed_fence_is_unwrapped string lineFreeParse "[1]"
                  eq_refl eq_refl)).
Defined.

(** ** Progress bars *)

(** X3. In [src/unnamed/part_000] the progress bar is hidden on the landing
    and history steps only; on every other step its width is between 15 and
    100 percent, and it never shrinks along the order in which the steps
    are declared (landing, upload, job description, analysis, dashboard,
    the practice modules, summary). *)
Theorem part000_progress_is_monotone :
  (forall s, Part000.ProgressBar s = None
             <-> s = Part000.Step.landing \/ s = Part000.Step.history)
  /\ (forall s p, Part000.ProgressBar s = Some p -> (15 <= p <= 100)%Z)
  /\ (forall s t p q,
        Part000.ProgressBar s = Some p -> Part000.ProgressBar t = Some q ->
        (stepRank s <= stepRank t)%nat -> (p <= q)%Z).
Proof.
  split; [|split].
  - intros s. split.
    + destruct s; cbn; intros H; try discriminate H; auto.
    + intros [-> | ->]; reflexivity.
  - intros s p. destruct s; cbn; intros [= <-]; lia.
  - intros s t p q. destruct s, t; cbn; intros [= <-] [= <-] H; lia.
Qed.

Lemma part000_progress_is_monotone_example :
  (45 <= 80)%Z.
Proof.
  exact (proj2 (proj2 part000_progress_is_monotone)
           Part000.Step.analysis Part000.Step.verbal_practice 45%Z 80%Z
           eq_refl eq_refl ltac:(cbn; lia)).
Defined.

(** X4. In [src/index.tsx] the progress bar is hidden on the landing and
    history steps only; on the other steps its width
    [max(5, index / 7 * 100)] lies between 5 and 100 percent, never shrinks
    along the list of steps, and is 100 on the summary. *)
Theorem index_progress_is_monotone :
  (forall s, Index.ProgressBar s = None
             <-> s = Index.Step.landing \/ s = Index.Step.history)
  /\ (forall s p, Index.ProgressBar s = Some p ->
        PrimFloat.leb 5 p = true /\ PrimFloat.leb p 100 = true)
  /\ (forall s t p q,
        Index.ProgressBar s = Some p -> Index.ProgressBar t = Some q ->
        (indexOf s Index.progressSteps <= indexOf t Index.progressSteps)%Z ->
        PrimFloat.leb p q = true)
  /\ Index.ProgressBar Index.Step.summary = Some 100%float.
Proof.
  split; [|split; [|split]].
  - intros s. split.
    + destruct s; vm_compute; intros H; try discriminate H; auto.
    + intros [-> | ->]; reflexivity.
  - intros s p. destruct s; vm_compute; intros [= <-]; split; reflexivity.
  - intros s t p q Hs Ht Hr.
    destruct s, t; vm_compute in Hs, Ht; try discriminate Hs;
      try discriminate Ht;
      injection Hs as <-; injection Ht as <-;
      first [ reflexivity | exfalso; vm_compute in Hr; now apply Hr ].
  - reflexivity.
Qed.

Lemma index_progress_is_monotone_example :
  PrimFloat.leb
    (Math_max 5 (PrimFloat.mul (PrimFloat.div 2 7) 100))
    (Math_max 5 (PrimFloat.mul (PrimFloat.div 5 7) 100)) = true.
Proof.
  exact (proj1 (proj2 (proj2 index_progress_is_monotone))
           Index.Step.job_desc Index.Step.interview_intro _ _
           eq_refl eq_refl ltac:(vm_compute; discriminate)).
Defined.

Local Open Scope list_scope.

(** ** The back stack of [src/unnamed/part_000] *)

Lemma lookup_last_snoc {A} (l : list A) (x : A) :
  l <> [] -> l !! (length l - 1)%nat = Some x -> l = removelast l ++ [x].
Proof.
  intros Hne Hx. destruct (exists_last Hne) as (l' & y & ->).
  rewrite length_app in Hx. cbn in Hx.
  replace (length l' + 1 - 1)%nat with (length l' + 0)%nat in Hx by lia.
  rewrite lookup_app_r in Hx by lia.
  replace (length l' + 0 - length l')%nat with 0%nat in Hx by lia.
  cbn in Hx. injection Hx as ->. now rewrite removelast_last.
Qed.

(** What [handleBack] does on a stack that ends with [x]. *)
Lemma handleBack_snoc (st : Part000.AppState) (l : list Part000.Step.t)
    (x : Part000.Step.t) :
  Part000.stepHistory st = l ++ [x] ->
  Part000.handleBack st
  = Part000.setCurrentStep x (Part000.setStepHistory (fun _ => l) st).
Proof.
  destruct st as [cur ld msg err tab mode edit hist usr modal stack sess store].
  cbn. intros ->. unfold Part000.handleBack. cbn.
  rewrite length_app. cbn.
  replace (length l + 1 =? 0)%nat with false
    by (symmetry; apply Nat.eqb_neq; lia).
  replace (length l + 1 - 1)%nat with (length l + 0)%nat by lia.
  rewrite lookup_app_r by lia.
  replace (length l + 0 - length l)%nat with 0%nat by lia. cbn.
  unfold Part000.setCurrentStep, Part000.setStepHistory. cbn.
  now rewrite removelast_last.
Qed.

(** X7. In [src/unnamed/part_000], as many [handleBack] as there were
    [navigateTo] calls undo them all: the whole state of before the first
    call is back, whatever the steps visited. *)
Theorem backs_undo_navigations
    (st : Part000.AppState) (steps : list Part000.Step.t) :
  Nat.iter (length steps) Part000.handleBack
    (fold_left (fun acc x => Part000.navigateTo x acc) steps st)
  = st.
Proof.
  induction steps as [|s steps IH] using rev_ind; [reflexivity|].
  rewrite fold_left_app, length_app. cbn [fold_left length].
  replace (length steps + 1)%nat with (S (length steps)) by lia.
  rewrite Nat.iter_succ_r, handleBack_navigateTo. exact IH.
Qed.

Lemma iter_handleBack_empties (l : list Part000.Step.t) :
  forall st : Part000.AppState,
    Part000.stepHistory st = l ->
    Nat.iter (length l) Part000.handleBack st
    = Part000.setCurrentStep (List.hd (Part000.currentStep st) l)
        (Part000.setStepHistory (fun _ => []) st).
Proof.
  induction l as [|x l IH] using rev_ind; intros st Hst.
  - destruct st. cbn in *. now subst.
  - rewrite length_app. cbn [length].
    replace (length l + 1)%nat with (S (length l)) by lia.
    rewrite Nat.iter_succ_r, (handleBack_snoc st l x Hst).
    rewrite IH by (now destruct st).
    destruct st, l; reflexivity.
Qed.

(** Case analysis on a scrutinee that holds no case analysis itself. *)
Ltac break_inner_match :=
  match goal with
  | |- context [match ?x with _ => _ end] =>
      lazymatch x with
      | context [match _ with _ => _ end] => fail
      | _ => destruct x eqn:?
      end
  end.

Section Part000Reachable.

Context (JSON_parse_history : string -> option (list Part000.SessionData.t))
        (JSON_stringify_history : list Part000.SessionData.t -> string)
        (JSON_parse_user : string -> option User.t)
        (JSON_stringify_user : User.t -> string).

Let perform :=
  Part000.perform JSON_parse_history JSON_stringify_history JSON_parse_user
    JSON_stringify_user.

(** Every event leaves the stack and the step alone, pushes the step,
    pops the stack, or resets both. *)
Lemma perform_navigation (a : Part000.Action) (st : Part000.AppState) :
  let st' := perform a st in
  (Part000.stepHistory st' = Part000.stepHistory st
   /\ Part000.currentStep st' = Part000.currentStep st)
  \/ Part000.stepHistory st'
     = Part000.stepHistory st ++ [Part000.currentStep st]
  \/ Part000.stepHistory st
     = Part000.stepHistory st' ++ [Part000.currentStep st']
  \/ (Part000.stepHistory st' = [] /\
      Part000.currentStep st' = Part000.Step.landing).
Proof.
  destruct a; cbn.
  - unfold Part000.onMount, Part000.loadHistory.
    repeat (break_inner_match; cbn); auto.
  - auto.
  - unfold Part000.handleBack.
    destruct (length (Part000.stepHistory st) =? 0)%nat eqn:E; [auto|].
    destruct (Part000.stepHistory st !! _) as [prev|] eqn:Hp; [|auto].
    right. right. left. cbn. apply lookup_last_snoc; [|exact Hp].
    intros H. rewrite H in E. discriminate E.
  - auto.
  - unfold Part000.AuthModal_handleSubmit, Part000.handleLogin,
      Part000.loadHistory.
    repeat (break_inner_match; cbn); auto.
  - auto 6.
  - auto.
  - unfold Part000.handleFileUpload.
    repeat (break_inner_match; cbn); auto.
  - auto.
  - auto.
  - unfold Part000.clickAnalyzeFit.
    destruct (negb _); cbn; [auto|]. destruct o; cbn; auto.
  - unfold Part000.Dashboard_onSelectStep.
    repeat (break_inner_match; cbn); auto.
  - auto.
  - unfold Part000.clickSaveProgress, Part000.saveHistoryToStorage.
    destruct (Part000.user st) eqn:Hu; cbn; rewrite ?Hu; auto.
Qed.

Lemma perform_identity (a : Part000.Action) (st : Part000.AppState) :
  (Part000.user st = None -> Part000.history st = []) ->
  Part000.user (perform a st) = None -> Part000.history (perform a st) = [].
Proof.
  intros Hinv. destruct a; cbn; try exact Hinv; try reflexivity.
  - unfold Part000.onMount, Part000.loadHistory.
    repeat (break_inner_match; cbn); try exact Hinv; try discriminate.
  - unfold Part000.handleBack.
    repeat (break_inner_match; cbn); exact Hinv.
  - unfold Part000.AuthModal_handleSubmit, Part000.handleLogin,
      Part000.loadHistory.
    repeat (break_inner_match; cbn); try exact Hinv; try discriminate.
  - unfold Part000.handleFileUpload.
    repeat (break_inner_match; cbn); exact Hinv.
  - unfold Part000.clickAnalyzeFit.
    destruct (negb _); cbn; [exact Hinv|]. destruct o; exact Hinv.
  - unfold Part000.Dashboard_onSelectStep.
    repeat (break_inner_match; cbn); exact Hinv.
  - unfold Part000.clickSaveProgress, Part000.saveHistoryToStorage.
    destruct (Part000.user st) eqn:Hu; cbn; rewrite ?Hu; cbn.
    + intros H. rewrite Hu in H. discriminate H.
    + intros _. now apply Hinv.
Qed.

Lemma run_invariants (actions : list Part000.Action)
    (st : Part000.AppState) :
  (List.hd Part000.Step.landing
     (Part000.stepHistory st ++ [Part000.currentStep st])
   = Part000.Step.landing
   /\ (Part000.user st = None -> Part000.history st = [])) ->
  let st' :=
    Part000.run JSON_parse_history JSON_stringify_history JSON_parse_user
      JSON_stringify_user actions st in
  List.hd Part000.Step.landing
    (Part000.stepHistory st' ++ [Part000.currentStep st'])
  = Part000.Step.landing
  /\ (Part000.user st' = None -> Part000.history st' = []).
Proof.
  revert st. induction actions as [|a actions IH]; intros st [H1 H2];
    [now split|].
  cbn. apply IH. split; [|now apply perform_identity].
  fold (perform a st).
  destruct (perform_navigation a st) as [[Hs Hc]|[Hs|[Hs|[Hs Hc]]]].
  - now rewrite Hs, Hc.
  - rewrite Hs. rewrite <- app_assoc.
    destruct (Part000.stepHistory st); exact H1.
  - rewrite Hs in H1. rewrite <- app_assoc in H1.
    destruct (Part000.stepHistory (perform a st)); exact H1.
  - now rewrite Hs, Hc.
Qed.

End Part000Reachable.

(** X5. In [src/unnamed/part_000], after any sequence of events from the
    initial state, the bottom of the back stack (or the current step, when
    the stack is empty) is the landing step; so whenever the header shows
    its back button the stack is not empty, and [handleBack] moves to the
    step on its top. *)
Theorem part000_back_button_has_a_target
    (JSON_parse_history : string -> option (list Part000.SessionData.t))
    (JSON_stringify_history : list Part000.SessionData.t -> string)
    (JSON_parse_user : string -> option User.t)
    (JSON_stringify_user : User.t -> string)
    (actions : list Part000.Action)
    (uuid : string) (now : Z) (storage : Storage) :
  let st :=
    Part000.run JSON_parse_history JSON_stringify_history JSON_parse_user
      JSON_stringify_user actions (Part000.initialState uuid now storage) in
  List.hd Part000.Step.landing
    (Part000.stepHistory st ++ [Part000.currentStep st])
  = Part000.Step.landing
  /\ (Part000.showBack st = true ->
      exists l x,
        Part000.stepHistory st = l ++ [x]
        /\ Part000.handleBack st
           = Part000.setCurrentStep x (Part000.setStepHistory (fun _ => l) st)).
Proof.
  intros st.
  destruct (run_invariants JSON_parse_history JSON_stringify_history
              JSON_parse_user JSON_stringify_user actions
              (Part000.initialState uuid now storage)) as [H1 _];
    [split; [reflexivity|reflexivity]|].
  fold st in H1. split; [exact H1|].
  intros Hshow. unfold Part000.showBack in Hshow.
  destruct (Part000.stepHistory st) as [|y l] eqn:Hl.
  - cbn in H1. rewrite H1 in Hshow. discriminate Hshow.
  - destruct (exists_last (l := y :: l)) as (l' & x & E); [discriminate|].
    exists l', x. split; [exact E|].
    apply handleBack_snoc. now rewrite Hl.
Qed.

Lemma part000_back_button_has_a_target_example :
  let st :=
    Part000.run samplePart000Parse sampleStringify sampleParseUser
      sampleStringify
      [Part000.Navigate Part000.Step.upload; Part000.Skip]
      samplePart000State in
  exists l x,
    Part000.stepHistory st = l ++ [x]
    /\ Part000.handleBack st
       = Part000.setCurrentStep x (Part000.setStepHistory (fun _ => l) st).
Proof.
  exact (proj2 (part000_back_button_has_a_target samplePart000Parse
                  sampleStringify sampleParseUser sampleStringify
                  [Part000.Navigate Part000.Step.upload; Part000.Skip]
                  "id-1" 0%Z ∅) eq_refl).
Defined.

(** X6. In [src/unnamed/part_000], from any state reached from the initial
    one, pressing back as many times as the stack is deep ends on the
    landing step with an empty stack; nothing else of the state changes. *)
Theorem part000_backs_end_on_landing
    (JSON_parse_history : string -> option (list Part000.SessionData.t))
    (JSON_stringify_history : list Part000.SessionData.t -> string)
    (JSON_parse_user : string -> option User.t)
    (JSON_stringify_user : User.t -> string)
    (actions : list Part000.Action)
    (uuid : string) (now : Z) (storage : Storage) :
  let st :=
    Part000.run JSON_parse_history JSON_stringify_history JSON_parse_user
      JSON_stringify_user actions (Part000.initialState uuid now storage) in
  Nat.iter (length (Part000.stepHistory st)) Part000.handleBack st
  = Part000.setCurrentStep Part000.Step.landing
      (Part000.setStepHistory (fun _ => []) st).
Proof.
  intros st.
  destruct (run_invariants JSON_parse_history JSON_stringify_history
              JSON_parse_user JSON_stringify_user actions
              (Part000.initialState uuid now storage)) as [H1 _];
    [split; [reflexivity|reflexivity]|].
  fold st in H1.
  rewrite (iter_handleBack_empties _ st eq_refl). f_equal.
  destruct (Part000.stepHistory st); exact H1.
Qed.

(** X8. In [src/unnamed/part_000], in any state reached from the initial
    one, no user means an empty history; hence a login as [B] from such a
    state shows the list stored under [B]'s key, and nothing when there is
    none, although [loadHistory] has no branch for a missing entry. *)
Theorem part000_login_shows_own_history
    (JSON_parse_history : string -> option (list Part000.SessionData.t))
    (JSON_stringify_history : list Part000.SessionData.t -> string)
    (JSON_parse_user : string -> option User.t)
    (JSON_stringify_user : User.t -> string)
    (actions : list Part000.Action)
    (uuid : string) (now : Z) (storage : Storage) (B : User.t) :
  let st :=
    Part000.run JSON_parse_history JSON_stringify_history JSON_parse_user
      JSON_stringify_user actions (Part000.initialState uuid now storage) in
  Part000.user st = None ->
  let st' := Part000.handleLogin JSON_parse_history B st in
  Part000.history st = []
  /\ Part000.user st' = Some B
  /\ match Part000.localStorage st !! historyKey (User.email B) with
     | None => Part000.history st' = []
     | Some txt =>
         if truthy txt then
           match JSON_parse_history txt with
           | Some persisted => Part000.history st' = persisted
           | None => Part000.history st' = []
           end
         else Part000.history st' = []
     end.
Proof.
  intros st Hu st'.
  destruct (run_invariants JSON_parse_history JSON_stringify_history
              JSON_parse_user JSON_stringify_user actions
              (Part000.initialState uuid now storage)) as [_ H2];
    [split; [reflexivity|reflexivity]|].
  fold st in H2. specialize (H2 Hu). split; [exact H2|].
  subst st'. unfold Part000.handleLogin, Part000.loadHistory.
  destruct st as [cur ld msg err tab mode edit hist usr modal stack sess store].
  cbn in *.
  destruct (store !! historyKey (User.email B)) as [txt|]; cbn;
    [destruct (truthy txt); [destruct (JSON_parse_history txt)|]|];
    cbn; now split.
Qed.

Lemma part000_login_shows_own_history_example :
  let st :=
    Part000.run samplePart000Parse sampleStringify sampleParseUser
      sampleStringify [Part000.Navigate Part000.Step.upload]
      samplePart000State in
  Part000.history (Part000.handleLogin samplePart000Parse sampleUser st) = [].
Proof.
  exact (proj2 (proj2 (part000_login_shows_own_history samplePart000Parse
                  sampleStringify sampleParseUser sampleStringify
                  [Part000.Navigate Part000.Step.upload]
                  "id-1" 0%Z ∅ sampleUser eq_refl))).
Defined.

(** ** Identities and stored histories *)

Lemma append_cancel_l (p a b : string) :
  (p +:+ a) = (p +:+ b) -> a = b.
Proof.
  induction p as [|c p IH]; [easy|].
  intros H. apply IH. now injection H.
Qed.

Lemma historyKey_inj (a b : string) : historyKey a = historyKey b -> a = b.
Proof. apply append_cancel_l. Qed.

Lemma index_relogin_history
    (parse : string -> option (list Index.SessionData.t))
    (str : list Index.SessionData.t -> string)
    (B : User.t) (st : Index.AppState) :
  Index.history (Index.handleLogin parse str B (Index.handleLogout st))
  = storedHistory parse (Index.localStorage st) (User.email B).
Proof.
  pose proof (historyKey_not_userSessionKey (User.email B)) as Hk.
  unfold Index.handleLogin, Index.loadHistory, storedHistory.
  destruct st as [cur ld msg err tab mode edit hist usr modal sess store].
  cbn.
  rewrite (bool_decide_eq_false_2 (Index.Step.landing = Index.Step.summary))
    by discriminate.
  rewrite lookup_delete_ne by congruence.
  destruct (store !! historyKey (User.email B)) as [txt|]; cbn;
    [destruct (truthy txt); [destruct (parse txt)|]|]; reflexivity.
Qed.

Lemma part000_relogin_history
    (parse : string -> option (list Part000.SessionData.t))
    (B : User.t) (st : Part000.AppState) :
  Part000.history (Part000.handleLogin parse B (Part000.handleLogout st))
  = storedHistory parse (Part000.localStorage st) (User.email B).
Proof.
  pose proof (historyKey_not_userSessionKey (User.email B)) as Hk.
  unfold Part000.handleLogin, Part000.loadHistory, storedHistory.
  destruct st as
    [cur ld msg err tab mode edit hist usr modal stack sess store].
  cbn. rewrite lookup_delete_ne by congruence.
  destruct (store !! historyKey (User.email B)) as [txt|]; cbn;
    [destruct (truthy txt); [destruct (parse txt)|]|]; reflexivity.
Qed.

(** X9. A saved session survives a logout: when a user is logged in and
    the stored text of the new history reads back as that history,
    finishing the session ([src/index.tsx]) or pressing "Save Progress"
    ([src/unnamed/part_000]), logging out and logging in again as the same
    user shows the session at the head of the earlier history. *)
Theorem saved_session_is_reloaded :
  (forall (parse : string -> option (list Index.SessionData.t))
          (str : list Index.SessionData.t -> string)
          (st : Index.AppState) (u : User.t),
      let saved := Index.session st :: Index.history st in
      Index.user st = Some u ->
      truthy (str saved) = true -> parse (str saved) = Some saved ->
      Index.history
        (Index.handleLogin parse str u
           (Index.handleLogout (Index.handleFinishSession str st)))
      = saved)
  /\ (forall (parse : string -> option (list Part000.SessionData.t))
             (str : list Part000.SessionData.t -> string)
             (st : Part000.AppState) (u : User.t),
        let saved := Part000.session st :: Part000.history st in
        Part000.user st = Some u ->
        truthy (str saved) = true -> parse (str saved) = Some saved ->
        Part000.history
          (Part000.handleLogin parse u
             (Part000.handleLogout (Part000.clickSaveProgress str st)))
        = saved).
Proof.
  split.
  - intros parse str st u saved Hu Ht Hp. rewrite index_relogin_history.
    unfold storedHistory, Index.handleFinishSession,
      Index.saveHistoryToStorage.
    rewrite Hu. cbn. rewrite Hu. cbn. rewrite lookup_insert_eq.
    fold saved. now rewrite Ht, Hp.
  - intros parse str st u saved Hu Ht Hp. rewrite part000_relogin_history.
    unfold storedHistory, Part000.clickSaveProgress,
      Part000.saveHistoryToStorage.
    rewrite Hu. cbn. rewrite Hu. cbn. rewrite lookup_insert_eq.
    fold saved. now rewrite Ht, Hp.
Qed.

Lemma saved_session_is_reloaded_example :
  Index.history
    (Index.handleLogin sampleIndexParse sampleStringify sampleUser
       (Index.handleLogout
          (Index.handleFinishSession sampleStringify
             (Index.setUser (Some sampleUser) sampleIndexState))))
  = sampleIndexHistory
  /\ Part000.history
       (Part000.handleLogin samplePart000Parse sampleUser
          (Part000.handleLogout
             (Part000.clickSaveProgress sampleStringify
                (Part000.setUser (Some sampleUser) samplePart000State))))
     = samplePart000History.
Proof.
  split.
  - exact (proj1 saved_session_is_reloaded sampleIndexParse sampleStringify
             (Index.setUser (Some sampleUser) sampleIndexState) sampleUser
             eq_refl eq_refl eq_refl).
  - exact (proj2 saved_session_is_reloaded samplePart000Parse sampleStringify
             (Part000.setUser (Some sampleUser) samplePart000State) sampleUser
             eq_refl eq_refl eq_refl).
Defined.

(** X13. Saving under one identity never changes what another identity
    finds: when [u] is logged in and [v] has another email, the history
    shown to [v] at a later login is the same whether or not [u] saved a
    session first.  Both sources. *)
Theorem saving_leaves_other_identities_alone :
  (forall (parse : string -> option (list Index.SessionData.t))
          (str : list Index.SessionData.t -> string)
          (st : Index.AppState) (u v : User.t),
      Index.user st = Some u -> User.email v <> User.email u ->
      Index.history
        (Index.handleLogin parse str v
           (Index.handleLogout (Index.handleFinishSession str st)))
      = Index.history
          (Index.handleLogin parse str v (Index.handleLogout st)))
  /\ (forall (parse : string -> option (list Part000.SessionData.t))
             (str : list Part000.SessionData.t -> string)
             (st : Part000.AppState) (u v : User.t),
        Part000.user st = Some u -> User.email v <> User.email u ->
        Part000.history
          (Part000.handleLogin parse v
             (Part000.handleLogout (Part000.clickSaveProgress str st)))
        = Part000.history
            (Part000.handleLogin parse v (Part000.handleLogout st))).
Proof.
  split.
  - intros parse str st u v Hu Hne. rewrite !index_relogin_history.
    unfold storedHistory, Index.handleFinishSession,
      Index.saveHistoryToStorage.
    rewrite Hu. cbn. rewrite Hu. cbn.
    rewrite lookup_insert_ne; [reflexivity|].
    intros H. apply historyKey_inj in H. congruence.
  - intros parse str st u v Hu Hne. rewrite !part000_relogin_history.
    unfold storedHistory, Part000.clickSaveProgress,
      Part000.saveHistoryToStorage.
    rewrite Hu. cbn. rewrite Hu. cbn.
    rewrite lookup_insert_ne; [reflexivity|].
    intros H. apply historyKey_inj in H. congruence.
Qed.

Lemma saving_leaves_other_identities_alone_example :
  Index.history
    (Index.handleLogin sampleIndexParse sampleStringify
       (User.mk "a@example.com" "a")
       (Index.handleLogout
          (Index.handleFinishSession sampleStringify
             (Index.setUser (Some sampleUser) sampleIndexState))))
  = Index.history
      (Index.handleLogin sampleIndexParse sampleStringify
         (User.mk "a@example.com" "a")
         (Index.handleLogout
            (Index.setUser (Some sampleUser) sampleIndexState))).
Proof.
  exact (proj1 saving_leaves_other_identities_alone sampleIndexParse
           sampleStringify (Index.setUser (Some sampleUser) sampleIndexState)
           sampleUser (User.mk "a@example.com" "a") eq_refl
           ltac:(discriminate)).
Defined.



(** X11. A login is found again when the page is loaded anew: when the
    stored text of the user reads back as the user, the effect run on mount
    over the storage left by the login form sets that user and loads the
    history stored under the user's key, the empty list when there is
    none; when that stored history does not parse, the effect throws and
    the page is removed, as it is when the stored text of the user does
    not parse.  Both sources; the form of [src/unnamed/part_000] needs a
    name and an email. *)
Theorem login_survives_reload :
  (forall (parse_h : string -> option (list Index.SessionData.t))
          (str_h : list Index.SessionData.t -> string)
          (parse_u : string -> option User.t) (str_u : User.t -> string)
          (st : Index.AppState) (isSignUp : bool) (email name : string)
          (uuid : string) (now : Z),
      let u := User.mk email (if isSignUp then name else Index.beforeAt email) in
      truthy (str_u u) = true -> parse_u (str_u u) = Some u ->
      let st' :=
        Index.AuthModal_handleSubmit parse_h str_h str_u isSignUp email name st
      in
      let page := Index.initialState uuid now (Index.localStorage st') in
      Index.user st' = Some u
      /\ Index.onMount parse_h parse_u page
         = match readStored parse_h (Index.localStorage st') email with
           | Some h => Some (Index.setHistory h (Index.setUser (Some u) page))
           | None => None
           end)
  /\ (forall (parse_h : string -> option (list Part000.SessionData.t))
             (parse_u : string -> option User.t) (str_u : User.t -> string)
             (st : Part000.AppState) (name email : string)
             (uuid : string) (now : Z),
        let u := User.mk email name in
        name <> "" -> email <> "" ->
        truthy (str_u u) = true -> parse_u (str_u u) = Some u ->
        let st' := Part000.AuthModal_handleSubmit parse_h str_u name email st in
        let page := Part000.initialState uuid now (Part000.localStorage st') in
        Part000.user st' = Some u
        /\ Part000.onMount parse_h parse_u page
           = match readStored parse_h (Part000.localStorage st') email with
             | Some h =>
                 Some (Part000.setHistory h (Part000.setUser (Some u) page))
             | None => None
             end)
  /\ (forall (parse_i : string -> option (list Index.SessionData.t))
             (parse_p : string -> option (list Part000.SessionData.t))
             (parse_u : string -> option User.t)
             (uuid : string) (now : Z) (storage : Storage) (txt : string),
        storage !! userSessionKey = Some txt ->
        truthy txt = true -> parse_u txt = None ->
        Index.onMount parse_i parse_u (Index.initialState uuid now storage)
        = None
        /\ Part000.onMount parse_p parse_u
             (Part000.initialState uuid now storage)
           = None).
Proof.
  split; [|split].
  3: { intros parse_i parse_p parse_u uuid now storage txt Hs Ht Hp.
       unfold Index.onMount, Part000.onMount. cbn.
       now rewrite Hs, Ht, Hp. }
  - intros parse_h str_h parse_u str_u st isSignUp email name uuid now u
      Ht Hp st' page.
    assert (Hst : Index.user st' = Some u
                  /\ Index.localStorage st' !! userSessionKey
                     = Some (str_u u)).
    { subst st'. unfold Index.AuthModal_handleSubmit, Index.handleLogin_throws,
        Index.handleLogin, Index.loadHistory. fold u.
      pose proof (historyKey_not_userSessionKey (User.email u)) as Hk.
      destruct st as [cur ld msg err tab mode edit hist usr modal sess store].
      cbn.
      repeat (break_inner_match; cbn);
        rewrite ?lookup_insert_ne by exact Hk;
        rewrite ?lookup_insert_eq; now split. }
    destruct Hst as [Hu Hs]. split; [exact Hu|].
    subst page. remember (Index.localStorage st') as storage eqn:E. clear E.
    unfold Index.onMount, readStored. cbn. rewrite Hs, Ht, Hp.
    unfold Index.loadHistory. cbn.
    repeat (break_inner_match; cbn); reflexivity.
  - intros parse_h parse_u str_u st name email uuid now u Hn He Ht Hp st' page.
    assert (Hst : Part000.user st' = Some u
                  /\ Part000.localStorage st' !! userSessionKey
                     = Some (str_u u)).
    { subst st'. unfold Part000.AuthModal_handleSubmit,
        Part000.handleLogin_throws, Part000.handleLogin, Part000.loadHistory.
      fold u.
      destruct name; [contradiction|]. destruct email; [contradiction|].
      destruct st as
        [cur ld msg err tab mode edit hist usr modal stack sess store].
      cbn.
      repeat (break_inner_match; cbn);
        rewrite ?lookup_insert_eq; now split. }
    destruct Hst as [Hu Hs]. split; [exact Hu|].
    subst page. remember (Part000.localStorage st') as storage eqn:E. clear E.
    unfold Part000.onMount, readStored. cbn. rewrite Hs, Ht, Hp.
    unfold Part000.loadHistory. cbn.
    repeat (break_inner_match; cbn); reflexivity.
Qed.

Lemma login_survives_reload_example :
  let st' :=
    Index.AuthModal_handleSubmit sampleIndexParse sampleStringify
      sampleStringify false "b@example.com" "" sampleIndexState in
  let page := Index.initialState "id-2" 1 (Index.localStorage st') in
  Index.onMount sampleIndexParse sampleParseUser page
  = Some (Index.setHistory [] (Index.setUser (Some sampleUser) page)).
Proof.
  exact (proj2 (proj1 login_survives_reload sampleIndexParse sampleStringify
                  sampleParseUser sampleStringify sampleIndexState false
                  "b@example.com" "" "id-2" 1%Z eq_refl eq_refl)).
Defined.

(** X29. The login form sets the user and stores it under the
    user-session key in every case.  When the history stored for the user
    reads (no entry reads as the empty list) the modal is closed; when it
    does not parse, [handleLogin] is left by the exception before
    [onClose()] runs: the modal stays as it was, and history, step and
    session are those of before.  Both sources; the form of
    [src/unnamed/part_000] does nothing without a name or an email. *)
Theorem unreadable_history_leaves_modal_open :
  (forall (parse_h : string -> option (list Index.SessionData.t))
          (str_h : list Index.SessionData.t -> string)
          (str_u : User.t -> string)
          (st : Index.AppState) (isSignUp : bool) (email name : string),
      let u := User.mk email (if isSignUp then name else Index.beforeAt email) in
      let st' :=
        Index.AuthModal_handleSubmit parse_h str_h str_u isSignUp email name st
      in
      Index.user st' = Some u
      /\ Index.localStorage st' !! userSessionKey = Some (str_u u)
      /\ match readStored parse_h (Index.localStorage st) email with
         | Some _ => Index.showAuthModal st' = false
         | None =>
             Index.showAuthModal st' = Index.showAuthModal st
             /\ Index.history st' = Index.history st
             /\ Index.currentStep st' = Index.currentStep st
             /\ Index.session st' = Index.session st
         end)
  /\ (forall (parse_h : string -> option (list Part000.SessionData.t))
             (str_u : User.t -> string)
             (st : Part000.AppState) (name email : string),
        let u := User.mk email name in
        let st' := Part000.AuthModal_handleSubmit parse_h str_u name email st in
        if truthy name && truthy email then
          Part000.user st' = Some u
          /\ Part000.localStorage st' !! userSessionKey = Some (str_u u)
          /\ match readStored parse_h (Part000.localStorage st) email with
             | Some _ => Part000.showAuthModal st' = false
             | None =>
                 Part000.showAuthModal st' = Part000.showAuthModal st
                 /\ Part000.history st' = Part000.history st
                 /\ Part000.currentStep st' = Part000.currentStep st
                 /\ Part000.session st' = Part000.session st
             end
        else st' = st).
Proof.
  split.
  - intros parse_h str_h str_u st isSignUp email name u st'. subst st'.
    pose proof (historyKey_not_userSessionKey email) as Hk.
    unfold Index.AuthModal_handleSubmit, Index.handleLogin_throws,
      Index.handleLogin, Index.loadHistory, readStored. fold u.
    destruct st as [cur ld msg err tab mode edit hist usr modal sess store].
    cbn. rewrite !lookup_insert_ne by congruence.
    destruct (store !! historyKey email) as [txt|] eqn:Hs;
      [destruct (truthy txt) eqn:Ht; [destruct (parse_h txt) as [h|] eqn:Hp|]|];
      cbn;
      try destruct (bool_decide (cur = Index.Step.summary)); cbn;
      rewrite ?lookup_insert_ne by congruence; rewrite ?Hs, ?Ht, ?Hp; cbn;
      rewrite ?lookup_insert_ne by congruence;
      rewrite ?lookup_insert_eq; now repeat split.
  - intros parse_h str_u st name email u st'. subst st'.
    pose proof (historyKey_not_userSessionKey email) as Hk.
    unfold Part000.AuthModal_handleSubmit, Part000.handleLogin_throws,
      Part000.handleLogin, Part000.loadHistory, readStored. fold u.
    destruct (truthy name && truthy email); [|reflexivity].
    destruct st as
      [cur ld msg err tab mode edit hist usr modal stack sess store].
    cbn. rewrite !lookup_insert_ne by congruence.
    destruct (store !! historyKey email) as [txt|] eqn:Hs;
      [destruct (truthy txt) eqn:Ht; [destruct (parse_h txt) as [h|] eqn:Hp|]|];
      cbn; rewrite ?lookup_insert_eq; now repeat split.
Qed.

(** X12. A logout is found again when the page is loaded anew, and it
    erases no history: over the storage left by [handleLogout] the effect
    run on mount sets no user and loads nothing (it parses nothing, so it
    cannot throw), while the entry stored for every identity is the one of
    before.  Both sources. *)
Theorem logout_survives_reload :
  (forall (parse_h : string -> option (list Index.SessionData.t))
          (parse_u : string -> option User.t)
          (st : Index.AppState) (uuid : string) (now : Z),
      let storage := Index.localStorage (Index.handleLogout st) in
      Index.onMount parse_h parse_u (Index.initialState uuid now storage)
      = Some (Index.initialState uuid now storage)
      /\ forall email,
           storage !! historyKey email
           = Index.localStorage st !! historyKey email)
  /\ (forall (parse_h : string -> option (list Part000.SessionData.t))
             (parse_u : string -> option User.t)
             (st : Part000.AppState) (uuid : string) (now : Z),
        let storage := Part000.localStorage (Part000.handleLogout st) in
        Part000.onMount parse_h parse_u (Part000.initialState uuid now storage)
        = Some (Part000.initialState uuid now storage)
        /\ forall email,
             storage !! historyKey email
             = Part000.localStorage st !! historyKey email).
Proof.
  split.
  - intros parse_h parse_u st uuid now storage. subst storage.
    destruct st as [cur ld msg err tab mode edit hist usr modal sess store].
    cbn. split.
    + unfold Index.onMount. cbn. now rewrite lookup_delete_eq.
    + intros email. apply lookup_delete_ne.
      intros H. now apply (historyKey_not_userSessionKey email).
  - intros parse_h parse_u st uuid now storage. subst storage.
    destruct st as
      [cur ld msg err tab mode edit hist usr modal stack sess store].
    cbn. split.
    + unfold Part000.onMount. cbn. now rewrite lookup_delete_eq.
    + intros email. apply lookup_delete_ne.
      intros H. now apply (historyKey_not_userSessionKey email).
Qed.

(** X14. Saving the same session again stores it a second time: for a
    logged-in user two saves in a row put two copies of the session at the
    head of the history, in memory and under the user's key; no entry is
    updated or removed.  Both sources. *)
Theorem saving_twice_duplicates :
  (forall (str : list Index.SessionData.t -> string)
          (st : Index.AppState) (u : User.t),
      Index.user st = Some u ->
      let st2 :=
        Index.handleFinishSession str (Index.handleFinishSession str st) in
      let twice := Index.session st :: Index.session st :: Index.history st in
      Index.history st2 = twice
      /\ Index.localStorage st2 !! historyKey (User.email u)
         = Some (str twice))
  /\ (forall (str : list Part000.SessionData.t -> string)
             (st : Part000.AppState) (u : User.t),
        Part000.user st = Some u ->
        let st2 :=
          Part000.clickSaveProgress str (Part000.clickSaveProgress str st) in
        let twice :=
          Part000.session st :: Part000.session st :: Part000.history st in
        Part000.history st2 = twice
        /\ Part000.localStorage st2 !! historyKey (User.email u)
           = Some (str twice)).
Proof.
  split.
  - intros str st u Hu st2 twice. subst st2 twice.
    unfold Index.handleFinishSession, Index.saveHistoryToStorage.
    destruct st as [cur ld msg err tab mode edit hist usr modal sess store].
    cbn in *. subst usr. cbn. split; [reflexivity|apply lookup_insert_eq].
  - intros str st u Hu st2 twice. subst st2 twice.
    unfold Part000.clickSaveProgress, Part000.saveHistoryToStorage.
    destruct st as
      [cur ld msg err tab mode edit hist usr modal stack sess store].
    cbn in *. subst usr. cbn. split; [reflexivity|apply lookup_insert_eq].
Qed.

Lemma saving_twice_duplicates_example :
  let st := Part000.setUser (Some sampleUser) samplePart000State in
  Part000.history
    (Part000.clickSaveProgress sampleStringify
       (Part000.clickSaveProgress sampleStringify st))
  = [Part000.session st; Part000.session st].
Proof.
  intros st.
  exact (proj1 (proj2 saving_twice_duplicates sampleStringify st sampleUser
                  eq_refl)).
Defined.

(** ** Reading the resume *)

Local Open Scope string_scope.

(** X15. In [src/index.tsx] a failed upload leaves the session and the step
    as they are, shows the message of the error ("Failed to parse file"
    when it has none) and ends the loading.  An upload fails when the
    reader of the file throws, with "Unsupported file format" for a type
    that is none of PDF, DOCX and plain text, and with the advice to paste
    when the text read is blank; no blank text is ever accepted. *)
Theorem index_upload_failure_keeps_session :
  (forall file ex st message,
      Index.extractText file ex = Thrown message ->
      let st' := Index.handleFileUpload file ex st in
      Index.session st' = Index.session st
      /\ Index.currentStep st' = Index.currentStep st
      /\ Index.error st'
         = Some (if truthy message then message else "Failed to parse file")
      /\ Index.loading st' = false)
  /\ (forall file ex,
        File.type file <> Index.pdfMime ->
        File.type file <> Index.docxMime ->
        File.type file <> "text/plain" ->
        Index.extractText file ex = Thrown "Unsupported file format")
  /\ (forall file ex text,
        (File.type file = Index.pdfMime
         /\ exists pages,
              pdfPages ex = Returned pages /\ text = pdfText pages)
        \/ (File.type file = Index.docxMime /\ docxValue ex = Returned text)
        \/ (File.type file = "text/plain" /\ plainText ex = Returned text) ->
        trim text = "" ->
        Index.extractText file ex
        = Thrown
            "Could not extract text from file. Please try pasting plain text.")
  /\ (forall file ex message,
        (File.type file = Index.pdfMime /\ pdfPages ex = Thrown message)
        \/ (File.type file = Index.docxMime /\ docxValue ex = Thrown message)
        \/ (File.type file = "text/plain" /\ plainText ex = Thrown message) ->
        Index.extractText file ex = Thrown message)
  /\ (forall file ex text,
        Index.extractText file ex = Returned text -> trim text <> "").
Proof.
  split; [|split; [|split; [|split]]].
  - intros file ex st message H st'. subst st'.
    unfold Index.handleFileUpload. rewrite H. now repeat split.
  - intros file ex H1 H2 H3. unfold Index.extractText.
    apply String.eqb_neq in H1, H2, H3. now rewrite H1, H2, H3.
  - intros file ex text H Ht. unfold Index.extractText.
    destruct H as [[-> (pages & -> & ->)]|[[-> ->]|[-> ->]]]; cbn;
      now rewrite Ht.
  - intros file ex message H. unfold Index.extractText.
    destruct H as [[-> ->]|[[-> ->]|[-> ->]]]; reflexivity.
  - intros file ex text. unfold Index.extractText.
    destruct (if String.eqb (File.type file) Index.pdfMime then _ else _)
      as [read|m]; [|discriminate].
    destruct (trim read) eqn:Ht; cbn; [discriminate|].
    intros [= <-]. now rewrite Ht.
Qed.

Lemma index_upload_failure_keeps_session_example :
  (let st' :=
     Index.handleFileUpload (File.mk "image/png" "cv.png")
       (mkExtractors (Thrown "") (Thrown "") (Thrown "")) sampleIndexState in
   Index.session st' = Index.session sampleIndexState
   /\ Index.currentStep st' = Index.currentStep sampleIndexState
   /\ Index.error st' = Some "Unsupported file format"
   /\ Index.loading st' = false)
  /\ (let st' :=
        Index.handleFileUpload (File.mk "text/plain" "cv.txt")
          (mkExtractors (Thrown "") (Thrown "") (Returned "  "))
          sampleIndexState in
      Index.session st' = Index.session sampleIndexState
      /\ Index.currentStep st' = Index.currentStep sampleIndexState
      /\ Index.error st'
         = Some
             "Could not extract text from file. Please try pasting plain text."
      /\ Index.loading st' = false).
Proof.
  pose proof index_upload_failure_keeps_session as (H1 & H2 & H3 & _).
  split.
  - exact (H1 (File.mk "image/png" "cv.png")
             (mkExtractors (Thrown "") (Thrown "") (Thrown ""))
             sampleIndexState "Unsupported file format"
             (H2 (File.mk "image/png" "cv.png")
                (mkExtractors (Thrown "") (Thrown "") (Thrown ""))
                ltac:(discriminate) ltac:(discriminate) ltac:(discriminate))).
  - exact (H1 (File.mk "text/plain" "cv.txt")
             (mkExtractors (Thrown "") (Thrown "") (Returned "  "))
             sampleIndexState _
             (H3 (File.mk "text/plain" "cv.txt")
                (mkExtractors (Thrown "") (Thrown "") (Returned "  ")) "  "
                (or_intror (or_intror (conj eq_refl eq_refl))) eq_refl)).
Defined.

(** X16. In [src/index.tsx] a resume that was read, or pasted, is stored as
    it is (not trimmed) with the name of the file, or "Pasted Resume", and
    the step becomes the job description; a pasted text that is blank is
    ignored altogether.  A plain-text file is read to its text, a PDF to
    the items of each page joined by spaces, one line per page. *)
Theorem index_resume_is_stored_as_read :
  (forall file ex st text,
      Index.extractText file ex = Returned text ->
      let st' := Index.handleFileUpload file ex st in
      Index.session st'
      = Index.SessionData.patch_resume text (File.name file) (Index.session st)
      /\ Index.currentStep st' = Index.Step.job_desc
      /\ Index.error st' = None /\ Index.loading st' = false)
  /\ (forall name ex text,
        plainText ex = Returned text -> trim text <> "" ->
        Index.extractText (File.mk "text/plain" name) ex = Returned text)
  /\ (forall name ex pages,
        pdfPages ex = Returned pages -> trim (pdfText pages) <> "" ->
        Index.extractText (File.mk Index.pdfMime name) ex
        = Returned (pdfText pages))
  /\ (forall text st,
        trim text <> "" ->
        let st' := Index.handlePasteResume text st in
        Index.session st'
        = Index.SessionData.patch_resume text "Pasted Resume"
            (Index.session st)
        /\ Index.currentStep st' = Index.Step.job_desc)
  /\ (forall text st, trim text = "" -> Index.handlePasteResume text st = st).
Proof.
  repeat apply conj.
  - intros file ex st text H st'. subst st'.
    unfold Index.handleFileUpload. rewrite H. now repeat split.
  - intros name ex text H Ht. unfold Index.extractText. cbn. rewrite H.
    destruct (trim text); [contradiction|reflexivity].
  - intros name ex pages H Ht. unfold Index.extractText. cbn. rewrite H.
    destruct (trim (pdfText pages)); [contradiction|reflexivity].
  - intros text st Ht st'. subst st'. unfold Index.handlePasteResume.
    destruct (trim text); [contradiction|]. now split.
  - intros text st Ht. unfold Index.handlePasteResume. now rewrite Ht.
Qed.

Lemma index_resume_is_stored_as_read_example :
  Index.extractText (File.mk Index.pdfMime "cv.pdf")
    (mkExtractors (Returned [["Jane"; "Doe"]; ["Engineer"]]) (Thrown "")
       (Thrown ""))
  = Returned ("Jane Doe" ++ String LF "Engineer" ++ String LF "")
  /\ Index.handlePasteResume "   " sampleIndexState = sampleIndexState
  /\ Index.currentStep (Index.handlePasteResume " cv " sampleIndexState)
     = Index.Step.job_desc.
Proof.
  pose proof index_resume_is_stored_as_read as (_ & _ & H3 & H4 & H5).
  split; [|split].
  - exact (H3 "cv.pdf"
             (mkExtractors (Returned [["Jane"; "Doe"]; ["Engineer"]])
                (Thrown "") (Thrown ""))
             [["Jane"; "Doe"]; ["Engineer"]] eq_refl ltac:(discriminate)).
  - exact (H5 "   " sampleIndexState eq_refl).
  - exact (proj2 (H4 " cv " sampleIndexState ltac:(discriminate))).
Defined.

(** X17. In [src/unnamed/part_000] an upload never rejects a file for its
    type or for a blank text: a file that is neither plain text nor of a
    type naming [pdf] stores a fixed placeholder as the resume, whatever
    the file holds, and an empty plain-text file stores the empty resume;
    both go on to the job description, from where back returns to the step
    of the upload. *)
Theorem part000_upload_never_rejects :
  (forall file ex st,
      File.type file <> "text/plain" ->
      includes (File.type file) "pdf" = false ->
      let st' := Part000.handleFileUpload file ex st in
      Part000.SessionData.resumeText (Part000.session st')
      = "Sample Resume Text extracted from file..."
      /\ Part000.SessionData.fileName (Part000.session st') = File.name file
      /\ Part000.currentStep st' = Part000.Step.job_desc
      /\ Part000.error st' = Part000.error st
      /\ Part000.currentStep (Part000.handleBack st') = Part000.currentStep st)
  /\ (forall name ex st text,
        plainText ex = Returned text ->
        let st' := Part000.handleFileUpload (File.mk "text/plain" name) ex st in
        Part000.SessionData.resumeText (Part000.session st') = text
        /\ Part000.currentStep st' = Part000.Step.job_desc).
Proof.
  split.
  - intros file ex st H1 H2 st'. subst st'.
    unfold Part000.handleFileUpload.
    apply String.eqb_neq in H1. rewrite H1, H2.
    repeat split.
    match goal with
    | |- context [Part000.navigateTo ?s ?x] =>
        change (Part000.setLoading false (Part000.navigateTo s x))
          with (Part000.navigateTo s (Part000.setLoading false x))
    end.
    now rewrite handleBack_navigateTo.
  - intros name ex st text H st'. subst st'.
    unfold Part000.handleFileUpload. cbn. rewrite H. now split.
Qed.

Lemma part000_upload_never_rejects_example :
  let st' :=
    Part000.handleFileUpload (File.mk "image/png" "cv.png")
      (mkExtractors (Thrown "") (Thrown "") (Thrown "")) samplePart000State in
  Part000.SessionData.resumeText (Part000.session st')
  = "Sample Resume Text extracted from file..."
  /\ Part000.currentStep st' = Part000.Step.job_desc.
Proof.
  destruct (proj1 part000_upload_never_rejects (File.mk "image/png" "cv.png")
              (mkExtractors (Thrown "") (Thrown "") (Thrown ""))
              samplePart000State ltac:(discriminate) eq_refl)
    as (H1 & _ & H3 & _).
  now split.
Defined.

(** ** Walking through the questions *)

Local Open Scope list_scope.

(** X18. In [src/index.tsx], with at least one question, the interview
    session started on the first question shows question [n] after [n]
    clicks on "Next", with the answer and the feedback cleared, for every
    [n] below the number of questions, so the current question always
    exists; the click on the last question finishes the session
    ([handleFinishSession]). *)
Theorem interview_ends_after_last_question
    (str : list Index.SessionData.t -> string) (st : Index.AppState) :
  Index.SessionData.questions (Index.session st) <> [] ->
  let qs := Index.SessionData.questions (Index.session st) in
  (forall n, (n < length qs)%nat ->
      Nat.iter n (Index.InterviewSession_handleNext str)
        (st, Index.freshInterview)
      = (st, Index.mkInterview n "" false None)
      /\ is_Some (qs !! n))
  /\ (Nat.iter (length qs) (Index.InterviewSession_handleNext str)
        (st, Index.freshInterview)).1
     = Index.handleFinishSession str st.
Proof.
  intros Hne qs.
  assert (Hn : forall n, (n < length qs)%nat ->
             Nat.iter n (Index.InterviewSession_handleNext str)
               (st, Index.freshInterview)
             = (st, Index.mkInterview n "" false None)).
  { induction n as [|n IH]; intros Hlt; [reflexivity|].
    rewrite Nat.iter_succ, IH by lia.
    unfold Index.InterviewSession_handleNext, Index.isLastQuestion. cbn.
    fold qs.
    replace (Z.of_nat n =? Z.of_nat (length qs) - 1)%Z with false;
      [reflexivity|].
    symmetry. apply Z.eqb_neq. lia. }
  split.
  - intros n Hlt. split; [now apply Hn|]. now apply lookup_lt_is_Some.
  - destruct (length qs) as [|m] eqn:Hm.
    + exfalso. apply Hne. now apply nil_length_inv.
    + rewrite Nat.iter_succ, Hn by lia.
      unfold Index.InterviewSession_handleNext, Index.isLastQuestion. cbn.
      fold qs. rewrite Hm.
      replace (Z.of_nat m =? Z.of_nat (S m) - 1)%Z with true;
        [reflexivity|].
      symmetry. apply Z.eqb_eq. lia.
Qed.

Lemma interview_ends_after_last_question_example :
  let q := InterviewQuestion.mk behavioral "Tell me about a time" "why" in
  let st :=
    Index.setSession (Index.SessionData.patch_questions [q; q])
      sampleIndexState in
  Index.currentStep
    (Nat.iter 2 (Index.InterviewSession_handleNext sampleStringify)
       (st, Index.freshInterview)).1
  = Index.Step.summary.
Proof.
  intros q st.
  exact (f_equal Index.currentStep
           (proj2 (interview_ends_after_last_question sampleStringify st
                     ltac:(discriminate)))).
Defined.

(** X20. In [src/unnamed/part_000], with at least one question, the written
    practice started on the first question shows question [n] after [n]
    clicks on "Next" for every [n] below the number of questions, so the
    current question always exists; the click on the last question goes to
    the verbal practice, from where back returns. *)
Theorem written_practice_ends_after_last_question
    (st : Part000.AppState) (qs : list InterviewQuestion.t) :
  Part000.SessionData.questions (Part000.session st) = Some qs -> qs <> [] ->
  (forall n, (n < length qs)%nat ->
      Nat.iter n Part000.WrittenPractice_handleNext
        (st, Part000.freshPractice)
      = (st, Part000.mkPractice n "" false None)
      /\ is_Some (qs !! n))
  /\ Nat.iter (length qs) Part000.WrittenPractice_handleNext
       (st, Part000.freshPractice)
     = (Part000.navigateTo Part000.Step.verbal_practice st,
        Part000.mkPractice (length qs - 1) "" false None)
  /\ Part000.handleBack (Part000.navigateTo Part000.Step.verbal_practice st)
     = st.
Proof.
  intros Hq Hne.
  assert (Hn : forall n, (n < length qs)%nat ->
             Nat.iter n Part000.WrittenPractice_handleNext
               (st, Part000.freshPractice)
             = (st, Part000.mkPractice n "" false None)).
  { induction n as [|n IH]; intros Hlt; [reflexivity|].
    rewrite Nat.iter_succ, IH by lia.
    unfold Part000.WrittenPractice_handleNext. rewrite Hq. cbn.
    replace (Z.of_nat n <? Z.of_nat (length qs) - 1)%Z with true;
      [reflexivity|].
    symmetry. apply Z.ltb_lt. lia. }
  split; [|split].
  - intros n Hlt. split; [now apply Hn|]. now apply lookup_lt_is_Some.
  - destruct (length qs) as [|m] eqn:Hm.
    + destruct qs; [contradiction|discriminate].
    + rewrite Nat.iter_succ, Hn by lia.
      unfold Part000.WrittenPractice_handleNext. rewrite Hq. cbn. rewrite Hm.
      replace (Z.of_nat m <? Z.of_nat (S m) - 1)%Z with false
        by (symmetry; apply Z.ltb_ge; lia).
      do 2 f_equal. lia.
  - apply handleBack_navigateTo.
Qed.

Lemma written_practice_ends_after_last_question_example :
  let q := InterviewQuestion.mk behavioral "Tell me about a time" "why" in
  let st :=
    Part000.setSession (Part000.SessionData.patch_questions (Some [q; q]))
      samplePart000State in
  Nat.iter 2 Part000.WrittenPractice_handleNext (st, Part000.freshPractice)
  = (Part000.navigateTo Part000.Step.verbal_practice st,
     Part000.mkPractice 1 "" false None).
Proof.
  intros q st.
  exact (proj1 (proj2 (written_practice_ends_after_last_question st [q; q]
                         eq_refl ltac:(discriminate)))).
Defined.

Lemma find_app_None {A} (p : A -> bool) (l1 l2 : list A) :
  List.find p l1 = None -> List.find p (l1 ++ l2) = List.find p l2.
Proof.
  induction l1 as [|x l1 IH]; [reflexivity|]. cbn.
  destruct (p x); [discriminate|exact IH].
Qed.

Lemma find_filtered_out {R} (key : R -> nat) (i : nat) (l : list R) :
  List.find (fun a => Nat.eqb (key a) i) (filter (fun a => key a <> i) l)
  = None.
Proof.
  induction l as [|x l IH]; [reflexivity|].
  destruct (decide (key x = i)) as [E|E].
  - now rewrite filter_cons_False by tauto.
  - rewrite filter_cons_True by exact E. cbn.
    now apply Nat.eqb_neq in E as ->.
Qed.

(** X19. In [src/unnamed/part_000], once an answer is graded and stored,
    the effect of the written practice shows, for the question it belongs
    to, that very answer and its feedback, whatever was stored for the
    question before and whichever session the click rendered. *)
Theorem written_practice_shows_stored_answer
    (rendered : Part000.SessionData.t) (st : Part000.AppState)
    (c : Part000.PracticeState) (a : string) (f : AnswerFeedback.t) :
  Part000.WrittenPractice_effect
    (Part000.onAnswerSubmit (Part000.currentIndex c) a f rendered st) c
  = Part000.setFeedback (Some f) (Part000.setAnswerText a c).
Proof.
  unfold Part000.WrittenPractice_effect, Part000.onAnswerSubmit. cbn.
  rewrite find_app_None
    by apply (find_filtered_out Part000.WrittenAnswer.questionIndex).
  cbn. now rewrite Nat.eqb_refl.
Qed.

Lemma filter_dropFirst_other {R} (key : R -> nat) (i : nat) (l : list R) :
  filter (fun a => key a <> i) (dropFirst (fun a => Nat.eqb (key a) i) l)
  = filter (fun a => key a <> i) l.
Proof.
  induction l as [|x l IH]; [reflexivity|]. cbn [dropFirst].
  destruct (Nat.eqb_spec (key x) i) as [E|E].
  - now rewrite (filter_cons_False _ x l) by tauto.
  - now rewrite !(filter_cons_True _ x) by exact E; rewrite IH.
Qed.

(** X21. In [src/index.tsx] storing the answer to question [i] leaves the
    records of the other questions as they are, in their order, from any
    list of answers.  In [src/unnamed/part_000] the records of the other
    questions are, after the grade, those of the session rendered at the
    click on "Submit": they are kept when that session is still the
    current one, and a record that only the current session holds is
    dropped. *)
Theorem other_answers_are_kept :
  (forall (s : Index.SessionData.t) (i : nat) (a : string)
          (f : AnswerFeedback.t),
      filter (fun r => Index.Answer.questionIndex r <> i)
        (Index.SessionData.answers (Index.onAnswerSubmit i a f s))
      = filter (fun r => Index.Answer.questionIndex r <> i)
          (Index.SessionData.answers s))
  /\ (forall (rendered : Part000.SessionData.t) (st : Part000.AppState)
             (i : nat) (a : string) (f : AnswerFeedback.t),
        filter (fun r => Part000.WrittenAnswer.questionIndex r <> i)
          (Part000.SessionData.writtenAnswers
             (Part000.session (Part000.onAnswerSubmit i a f rendered st)))
        = filter (fun r => Part000.WrittenAnswer.questionIndex r <> i)
            (Part000.SessionData.writtenAnswers rendered))
  /\ (forall (st : Part000.AppState) (i : nat) (a : string)
             (f : AnswerFeedback.t),
        filter (fun r => Part000.WrittenAnswer.questionIndex r <> i)
          (Part000.SessionData.writtenAnswers
             (Part000.session
                (Part000.onAnswerSubmit i a f (Part000.session st) st)))
        = filter (fun r => Part000.WrittenAnswer.questionIndex r <> i)
            (Part000.SessionData.writtenAnswers (Part000.session st)))
  /\ (forall (rendered : Part000.SessionData.t) (st : Part000.AppState)
             (i : nat) (a : string) (f : AnswerFeedback.t)
             (r : Part000.WrittenAnswer.t),
        r ∈ Part000.SessionData.writtenAnswers (Part000.session st) ->
        Part000.WrittenAnswer.questionIndex r <> i ->
        r ∉ Part000.SessionData.writtenAnswers rendered ->
        r ∉ Part000.SessionData.writtenAnswers
              (Part000.session (Part000.onAnswerSubmit i a f rendered st))).
Proof.
  assert (Hp : forall rendered st i a f,
    filter (fun r => Part000.WrittenAnswer.questionIndex r <> i)
      (Part000.SessionData.writtenAnswers
         (Part000.session (Part000.onAnswerSubmit i a f rendered st)))
    = filter (fun r => Part000.WrittenAnswer.questionIndex r <> i)
        (Part000.SessionData.writtenAnswers rendered)).
  { intros rendered st i a f. cbn. rewrite filter_app.
    rewrite (filter_cons_False _ (Part000.WrittenAnswer.mk i a (Some f)) [])
      by (cbn; tauto).
    rewrite app_nil_r. rewrite list_filter_filter.
    apply list_filter_iff. intros x. tauto. }
  split; [|split; [|split]].
  - intros s i a f. rewrite onAnswerSubmit_answers, filter_app.
    rewrite (filter_dropFirst_other Index.Answer.questionIndex).
    rewrite (filter_cons_False _ (Index.Answer.mk i a (Some f)) [])
      by (cbn; tauto).
    apply app_nil_r.
  - exact Hp.
  - intros st i a f. apply Hp.
  - intros rendered st i a f r _ Hi Hr Hin. apply Hr.
    assert (Hf : r ∈ filter
                   (fun r => Part000.WrittenAnswer.questionIndex r <> i)
                   (Part000.SessionData.writtenAnswers rendered)).
    { rewrite <- (Hp rendered st i a f). apply list_elem_of_filter.
      now split. }
    now apply list_elem_of_filter in Hf.
Qed.

(** ** The summary step *)

Lemma filter_sublist {A} (p : A -> bool) (l : list A) :
  List.filter p l `sublist_of` l.
Proof.
  induction l as [|x l IH]; [constructor|]. cbn.
  destruct (p x); [now apply sublist_skip|now apply sublist_cons].
Qed.

(** X22. The summary of [src/index.tsx] lists at most two resume fixes, all
    of them recommendations of high priority taken in their order from the
    analysis (none without an analysis), at most two interview fixes and at
    most four strengths, taken in order from the feedback of the answers;
    without answers the last two lists are empty. *)
Theorem summary_lists_are_bounded (st : Index.AppState) :
  (length (Index.resumeFixes st) <= 2)%nat
  /\ Forall (fun r => Recommendation.priority r = high) (Index.resumeFixes st)
  /\ match Index.SessionData.analysis (Index.session st) with
     | Some a =>
         Index.resumeFixes st `sublist_of` AnalysisResult.recommendations a
         /\ length (Index.resumeFixes st)
            = Nat.min 2
                (length (List.filter Index.isHigh
                           (AnalysisResult.recommendations a)))
     | None => Index.resumeFixes st = []
     end
  /\ (length (Index.interviewFixes st) <= 2)%nat
  /\ (length (Index.strengthsShown st) <= 4)%nat
  /\ Index.interviewFixes st
     `prefix_of` flat_map Index.improvementsOf
                   (Index.SessionData.answers (Index.session st))
  /\ Index.strengthsShown st
     `prefix_of` flat_map Index.strengthsOf
                   (Index.SessionData.answers (Index.session st))
  /\ (Index.SessionData.answers (Index.session st) = [] ->
      Index.interviewFixes st = [] /\ Index.strengthsShown st = []).
Proof.
  unfold Index.resumeFixes, Index.interviewFixes, Index.strengthsShown.
  repeat apply conj.
  - destruct (Index.SessionData.analysis _); [|cbn; lia].
    rewrite length_take. lia.
  - destruct (Index.SessionData.analysis _) as [a|]; [|constructor].
    apply Forall_take, Forall_forall. intros r Hr.
    apply list_elem_of_In, List.filter_In in Hr as [_ Hr].
    unfold Index.isHigh in Hr.
    destruct (Recommendation.priority r); [reflexivity|discriminate..].
  - destruct (Index.SessionData.analysis _) as [a|]; [|reflexivity]. split.
    + etransitivity; [apply sublist_take|apply filter_sublist].
    + apply length_take.
  - rewrite length_take. lia.
  - rewrite length_take. lia.
  - apply prefix_take.
  - apply prefix_take.
  - intros ->. now split.
Qed.

(** ** Small components of [src/unnamed/part_000] *)

Lemma splitLines_length (s : string) :
  length (splitLines s) = S (countLF s).
Proof.
  induction s as [|c r IH]; [reflexivity|]. cbn.
  destruct (Ascii.eqb c LF); cbn; [now rewrite IH|].
  destruct (splitLines r); [discriminate IH|exact IH].
Qed.

(** X25. [SimpleMarkdownRenderer] renders nothing for an empty content and
    otherwise one element per line, that is one more than there are line
    feeds: no line is dropped or merged.  A line of white space only is a
    spacer, and a paragraph carries its line, trimmed and not empty. *)
Theorem markdown_renders_one_block_per_line :
  Part000.SimpleMarkdownRenderer "" = None
  /\ (forall content, content <> "" ->
        exists blocks,
          Part000.SimpleMarkdownRenderer content = Some blocks
          /\ length blocks = S (countLF content))
  /\ (forall line, trim line = "" -> Part000.renderLine line = Part000.Spacer)
  /\ (forall line text,
        Part000.renderLine line = Part000.Paragraph text ->
        text = trim line /\ text <> "").
Proof.
  repeat apply conj.
  - reflexivity.
  - intros content Hne. unfold Part000.SimpleMarkdownRenderer.
    destruct content; [contradiction|]. cbn [truthy String.eqb negb].
    eexists. split; [reflexivity|].
    now rewrite length_map, splitLines_length.
  - intros line H. unfold Part000.renderLine. now rewrite H.
  - intros line text. unfold Part000.renderLine.
    repeat (break_inner_match; try discriminate).
    intros [= <-]. split; [reflexivity|].
    intros H. rewrite H in *. discriminate.
Qed.

Lemma markdown_renders_one_block_per_line_example :
  exists blocks,
    Part000.SimpleMarkdownRenderer ("# Jane" ++ String LF "- Go")%string
    = Some blocks
    /\ length blocks = 2%nat.
Proof.
  exact (proj1 (proj2 markdown_renders_one_block_per_line)
           ("# Jane" ++ String LF "- Go")%string ltac:(discriminate)).
Defined.

(** X26. The dashboard of [src/unnamed/part_000] calls the service only for
    the written practice and only while the session has no question: any
    other module is entered at once, back returning to the step of before;
    and once a call has returned at least one question, selecting the
    written practice again makes no call. *)
Theorem dashboard_generates_questions_once :
  (forall s st,
      s <> Part000.Step.written_practice ->
      Part000.Dashboard_onSelectStep s st = Done (Part000.navigateTo s st)
      /\ Part000.handleBack (Part000.navigateTo s st) = st)
  /\ (forall st,
        Part000.SessionData.questions (Part000.session st) = Some [] ->
        calls (Part000.Dashboard_onSelectStep Part000.Step.written_practice st)
        = 1%nat)
  /\ (forall st q qs,
        let st1 :=
          complete
            (Part000.Dashboard_onSelectStep Part000.Step.written_practice st)
            (Returned (QuestionsResult.mk (Some (q :: qs)))) in
        calls (Part000.Dashboard_onSelectStep Part000.Step.written_practice st1)
        = 0%nat).
Proof.
  repeat apply conj.
  - intros s st Hs. split; [|apply handleBack_navigateTo].
    unfold Part000.Dashboard_onSelectStep.
    now rewrite (bool_decide_eq_false_2 _ Hs).
  - intros st H. unfold Part000.Dashboard_onSelectStep.
    rewrite bool_decide_eq_true_2 by reflexivity. now rewrite H.
  - intros st q qs st1. subst st1. unfold Part000.Dashboard_onSelectStep.
    rewrite !bool_decide_eq_true_2 by reflexivity.
    destruct (Part000.SessionData.questions (Part000.session st))
      as [[|x xs]|] eqn:Hq; cbn; rewrite ?Hq; reflexivity.
Qed.

Lemma dashboard_generates_questions_once_example :
  Part000.Dashboard_onSelectStep Part000.Step.cover_letter samplePart000State
  = Done (Part000.navigateTo Part000.Step.cover_letter samplePart000State)
  /\ calls
       (Part000.Dashboard_onSelectStep Part000.Step.written_practice
          samplePart000State)
     = 1%nat.
Proof.
  pose proof dashboard_generates_questions_once as (H1 & H2 & _).
  split.
  - exact (proj1 (H1 Part000.Step.cover_letter samplePart000State
                    ltac:(discriminate))).
  - exact (H2 samplePart000State eq_refl).
Defined.

(** X27. The loading screen of [src/unnamed/part_000] always has a message:
    the one it was given until the first run of its timer, then one of the
    twenty fixed messages, the same again every twenty runs; the index it
    reads is never out of range. *)
Theorem loading_message_is_defined (message : string) (ticks : nat) :
  is_Some (Part000.LoadingScreen_message message ticks)
  /\ (forall m,
        Part000.LoadingScreen_message message (S ticks) = Some m ->
        m ∈ Part000.FUNNY_LOADING_MESSAGES)
  /\ Part000.LoadingScreen_message message (S ticks + 20)
     = Part000.LoadingScreen_message message (S ticks).
Proof.
  change (length Part000.FUNNY_LOADING_MESSAGES) with 20%nat.
  repeat apply conj.
  - destruct ticks as [|index]; [now eexists|].
    unfold Part000.LoadingScreen_message. apply lookup_lt_is_Some.
    change (length Part000.FUNNY_LOADING_MESSAGES) with 20%nat.
    apply Nat.mod_upper_bound. lia.
  - intros m H. unfold Part000.LoadingScreen_message in H.
    eapply list_elem_of_lookup_2, H.
  - unfold Part000.LoadingScreen_message.
    change (length Part000.FUNNY_LOADING_MESSAGES) with 20%nat.
    replace (S ticks + 20)%nat with (S (ticks + 1 * 20)) by lia.
    now rewrite Nat.Div0.mod_add.
Qed.

(** X28. The name given to a user who logs in without signing up
    ([src/index.tsx]) is the part of the email before its first [@]: the
    email is that name followed by nothing or by a text that starts with
    [@], and the name holds no [@]. *)
Theorem login_name_is_before_at (email : string) :
  exists rest,
    email = (Index.beforeAt email ++ rest)%string
    /\ (rest = "" \/ exists r, rest = String "@"%char r)
    /\ includes (Index.beforeAt email) "@" = false.
Proof.
  induction email as [|c r (rest & IH1 & IH2 & IH3)].
  - exists "". split; [reflexivity|]. split; [now left|reflexivity].
  - cbn [Index.beforeAt]. destruct (Ascii.eqb_spec c "@"%char) as [->|Hc].
    + exists (String "@"%char r). split; [reflexivity|].
      split; [right; now exists r|reflexivity].
    + exists rest. split; [|split; [exact IH2|]].
      * rewrite append_cons. now f_equal.
      * cbn [includes]. rewrite IH3, orb_false_r.
        cbn [startsWith]. apply andb_false_intro1.
        apply Ascii.eqb_neq. congruence.
Qed.

(** ** Saving an edited version: the session that is built *)

(** X23. "Save Changes" on the resume tab of [src/index.tsx], read on
    objects and read on values, agree: when the array of the session holds
    distinct objects, the session object built over the heap denotes the
    list of the session built by value, which is the list of before with
    the content of the selected version replaced, and the selected index is
    kept.  The handler throws, and sets nothing, exactly when the selected
    index is out of range. *)
Theorem save_changes_edits_selected_version
    (e : string) (h : Objects.Heap) (s : Objects.SessionObject)
    (st : Index.AppState) (elems : list Objects.ref) :
  Index.editingContent st = Some e ->
  Index.SessionData.selectedResumeIndex (Index.session st)
  = Objects.selectedResumeIndex s ->
  Objects.arrays h !! Objects.optimizedResumes s = Some elems ->
  NoDup elems ->
  Objects.readArray h (Objects.optimizedResumes s)
  = Some (Index.SessionData.optimizedResumes (Index.session st)) ->
  match Objects.saveResumeChanges e h s with
  | Some (h', s') =>
      Objects.readArray h' (Objects.optimizedResumes s')
      = Some (Index.SessionData.optimizedResumes
                (Index.session (Index.saveResumeChanges st)))
      /\ Objects.selectedResumeIndex s'
         = Index.SessionData.selectedResumeIndex
             (Index.session (Index.saveResumeChanges st))
      /\ exists v,
           Index.SessionData.optimizedResumes (Index.session st)
             !! Objects.selectedResumeIndex s = Some v
           /\ Index.SessionData.optimizedResumes
                (Index.session (Index.saveResumeChanges st))
              = <[Objects.selectedResumeIndex s := Index.withContent e v]>
                  (Index.SessionData.optimizedResumes (Index.session st))
  | None =>
      Index.saveResumeChanges st = st
      /\ (length (Index.SessionData.optimizedResumes (Index.session st))
          <= Objects.selectedResumeIndex s)%nat
  end.
Proof.
  intros He Hidx Harr Hnd Hread.
  unfold Objects.readArray in Hread. rewrite Harr in Hread.
  apply mapM_Some in Hread.
  unfold Objects.saveResumeChanges, Objects.spread, Objects.writeContent,
    Index.saveResumeChanges.
  rewrite Harr, He, Hidx. cbn.
  destruct (elems !! Objects.selectedResumeIndex s) as [target|] eqn:Ht.
  - destruct (Forall2_lookup_l _ _ _ _ _ Hread Ht) as (v & Hv & Hobj).
    rewrite Hobj, Hv. cbn. split; [|split; [exact (eq_sym Hidx)|]].
    + unfold Objects.readArray. cbn. rewrite lookup_insert_eq.
      apply mapM_Some, Forall2_same_length_lookup. split.
      * rewrite length_insert. eapply Forall2_length, Hread.
      * intros j x y Hx Hy.
        destruct (decide (j = Objects.selectedResumeIndex s)) as [->|Hj].
        -- rewrite Ht in Hx. injection Hx as <-.
           rewrite list_lookup_insert_eq in Hy
             by (eapply lookup_lt_Some, Hv).
           injection Hy as <-. apply lookup_insert_eq.
        -- rewrite list_lookup_insert_ne in Hy by congruence.
           rewrite lookup_insert_ne.
           ++ exact (Forall2_lookup_lr _ _ _ _ _ _ Hread Hx Hy).
           ++ intros <-. apply Hj. symmetry.
              exact (NoDup_lookup _ _ _ _ Hnd Ht Hx).
    + exists v. now split.
  - assert (Hnone :
      Index.SessionData.optimizedResumes (Index.session st)
        !! Objects.selectedResumeIndex s = None).
    { apply lookup_ge_None. rewrite <- (Forall2_length _ _ _ Hread).
      now apply lookup_ge_None. }
    rewrite Hnone. split; [reflexivity|]. now apply lookup_ge_None.
Qed.

Lemma save_changes_edits_selected_version_example :
  let st :=
    Index.setEditingContent (Some "new text")
      (Index.setSession
         (Index.SessionData.patch_optimizedResumes [sampleVersion] 0)
         sampleIndexState) in
  match Objects.saveResumeChanges "new text" sampleHeap sampleSessionObject
  with
  | Some (h', s') =>
      Objects.readArray h' (Objects.optimizedResumes s')
      = Some [Index.Version.mk "v1" "Standard Optimized" "new text"]
  | None => False
  end.
Proof.
  intros st.
  exact (proj1 (save_changes_edits_selected_version "new text" sampleHeap
                  sampleSessionObject st [0%nat] eq_refl eq_refl eq_refl
                  ltac:(apply NoDup_singleton) eq_refl)).
Defined.

(** ** What the states of [src/index.tsx] keep *)

Lemma onAnswerSubmit_NoDup (i : nat) (a : string) (f : AnswerFeedback.t)
    (s : Index.SessionData.t) :
  NoDup (Index.Answer.questionIndex <$> Index.SessionData.answers s) ->
  NoDup (Index.Answer.questionIndex
           <$> Index.SessionData.answers (Index.onAnswerSubmit i a f s)).
Proof.
  intros Hs. rewrite onAnswerSubmit_answers, fmap_app.
  apply NoDup_app. split; [now apply dropFirst_keys_NoDup|]. split.
  - intros j Hj Hin. cbn in Hin. apply list_elem_of_singleton in Hin.
    subst j.
    now apply (dropFirst_removes_key Index.Answer.questionIndex i) in Hs.
  - cbn. apply NoDup_singleton.
Qed.

(** Splits a conjunction of facts about a state and closes the parts that
    are hypotheses, hold by computation or have a false premise. *)
Ltac inv_done :=
  repeat split; try assumption; try reflexivity; try discriminate.

Section IndexReachable.

Context (JSON_parse_history : string -> option (list Index.SessionData.t))
        (JSON_stringify_history : list Index.SessionData.t -> string)
        (JSON_parse_user : string -> option User.t)
        (JSON_stringify_user : User.t -> string).

Lemma index_perform_invariant (a : Index.Action) (st : Index.AppState) :
  indexInvariant st ->
  indexInvariant
    (Index.perform JSON_parse_history JSON_stringify_history JSON_parse_user
       JSON_stringify_user a st).
Proof.
  unfold indexInvariant. intros (H1 & H2 & H3 & H4 & H5).
  destruct a; cbn [Index.perform].
  - unfold Index.onMount, Index.loadHistory.
    repeat (break_inner_match; cbn);
      repeat split; try assumption; discriminate.
  - cbn. inv_done.
  - cbn. inv_done.
  - unfold Index.AuthModal_handleSubmit, Index.handleLogin,
      Index.loadHistory. cbn.
    repeat (break_inner_match; cbn); inv_done.
  - cbn. inv_done.
  - cbn. inv_done.
  - unfold Index.handleFileUpload.
    destruct (Index.extractText file ex); cbn; inv_done.
  - unfold Index.handlePasteResume.
    destruct (negb _); cbn; inv_done.
  - cbn. inv_done.
  - cbn. inv_done.
  - cbn. inv_done.
  - unfold Index.clickAnalyze, Index.handleAnalyze.
    destruct (_ && _); cbn; [inv_done|].
    destruct (negb _); cbn; [inv_done|]. destruct o; cbn; inv_done.
  - cbn. inv_done.
  - unfold Index.handleGenerateOptimizedResumes.
    destruct (Index.SessionData.analysis _); cbn; [|inv_done].
    destruct o as [r|]; cbn; [|inv_done].
    destruct (VersionsResult.versions r) as [[|v vs]|]; cbn; inv_done.
    left. lia.
  - unfold Index.handleGenerateCoverLetters.
    destruct o; cbn; inv_done. now left.
  - unfold Index.handleGenerateQuestions.
    destruct o as [r|]; cbn; [|inv_done].
    destruct (QuestionsResult.questions r) as [[|q qs]|]; cbn; inv_done.
  - unfold Index.selectResume.
    destruct (_ <? _)%nat eqn:E; cbn; inv_done.
    left. now apply Nat.ltb_lt.
  - unfold Index.selectCoverLetter.
    destruct (Index.SessionData.coverLetters _) as [l|] eqn:El in |- *;
      [|inv_done].
    destruct (_ <? _)%nat eqn:E; cbn; inv_done.
    right. exists l. split; [exact El|]. now apply Nat.ltb_lt.
  - cbn. inv_done.
  - cbn. inv_done.
  - unfold Index.saveResumeChanges.
    destruct (Index.editingContent st); [|inv_done].
    destruct (_ !! _) as [v|] eqn:Hv; cbn; inv_done.
    left. rewrite length_insert. eapply lookup_lt_Some, Hv.
  - unfold Index.saveCoverLetterChanges.
    destruct (Index.editingContent st); [|inv_done].
    destruct (Index.SessionData.coverLetters _) as [l|] in |- *;
      [|inv_done].
    destruct (_ !! _) as [v|] eqn:Hv; cbn; inv_done.
    right. eexists. split; [reflexivity|].
    rewrite length_insert. eapply lookup_lt_Some, Hv.
  - split; [|split; [|split; [|split]]]; try (cbn; assumption).
    cbn [Index.setSession Index.session]. now apply onAnswerSubmit_NoDup.
  - unfold Index.handleFinishSession, Index.saveHistoryToStorage.
    destruct (Index.user st) eqn:Hu; cbn; rewrite ?Hu; cbn; inv_done.
    rewrite Hu. discriminate.
  - cbn. inv_done.
    + right. now split.
    + now left.
    + apply NoDup_nil_2.
Qed.

End IndexReachable.



(** X24. Whatever the user does in [src/index.tsx] from the page as
    loaded, and whatever the AI calls and the storage return: the selected
    resume index and the selected cover letter index point into their
    lists (or are 0 beside an empty or missing list), so that as soon as
    versions exist the selected one exists; no history is in memory while
    nobody is logged in; no question has two answers; and the loading
    screen is off whenever a handler has finished. *)
Theorem index_selection_stays_valid
    (JSON_parse_history : string -> option (list Index.SessionData.t))
    (JSON_stringify_history : list Index.SessionData.t -> string)
    (JSON_parse_user : string -> option User.t)
    (JSON_stringify_user : User.t -> string)
    (actions : list Index.Action) (uuid : string) (now : Z)
    (storage : Storage) :
  let st :=
    Index.run JSON_parse_history JSON_stringify_history JSON_parse_user
      JSON_stringify_user actions (Index.initialState uuid now storage) in
  let s := Index.session st in
  indexInvariant st
  /\ (Index.SessionData.optimizedResumes s <> [] ->
      is_Some (Index.SessionData.optimizedResumes s
                 !! Index.SessionData.selectedResumeIndex s)).
Proof.
  intros st s.
  assert (Hinv : indexInvariant st).
  { subst st. unfold Index.run.
    assert (H0 : indexInvariant (Index.initialState uuid now storage)).
    { unfold indexInvariant. cbn. inv_done.
      - right. now split.
      - now left.
      - apply NoDup_nil_2. }
    revert H0. generalize (Index.initialState uuid now storage).
    induction actions as [|a actions IH]; intros st0 H0; [exact H0|].
    cbn [fold_left]. apply IH. now apply index_perform_invariant. }
  split; [exact Hinv|].
  destruct Hinv as ([Hlt | [Hnil _]] & _); fold s in Hlt || fold s in Hnil.
  - intros _. now apply lookup_lt_is_Some.
  - intros Hne. now destruct Hne.
Qed.

(** ** Identity switch, from any state of the page *)



